(** * toyou-proxy: the request-dispatch pipeline, embedded in Rocq

    A shallow embedding of the matcher, the per-request middleware chain,
    the dispatcher, the load-balancer and the rate-limit and replace
    middlewares of the Go sources, followed by the statements that the
    design document makes about them.

    Conventions.
    - Go [string] is [String.string] (a byte sequence); Go [int] is [Z]
      with the 64-bit two's-complement wrap-around written out ([GoInt]).
    - Go [map] is stdpp's [gmap].  A [for ... range m] loop over a map
      visits the entries in an order the language leaves unspecified; the
      models take that order as an explicit argument.
    - Pointers into a slice become positions in a list that is rebuilt by
      the mutating operation.
    - Code that the Go standard library provides (regexp, net/url, the
      HTTP client) is an interface the models are parameterised by. *)

From Stdlib Require Import ZArith Lia String Ascii List Bool.
From stdpp Require Import base option list gmap strings.

Local Open Scope string_scope.
Local Open Scope Z_scope.

(** ** Go's [int] on a 64-bit platform *)

Module GoInt.

Definition maxInt : Z := 2 ^ 63 - 1.
Definition minInt : Z := - 2 ^ 63.

(** Two's-complement reduction of a mathematical integer to [int]. *)
Definition wrap (z : Z) : Z := (z + 2 ^ 63) mod 2 ^ 64 - 2 ^ 63.

Definition inRange (z : Z) : Prop := minInt <= z <= maxInt.

Definition add (a b : Z) : Z := wrap (a + b).
Definition sub (a b : Z) : Z := wrap (a - b).

(** [a % b]: the remainder of the division truncated towards zero. *)
Definition rem (a b : Z) : Z := Z.rem a b.

End GoInt.

(** ** Package [strings] *)

(** [strings.Map(unicode.ToLower, s)], the lowering of text that is not
    ASCII, as an interface. *)
Class Unicode := { MapToLower : string -> string }.

Module GoStrings.

Fixpoint HasPrefix (s prefix : string) {struct prefix} : bool :=
  match prefix, s with
  | EmptyString, _ => true
  | String _ _, EmptyString => false
  | String p prefix', String c s' => Ascii.eqb c p && HasPrefix s' prefix'
  end.

(** [s[i:]] for [0 <= i <= len(s)]. *)
Fixpoint sliceFrom (i : nat) (s : string) : string :=
  match i, s with
  | O, _ => s
  | S i', String _ s' => sliceFrom i' s'
  | S _, EmptyString => EmptyString
  end.

(** [s[:i]] for [0 <= i <= len(s)]. *)
Fixpoint sliceTo (i : nat) (s : string) : string :=
  match i, s with
  | O, _ => EmptyString
  | S i', String c s' => String c (sliceTo i' s')
  | S _, EmptyString => EmptyString
  end.

(** [len(s) >= len(suffix) && s[len(s)-len(suffix):] == suffix] *)
Definition HasSuffix (s suffix : string) : bool :=
  (String.length suffix <=? String.length s)%nat
  && String.eqb (sliceFrom (String.length s - String.length suffix) s) suffix.

Fixpoint Contains (s substr : string) : bool :=
  HasPrefix s substr
  || match s with
     | EmptyString => false
     | String _ s' => Contains s' substr
     end.

(** [strings.Index(s, substr)]: the first position at which [substr]
    occurs, [-1] when it does not occur. *)
Fixpoint Index (s substr : string) : Z :=
  if HasPrefix s substr then 0
  else match s with
       | EmptyString => -1
       | String _ s' =>
           let i := Index s' substr in
           if i <? 0 then -1 else i + 1
       end.

Definition lowerByte (c : ascii) : ascii :=
  let n := nat_of_ascii c in
  if ((65 <=? n) && (n <=? 90))%nat then ascii_of_nat (n + 32) else c.

Definition upperByte (c : ascii) : ascii :=
  let n := nat_of_ascii c in
  if ((97 <=? n) && (n <=? 122))%nat then ascii_of_nat (n - 32) else c.

(** The first loop of [strings.ToLower]: every byte is below
    [utf8.RuneSelf]; some byte is one of [A]..[Z]. *)
Fixpoint isASCII (s : string) : bool :=
  match s with
  | EmptyString => true
  | String c s' => (nat_of_ascii c <? 128)%nat && isASCII s'
  end.

Fixpoint hasUpper (s : string) : bool :=
  match s with
  | EmptyString => false
  | String c s' =>
      ((65 <=? nat_of_ascii c) && (nat_of_ascii c <=? 90))%nat || hasUpper s'
  end.

(** The second loop, on ASCII text: the letters [A]..[Z] are lowered and
    every other byte is kept. *)
Fixpoint lowerASCII (s : string) : string :=
  match s with
  | EmptyString => EmptyString
  | String c s' => String (lowerByte c) (lowerASCII s')
  end.

(** [strings.ToLower]: ASCII text is lowered byte by byte (and returned
    as it is when it has no upper-case letter); any other text goes
    through [strings.Map(unicode.ToLower, s)]. *)
Definition ToLower `{Unicode} (s : string) : string :=
  if isASCII s then
    if negb (hasUpper s) then s else lowerASCII s
  else MapToLower s.

End GoStrings.

(** ** Package [regexp], as an interface

    [Compile] fails on a malformed pattern; [MustCompile] panics there. *)

Class RegexpEngine := {
  Regexp : Type;
  Compile : string -> option Regexp;
  MatchString : Regexp -> string -> bool;
  ReplaceAllString : Regexp -> string -> string -> string
}.

(** ** Package [net/http]: the parts of a request the proxy reads *)

Module http.

(** [textproto.CanonicalMIMEHeaderKey] on a key made of token bytes: the
    first letter and every letter after a hyphen are upper case, the
    others lower case. *)
Fixpoint canonicalFrom (upper : bool) (s : string) : string :=
  match s with
  | EmptyString => EmptyString
  | String c s' =>
      String (if upper then GoStrings.upperByte c else GoStrings.lowerByte c)
             (canonicalFrom (Ascii.eqb c "-"%char) s')
  end.

Definition CanonicalHeaderKey (s : string) : string := canonicalFrom true s.

(** [http.Header]: canonical key to the list of values received. *)
Definition Header := gmap string (list string).

(** [Header.Get]: the first value stored under the canonical form of
    [key], the empty string when there is none. *)
Definition Get (h : Header) (key : string) : string :=
  match h !! CanonicalHeaderKey key with
  | Some (v :: _) => v
  | _ => EmptyString
  end.

Record Request := {
  Method : string;
  Host : string;
  URLPath : string;
  RequestHeader : Header;
  RemoteAddr : string
}.

Definition StatusTooManyRequests : Z := 429.
Definition StatusBadGateway : Z := 502.

(** What a handler has sent through an [http.ResponseWriter]: the status
    line, once written, and the body bytes. *)
Record ResponseWriter := {
  wroteHeader : option Z;
  body : string
}.

Definition newResponseWriter : ResponseWriter :=
  {| wroteHeader := None; body := EmptyString |}.

(** [w.WriteHeader(code)]: only the first call sets the status. *)
Definition WriteHeader (w : ResponseWriter) (code : Z) : ResponseWriter :=
  match wroteHeader w with
  | Some _ => w
  | None => {| wroteHeader := Some code; body := body w |}
  end.

(** [http.Error(w, msg, code)]: the status, then the message and a newline. *)
Definition Error (w : ResponseWriter) (msg : string) (code : Z) : ResponseWriter :=
  let w' := WriteHeader w code in
  {| wroteHeader := wroteHeader w'; body := body w' +:+ msg +:+ String "010"%char EmptyString |}.

End http.

(** ** Package [proxy]: WebSocket upgrade detection *)

Module websocket.
Import http GoStrings.

Definition isWebSocketUpgrade `{Unicode} (r : Request) : bool :=
  let connection := ToLower (Get (RequestHeader r) "Connection") in
  if negb (Contains connection "upgrade") then false
  else
    let upgrade := ToLower (Get (RequestHeader r) "Upgrade") in
    if negb (String.eqb upgrade "websocket") then false
    else if negb (String.eqb (Get (RequestHeader r) "Sec-WebSocket-Version") "13") then false
    else if String.eqb (Get (RequestHeader r) "Sec-WebSocket-Key") EmptyString then false
    else true.

End websocket.

(** ** Package [config] *)

Module config.

(** A value of type [interface{}], as the YAML decoder and the
    middlewares produce them. *)
Inductive Value :=
| VNil
| VBool (b : bool)
| VInt (z : Z)
| VString (s : string)
| VOther.

(** [map[string]interface{}]; [None] is the nil map. *)
Definition ConfigMap := option (gmap string Value).

Module RouteRule.
Record t := {
  Pattern : string;
  Target : string;
  Middlewares : list string
}.
End RouteRule.

Module HostRule.
Record t := {
  Pattern : string;
  Port : Z;
  Target : string;
  Middlewares : list string;
  RouteRules : list RouteRule.t
}.
End HostRule.

Module Service.
Record t := {
  URL : string;
  ProxyHost : string
}.
End Service.

Module Middleware.
Record t := {
  Name : string;
  Enabled : bool;
  Config : ConfigMap
}.
End Middleware.

Module MiddlewareService.
Record t := {
  Name : string;
  Type_ : string;
  Enabled : bool;
  IsGlobal : bool;
  Config : ConfigMap;
  Description : string
}.
End MiddlewareService.

Record Config := {
  HostRules : list HostRule.t;
  Services : gmap string Service.t;
  Middlewares : list Middleware.t;
  MiddlewareServices : list MiddlewareService.t
}.

End config.

(** ** Package [matcher] *)

Module matcher.
Import GoStrings.

Record HostMatcher := { rules : gmap string string }.

Definition NewHostMatcher : HostMatcher := {| rules := ∅ |}.

Definition AddRule (hm : HostMatcher) (pattern target : string) : HostMatcher :=
  {| rules := <[pattern := target]> (rules hm) |}.

(** An order in which [for pattern, target := range hm.rules] may visit
    the rules: any arrangement of the entries of the map. *)
Definition rangeOrder (hm : HostMatcher) (order : list (string * string)) : Prop :=
  order ≡ₚ map_to_list (rules hm).

(** The wildcard loop of [HostMatcher.Match], over the visiting order. *)
Fixpoint matchWildcard (order : list (string * string)) (host : string)
  : string * bool :=
  match order with
  | [] => (EmptyString, false)
  | (pattern, target) :: rest =>
      if HasPrefix pattern "*." then
        let domain := sliceFrom 2 pattern in
        if HasSuffix host domain then
          if String.eqb host domain || HasSuffix host ("." +:+ domain)
          then (target, true)
          else matchWildcard rest host
        else matchWildcard rest host
      else matchWildcard rest host
  end.

Definition Match (hm : HostMatcher) (order : list (string * string))
  (host : string) : string * bool :=
  match rules hm !! host with
  | Some target => (target, true)
  | None => matchWildcard order host
  end.

(** The sibling matcher for paths, [RouteMatcher.Match]: exact lookup,
    then the [prefix/*] loop, then the [^...$] loop. *)
Record RouteMatcher := { routeRules : gmap string string }.

Fixpoint matchPrefix (order : list (string * string)) (path : string)
  : option string :=
  match order with
  | [] => None
  | (pattern, target) :: rest =>
      if HasSuffix pattern "/*" then
        let prefix := sliceTo (String.length pattern - 2) pattern in
        if HasPrefix path prefix then
          if String.eqb path prefix || HasPrefix path (prefix +:+ "/")
          then Some target
          else matchPrefix rest path
        else matchPrefix rest path
      else matchPrefix rest path
  end.

Fixpoint matchRegexp `{RegexpEngine} (order : list (string * string))
  (path : string) : option string :=
  match order with
  | [] => None
  | (pattern, target) :: rest =>
      if HasPrefix pattern "^" && HasSuffix pattern "$" then
        match Compile pattern with
        | Some re =>
            if MatchString re path then Some target
            else matchRegexp rest path
        | None => matchRegexp rest path
        end
      else matchRegexp rest path
  end.

Definition RouteMatch `{RegexpEngine} (rm : RouteMatcher)
  (order1 order2 : list (string * string)) (path : string) : string * bool :=
  match routeRules rm !! path with
  | Some target => (target, true)
  | None =>
      match matchPrefix order1 path with
      | Some target => (target, true)
      | None =>
          match matchRegexp order2 path with
          | Some target => (target, true)
          | None => (EmptyString, false)
          end
      end
  end.

End matcher.

(** ** Package [middleware]: context, chain, factory, service registry *)

Module middleware.
Import config.

Record Context := {
  Request : http.Request;
  Response : http.ResponseWriter;
  Values : gmap string Value;
  TargetURL : string;
  ServiceName : string;
  StatusCode : Z
}.

(** The [Middleware] interface: [Handle] works on the context through a
    pointer, so it returns the context it leaves behind. *)
Record Middleware := {
  Name : string;
  Handle : Context -> Context * bool
}.

Record DefaultMiddlewareChain := { middlewares : list Middleware }.

Definition NewMiddlewareChain : DefaultMiddlewareChain := {| middlewares := [] |}.

Definition Add (dmc : DefaultMiddlewareChain) (mw : Middleware) : DefaultMiddlewareChain :=
  {| middlewares := (middlewares dmc ++ [mw])%list |}.

Fixpoint executeFrom (mws : list Middleware) (ctx : Context) : Context * bool :=
  match mws with
  | [] => (ctx, true)
  | mw :: rest =>
      let '(ctx', ok) := Handle mw ctx in
      if negb ok then (ctx', false) else executeFrom rest ctx'
  end.

Definition Execute (dmc : DefaultMiddlewareChain) (ctx : Context) : Context * bool :=
  executeFrom (middlewares dmc) ctx.

Definition GetMiddlewareNames (dmc : DefaultMiddlewareChain) : list string :=
  map Name (middlewares dmc).

(** A creator either builds a middleware from the configuration map or
    fails. *)
Definition Creator := ConfigMap -> option Middleware.

Record DefaultMiddlewareFactory := { creators : gmap string Creator }.

Definition NewMiddlewareFactory : DefaultMiddlewareFactory := {| creators := ∅ |}.

Definition RegisterMiddleware (dmf : DefaultMiddlewareFactory) (name : string)
  (creator : Creator) : DefaultMiddlewareFactory :=
  {| creators := <[name := creator]> (creators dmf) |}.

(** [CreateMiddleware]: [None] stands for the error results (creator not
    found, creator failed). *)
Definition CreateMiddleware (dmf : DefaultMiddlewareFactory) (name : string)
  (cfg : ConfigMap) : option Middleware :=
  match creators dmf !! name with
  | None => None
  | Some creator => creator cfg
  end.

Record DefaultMiddlewareServiceRegistry := {
  services : gmap string MiddlewareService.t
}.

Definition Register (d : DefaultMiddlewareServiceRegistry) (name : string)
  (svc : MiddlewareService.t) : DefaultMiddlewareServiceRegistry :=
  {| services := <[name := svc]> (services d) |}.

(** [Init]: the enabled middleware services of the configuration, by name. *)
Definition Init (d : DefaultMiddlewareServiceRegistry) (cfg : Config)
  : DefaultMiddlewareServiceRegistry :=
  fold_left
    (fun d svc =>
       if MiddlewareService.Enabled svc
       then Register d (MiddlewareService.Name svc) svc
       else d)
    (MiddlewareServices cfg) d.

(** An outcome of [List]: the registered services in some order. *)
Definition listOrder (d : DefaultMiddlewareServiceRegistry)
  (l : list MiddlewareService.t) : Prop :=
  l ≡ₚ (map_to_list (services d)).*2.

End middleware.

(** ** Package [proxy]: the dispatcher *)

(** [url.Parse(s)] followed by [Hostname()]; [None] when parsing fails. *)
Class URLParser := { Hostname : string -> option string }.

Module proxy.
Import GoStrings config middleware.

Record ProxyHandler := {
  hostMatcher : matcher.HostMatcher;
  services : gmap string Service.t;
  factory : DefaultMiddlewareFactory;
  cfg : Config
}.

(** The host of the request with everything from the first colon on
    removed ([determineTarget], before the matcher is asked). *)
Definition stripPort (host : string) : string :=
  let colonIndex := Index host ":" in
  if negb (colonIndex =? -1) then sliceTo (Z.to_nat colonIndex) host else host.

(** The first host rule whose target is the name the matcher returned. *)
Fixpoint findHostRule (hostRules : list HostRule.t) (targetServiceName : string)
  : option HostRule.t :=
  match hostRules with
  | [] => None
  | hostRule :: rest =>
      if String.eqb (HostRule.Target hostRule) targetServiceName
      then Some hostRule
      else findHostRule rest targetServiceName
  end.

(** The loop of [determineTarget] over the route rules of the matched host
    rule.  A rule whose pattern matches but whose target is not a
    configured service is passed over. *)
Fixpoint matchRouteRules `{RegexpEngine} (svcs : gmap string Service.t)
  (path : string) (routeRules : list RouteRule.t)
  : option (Service.t * RouteRule.t) :=
  match routeRules with
  | [] => None
  | routeRule :: rest =>
      let pattern := RouteRule.Pattern routeRule in
      let serve :=
        match svcs !! RouteRule.Target routeRule with
        | Some service => Some (service, routeRule)
        | None => matchRouteRules svcs path rest
        end in
      if String.eqb pattern "/" && String.eqb path "/" then serve
      else if HasSuffix pattern "/*" then
        let prefix := sliceTo (String.length pattern - 2) pattern in
        if HasPrefix path prefix then
          if String.eqb path prefix || HasPrefix path (prefix +:+ "/")
          then serve
          else matchRouteRules svcs path rest
        else matchRouteRules svcs path rest
      else if HasPrefix pattern "^" && HasSuffix pattern "$" then
        match Compile pattern with
        | Some re =>
            if MatchString re path then serve
            else matchRouteRules svcs path rest
        | None => matchRouteRules svcs path rest
        end
      else matchRouteRules svcs path rest
  end.

(** [determineTarget]; [None] is the error "no matching rule found".
    [order] is the order in which the matcher ranges over its rules. *)
Definition determineTarget `{RegexpEngine} (ph : ProxyHandler)
  (order : list (string * string)) (r : http.Request)
  : option (Service.t * HostRule.t * option RouteRule.t) :=
  let host := stripPort (http.Host r) in
  let '(targetServiceName, matched) := matcher.Match (hostMatcher ph) order host in
  if negb matched then None
  else
    match findHostRule (HostRules (cfg ph)) targetServiceName with
    | Some matchedHostRule =>
        match matchRouteRules (services ph) (http.URLPath r)
                (HostRule.RouteRules matchedHostRule) with
        | Some (service, routeRule) => Some (service, matchedHostRule, Some routeRule)
        | None =>
            match services ph !! HostRule.Target matchedHostRule with
            | Some service => Some (service, matchedHostRule, None)
            | None => None
            end
        end
    | None => None
    end.

(** The map [enabledMiddlewares]: the enabled entries of
    [cfg.Middlewares] by name, a later entry replacing an earlier one. *)
Definition enabledMiddlewares (mws : list Middleware.t) : gmap string Middleware.t :=
  fold_left
    (fun m mwConfig =>
       if Middleware.Enabled mwConfig
       then <[Middleware.Name mwConfig := mwConfig]> m
       else m)
    mws ∅.

(** The body shared by the route-level and the host-level loop: first the
    factory with a nil configuration, then the enabled configuration of
    that name, else nothing. *)
Definition addNamed (f : DefaultMiddlewareFactory)
  (enabled : gmap string Middleware.t) (chain : DefaultMiddlewareChain)
  (mwName : string) : DefaultMiddlewareChain :=
  match CreateMiddleware f mwName None with
  | Some mw => Add chain mw
  | None =>
      match enabled !! mwName with
      | Some mwConfig =>
          match CreateMiddleware f (Middleware.Name mwConfig) (Middleware.Config mwConfig) with
          | Some mw => Add chain mw
          | None => chain
          end
      | None => chain
      end
  end.

(** The flag [alreadyAdded] of the two global loops: the name occurs in
    the middleware list of the route rule, or else in that of the host
    rule. *)
Definition alreadyAdded (hostRule : option HostRule.t)
  (routeRule : option RouteRule.t) (name : string) : bool :=
  let inRoute :=
    match routeRule with
    | Some rr => existsb (fun mwName => String.eqb mwName name) (RouteRule.Middlewares rr)
    | None => false
    end in
  if inRoute then true
  else
    match hostRule with
    | Some hr => existsb (fun mwName => String.eqb mwName name) (HostRule.Middlewares hr)
    | None => false
    end.

(** [createDynamicMiddlewareChain].  [registry] is what
    [GetMiddlewareServiceRegistry().List()] returns for this call, [None]
    when the registry is nil. *)
Definition createDynamicMiddlewareChain (ph : ProxyHandler)
  (registry : option (list MiddlewareService.t))
  (hostRule : option HostRule.t) (routeRule : option RouteRule.t)
  : DefaultMiddlewareChain :=
  let chain := NewMiddlewareChain in
  let f := factory ph in
  let enabled := enabledMiddlewares (Middlewares (cfg ph)) in
  (* route level *)
  let chain :=
    match routeRule with
    | Some rr => fold_left (addNamed f enabled) (RouteRule.Middlewares rr) chain
    | None => chain
    end in
  (* host level *)
  let chain :=
    match hostRule with
    | Some hr => fold_left (addNamed f enabled) (HostRule.Middlewares hr) chain
    | None => chain
    end in
  (* global middlewares *)
  let chain :=
    fold_left
      (fun chain mwConfig =>
         if Middleware.Enabled mwConfig then
           if negb (alreadyAdded hostRule routeRule (Middleware.Name mwConfig)) then
             match CreateMiddleware f (Middleware.Name mwConfig) (Middleware.Config mwConfig) with
             | Some mw => Add chain mw
             | None => chain
             end
           else chain
         else chain)
      (Middlewares (cfg ph)) chain in
  (* global middleware services *)
  match registry with
  | Some listed =>
      fold_left
        (fun chain service =>
           if MiddlewareService.IsGlobal service then
             if negb (alreadyAdded hostRule routeRule (MiddlewareService.Name service)) then
               match CreateMiddleware f (MiddlewareService.Name service) None with
               | Some mw => Add chain mw
               | None => chain
               end
             else chain
           else chain)
        listed chain
  | None => chain
  end.

Definition getServiceName `{URLParser} (urlStr : string) : string :=
  match Hostname urlStr with
  | Some h => h
  | None => urlStr
  end.

(** The step of [ServeHTTP] after the chain has run: a string stored
    under [dynamic_target_service] that names a configured service
    replaces the target. *)
Definition resolveDynamicTarget `{URLParser} (ph : ProxyHandler)
  (targetService : Service.t) (ctx : Context) : Service.t * Context :=
  match Values ctx !! "dynamic_target_service" with
  | Some (VString dynamicTargetServiceName) =>
      match services ph !! dynamicTargetServiceName with
      | Some service =>
          (service,
           {| Request := Request ctx; Response := Response ctx;
              Values := Values ctx;
              TargetURL := Service.URL service;
              ServiceName := getServiceName (Service.URL service);
              StatusCode := StatusCode ctx |})
      | None => (targetService, ctx)
      end
  | _ => (targetService, ctx)
  end.

(** How [ServeHTTP] ends, up to the hand-over to the reverse proxy. *)
Inductive Outcome :=
| NoTarget (w : http.ResponseWriter)
| Aborted (w : http.ResponseWriter)
| ProxyTo (targetService : Service.t) (ctx : Context).

(** The context [ServeHTTP] builds and seeds from the matched service. *)
Definition newContext `{URLParser} (w : http.ResponseWriter) (r : http.Request)
  (targetService : Service.t) : Context :=
  {| Request := r; Response := w; Values := ∅;
     TargetURL := Service.URL targetService;
     ServiceName := getServiceName (Service.URL targetService);
     StatusCode := 0 |}.

Definition noMatchMessage (r : http.Request) : string :=
  "no matching rule found for host: " +:+ http.Host r
  +:+ ", path: " +:+ http.URLPath r.

Definition ServeHTTP `{RegexpEngine} `{URLParser} (ph : ProxyHandler)
  (order : list (string * string))
  (registry : option (list MiddlewareService.t))
  (w : http.ResponseWriter) (r : http.Request) : Outcome :=
  match determineTarget ph order r with
  | None => NoTarget (http.Error w (noMatchMessage r) http.StatusBadGateway)
  | Some (targetService, hostRule, routeRule) =>
      let ctx := newContext w r targetService in
      let dynamicMiddlewareChain :=
        createDynamicMiddlewareChain ph registry (Some hostRule) routeRule in
      let '(ctx, ok) := Execute dynamicMiddlewareChain ctx in
      if negb ok then
        Aborted (if negb (StatusCode ctx =? 0)
                 then http.WriteHeader (Response ctx) (StatusCode ctx)
                 else Response ctx)
      else
        let '(targetService, ctx) := resolveDynamicTarget ph targetService ctx in
        ProxyTo targetService ctx
  end.

End proxy.

(** ** Package [loadbalancer] *)

(** A Go function result [(T, error)]. *)
Inductive result (A : Type) :=
| Ok (a : A)
| Err (msg : string).
Arguments Ok {A} a.
Arguments Err {A} msg.

Module loadbalancer.

Record HealthCheckConfig := {
  Enabled : bool;
  Interval : Z;
  Timeout : Z;
  Path : string
}.

Module Backend.
Record t := {
  URL : string;
  Weight : Z;
  Active : bool;
  Connections : Z;
  ResponseTime : Z;
  HealthCheck : HealthCheckConfig
}.
End Backend.
Import Backend.

Record LoadBalancerConfig := {
  Strategy : string;
  Backends : list Backend.t;
  GlobalHealthCheck : HealthCheckConfig
}.

(** [backends[i]] points at [config.Backends[i]]: the list [backends] is
    the one store both names reach. *)
Record BaseLoadBalancer := {
  config : LoadBalancerConfig;
  backends : list Backend.t
}.

Definition NewBaseLoadBalancer (c : LoadBalancerConfig) : BaseLoadBalancer :=
  {| config := c; backends := Backends c |}.

(** [for _, backend := range lb.backends { if backend.URL == url { ...; break } }] *)
Fixpoint updateFirst (url : string) (f : Backend.t -> Backend.t)
  (bs : list Backend.t) : list Backend.t :=
  match bs with
  | [] => []
  | backend :: rest =>
      if String.eqb (URL backend) url then f backend :: rest
      else backend :: updateFirst url f rest
  end.

Definition setConnections (b : Backend.t) (n : Z) : Backend.t :=
  {| URL := URL b; Weight := Weight b; Active := Active b;
     Connections := n; ResponseTime := ResponseTime b;
     HealthCheck := HealthCheck b |}.

Definition setActive (b : Backend.t) (a : bool) : Backend.t :=
  {| URL := URL b; Weight := Weight b; Active := a;
     Connections := Connections b; ResponseTime := ResponseTime b;
     HealthCheck := HealthCheck b |}.

Definition withBackends (lb : BaseLoadBalancer) (bs : list Backend.t)
  : BaseLoadBalancer :=
  {| config := config lb; backends := bs |}.

Definition UpdateBackendStatus (lb : BaseLoadBalancer) (url : string)
  (active : bool) : BaseLoadBalancer :=
  withBackends lb (updateFirst url (fun backend => setActive backend active) (backends lb)).

Definition IncrementConnection (lb : BaseLoadBalancer) (url : string)
  : BaseLoadBalancer :=
  withBackends lb
    (updateFirst url
       (fun backend => setConnections backend (GoInt.add (Connections backend) 1))
       (backends lb)).

Definition DecrementConnection (lb : BaseLoadBalancer) (url : string)
  : BaseLoadBalancer :=
  withBackends lb
    (updateFirst url
       (fun backend =>
          if Connections backend >? 0
          then setConnections backend (GoInt.sub (Connections backend) 1)
          else backend)
       (backends lb)).

Definition GetActiveBackends (lb : BaseLoadBalancer) : list Backend.t :=
  List.filter Active (backends lb).

(** *** weighted_round_robin *)

Record WeightedRoundRobinLoadBalancer := {
  base : BaseLoadBalancer;
  current : Z;
  weight : Z
}.

Definition NewWeightedRoundRobinLoadBalancer (c : LoadBalancerConfig)
  : WeightedRoundRobinLoadBalancer :=
  {| base := NewBaseLoadBalancer c; current := 0; weight := 0 |}.

(** The first loop of [NextBackend]. *)
Definition totalWeightOf (activeBackends : list Backend.t) : Z :=
  fold_left
    (fun totalWeight backend =>
       if Weight backend <=? 0 then GoInt.add totalWeight 1
       else GoInt.add totalWeight (Weight backend))
    activeBackends 0.

(** The second loop of [NextBackend]; [None] when it runs to its end. *)
Fixpoint selectByWeight (targetWeight currentWeight : Z)
  (activeBackends : list Backend.t) : option Backend.t :=
  match activeBackends with
  | [] => None
  | backend :: rest =>
      let weight := if Weight backend <=? 0 then 1 else Weight backend in
      let currentWeight := GoInt.add currentWeight weight in
      if targetWeight <? currentWeight then Some backend
      else selectByWeight targetWeight currentWeight rest
  end.

Definition NextBackend (lb : WeightedRoundRobinLoadBalancer)
  : result Backend.t * WeightedRoundRobinLoadBalancer :=
  let activeBackends := GetActiveBackends (base lb) in
  match activeBackends with
  | [] => (Err "no active backends available", lb)
  | first :: _ =>
      let totalWeight := totalWeightOf activeBackends in
      if totalWeight =? 0 then (Err "invalid weights for backends", lb)
      else
        let targetWeight := GoInt.rem (weight lb) totalWeight in
        let lb' := {| base := base lb; current := current lb;
                      weight := GoInt.add (weight lb) 1 |} in
        match selectByWeight targetWeight 0 activeBackends with
        | Some backend => (Ok backend, lb')
        | None => (Ok first, lb')
        end
  end.

(** [k] calls in a row, with the backends they returned. *)
Fixpoint nextBackends (k : nat) (lb : WeightedRoundRobinLoadBalancer)
  : list (result Backend.t) * WeightedRoundRobinLoadBalancer :=
  match k with
  | O => ([], lb)
  | S k' =>
      let '(r, lb1) := NextBackend lb in
      let '(rs, lb2) := nextBackends k' lb1 in
      (r :: rs, lb2)
  end.

(** *** Health checker *)

(** What the probe request comes to: [http.NewRequest] fails, the client
    returns an error (refused, timed out, ...), or a response arrives. *)
Inductive ProbeResult :=
| NewRequestError
| DoError
| Response (StatusCode : Z).

(** The world the checker probes: the result of [GET url] under a
    timeout. *)
Definition Network := string -> Z -> ProbeResult.

Definition checkBackend (lb : BaseLoadBalancer) (net : Network)
  (backend : Backend.t) : Backend.t :=
  let probe (cfg : HealthCheckConfig) :=
    let url := if negb (String.eqb (Path cfg) EmptyString)
               then URL backend +:+ Path cfg else URL backend in
    match net url (Timeout cfg) with
    | NewRequestError => setActive backend false
    | DoError => setActive backend false
    | Response StatusCode =>
        setActive backend ((200 <=? StatusCode) && (StatusCode <? 300))
    end in
  if negb (Enabled (HealthCheck backend)) then
    if negb (Enabled (GlobalHealthCheck (config lb))) then setActive backend true
    else probe (GlobalHealthCheck (config lb))
  else probe (HealthCheck backend).

(** [checkAllBackends]: one probe per backend, each writing its own
    backend. *)
Definition checkAllBackends (lb : BaseLoadBalancer) (net : Network)
  : BaseLoadBalancer :=
  withBackends lb (map (checkBackend lb net) (backends lb)).

(** The synchronous part of [HealthChecker.Start]. *)
Definition Start (lb : BaseLoadBalancer) : BaseLoadBalancer :=
  if negb (Enabled (GlobalHealthCheck (config lb))) then lb
  else withBackends lb (map (fun backend => setActive backend true) (backends lb)).

(** A sequence of connection-counter calls. *)
Inductive ConnCall :=
| Increment (url : string)
| Decrement (url : string).

Definition applyCall (lb : BaseLoadBalancer) (c : ConnCall) : BaseLoadBalancer :=
  match c with
  | Increment url => IncrementConnection lb url
  | Decrement url => DecrementConnection lb url
  end.

Definition applyCalls (lb : BaseLoadBalancer) (cs : list ConnCall)
  : BaseLoadBalancer :=
  fold_left applyCall cs lb.

End loadbalancer.

(** ** The [rate_limit] middleware

    Instants and durations are nanosecond counts, as in package [time];
    the clock reads of one call to [Handle] are one instant [now]. *)

Module gotime.
Definition Second : Z := 1000000000.
Definition Minute : Z := 60 * Second.
(** [t.Sub(u)] *)
Definition Sub (t u : Z) : Z := t - u.
End gotime.

(** [getClientIP], the same text in both implementations. *)
Definition getClientIP (r : http.Request) : string :=
  let forwarded := http.Get (http.RequestHeader r) "X-Forwarded-For" in
  if negb (String.eqb forwarded EmptyString) then forwarded
  else
    let realIP := http.Get (http.RequestHeader r) "X-Real-IP" in
    if negb (String.eqb realIP EmptyString) then realIP
    else http.RemoteAddr r.

(** [http.Error(ctx.Response, "Rate limit exceeded", 429)] after
    [ctx.StatusCode = 429]. *)
Definition rejectTooMany (ctx : middleware.Context) : middleware.Context :=
  {| middleware.Request := middleware.Request ctx;
     middleware.Response :=
       http.Error (middleware.Response ctx) "Rate limit exceeded"
         http.StatusTooManyRequests;
     middleware.Values := middleware.Values ctx;
     middleware.TargetURL := middleware.TargetURL ctx;
     middleware.ServiceName := middleware.ServiceName ctx;
     middleware.StatusCode := http.StatusTooManyRequests |}.

(** *** The middleware of package [middleware] (rate_limit_middleware.go) *)

Module ratelimit.

Record rateLimiter := {
  lastRequest : Z;
  requests : Z;
  burst : Z
}.

Record RateLimitMiddleware := {
  requestsPerMinute : Z;
  burstSize : Z;
  clients : gmap string rateLimiter
}.

Definition NewRateLimitMiddleware (requestsPerMinute burstSize : Z)
  : RateLimitMiddleware :=
  {| requestsPerMinute := requestsPerMinute; burstSize := burstSize;
     clients := ∅ |}.

Definition withClient (rlm : RateLimitMiddleware) (ip : string)
  (l : rateLimiter) : RateLimitMiddleware :=
  {| requestsPerMinute := requestsPerMinute rlm; burstSize := burstSize rlm;
     clients := <[ip := l]> (clients rlm) |}.

Definition Handle (rlm : RateLimitMiddleware) (now : Z)
  (ctx : middleware.Context)
  : RateLimitMiddleware * middleware.Context * bool :=
  let clientIP := getClientIP (middleware.Request ctx) in
  let limiter :=
    match clients rlm !! clientIP with
    | Some limiter => limiter
    | None => {| lastRequest := now; requests := 0; burst := burstSize rlm |}
    end in
  let limiter :=
    if gotime.Sub now (lastRequest limiter) >? gotime.Minute
    then {| lastRequest := now; requests := 0; burst := burstSize rlm |}
    else limiter in
  if requests limiter >=? requestsPerMinute rlm then
    if burst limiter <=? 0 then
      (withClient rlm clientIP limiter, rejectTooMany ctx, false)
    else
      (withClient rlm clientIP
         {| lastRequest := now; requests := requests limiter;
            burst := GoInt.sub (burst limiter) 1 |},
       ctx, true)
  else
    (withClient rlm clientIP
       {| lastRequest := now; requests := GoInt.add (requests limiter) 1;
          burst := burst limiter |},
     ctx, true).

End ratelimit.

(** *** The plugin (middleware/plugins/rate_limit/plugin.go) *)

Module ratelimit_plugin.

Record rateLimiter := {
  count : Z;
  lastReset : Z
}.

Record RateLimitMiddleware := {
  requestsPerMinute : Z;
  burstSize : Z;
  clients : gmap string rateLimiter
}.

Definition withClient (rlm : RateLimitMiddleware) (ip : string)
  (l : rateLimiter) : RateLimitMiddleware :=
  {| requestsPerMinute := requestsPerMinute rlm; burstSize := burstSize rlm;
     clients := <[ip := l]> (clients rlm) |}.

Definition Handle (rlm : RateLimitMiddleware) (now : Z)
  (context : middleware.Context)
  : RateLimitMiddleware * middleware.Context * bool :=
  let clientIP := getClientIP (middleware.Request context) in
  let limiter :=
    match clients rlm !! clientIP with
    | Some limiter => limiter
    | None => {| count := 0; lastReset := now |}
    end in
  let limiter :=
    if gotime.Sub now (lastReset limiter) >? gotime.Minute
    then {| count := 0; lastReset := now |}
    else limiter in
  if count limiter >=? GoInt.add (requestsPerMinute rlm) (burstSize rlm) then
    (withClient rlm clientIP limiter, rejectTooMany context, false)
  else
    (withClient rlm clientIP
       {| count := GoInt.add (count limiter) 1; lastReset := lastReset limiter |},
     context, true).

End ratelimit_plugin.

(** ** Response-body substitution ([ApplyReplaceRules])

    The two copies (on [[]byte] in middleware/replace.go, on [string] in
    the replace plugin) differ only in the conversions at the ends. [None]
    is the panic of [regexp.MustCompile]. *)

Module replace.

Record ReplaceRule := {
  Pattern : string;
  Replacement : string;
  Global : bool
}.

Fixpoint ApplyReplaceRules `{RegexpEngine} (content : string)
  (rules : list ReplaceRule) : option string :=
  match rules with
  | [] => Some content
  | rule :: rest =>
      if Global rule then
        match Compile (Pattern rule) with
        | Some re =>
            ApplyReplaceRules (ReplaceAllString re content (Replacement rule)) rest
        | None => None
        end
      else
        match Compile (Pattern rule) with
        | Some re =>
            ApplyReplaceRules (ReplaceAllString re content (Replacement rule)) rest
        | None => None
        end
  end.

(** Two rule lists that differ at most in their [Global] flags. *)
Definition sameUpToGlobal (r1 r2 : ReplaceRule) : Prop :=
  Pattern r1 = Pattern r2 /\ Replacement r1 = Replacement r2.

End replace.

(** ** A small regexp engine for the examples

    Patterns without metacharacters: such a pattern matches exactly the
    occurrences of its own text, and a replacement text without [$] is
    inserted as it stands. *)

Module literal.
Import GoStrings.

Definition isMeta (c : ascii) : bool :=
  existsb (Ascii.eqb c)
    (list_ascii_of_string "\.+*?()|[]{}^$").

Fixpoint plain (s : string) : bool :=
  match s with
  | EmptyString => true
  | String c s' => negb (isMeta c) && plain s'
  end.

Definition compile (pattern : string) : option string :=
  if plain pattern && negb (String.eqb pattern EmptyString) then Some pattern else None.

(** Leftmost, non-overlapping occurrences; [skip] counts the bytes of the
    occurrence being replaced that are still to be dropped. *)
Fixpoint replaceAll (lit repl : string) (skip : nat) (src : string) : string :=
  match src with
  | EmptyString => EmptyString
  | String c rest =>
      match skip with
      | S k => replaceAll lit repl k rest
      | O =>
          if HasPrefix src lit
          then repl +:+ replaceAll lit repl (String.length lit - 1) rest
          else String c (replaceAll lit repl 0 rest)
      end
  end.

#[local] Instance engine : RegexpEngine := {
  Regexp := string;
  Compile := compile;
  MatchString := fun re s => Contains s re;
  ReplaceAllString := fun re src repl => replaceAll re repl 0 src
}.

(** Host names of plain URLs [scheme://host[:port][/path]]. *)
Definition afterScheme (s : string) : string :=
  let i := Index s "://" in
  if i <? 0 then s else sliceFrom (Z.to_nat i + 3) s.

Fixpoint untilDelimiter (s : string) : string :=
  match s with
  | EmptyString => EmptyString
  | String c s' =>
      if existsb (Ascii.eqb c) (list_ascii_of_string ":/?#") then EmptyString
      else String c (untilDelimiter s')
  end.

#[local] Instance urls : URLParser := {
  Hostname := fun s => Some (untilDelimiter (afterScheme s))
}.

End literal.

(** * Statements of the design document and sample inputs *)

(** ** WebSocket detection *)

Module ws_spec.
Import http GoStrings websocket.

(** The three conditions the design document lists. *)
Definition connectionAsksUpgrade `{Unicode} (r : Request) : Prop :=
  Contains (ToLower (Get (RequestHeader r) "Connection")) "upgrade" = true
  /\ ToLower (Get (RequestHeader r) "Upgrade") = "websocket".

Definition versionIs13 (r : Request) : Prop :=
  Get (RequestHeader r) "Sec-WebSocket-Version" = "13".

Definition keyPresent (r : Request) : Prop :=
  Get (RequestHeader r) "Sec-WebSocket-Key" <> EmptyString.

(** A request that carries nothing but [Sec-WebSocket-Version: 13]. *)
Definition versionOnlyRequest : Request :=
  {| Method := "GET"; Host := "chat.example.com"; URLPath := "/ws";
     RequestHeader := {[ "Sec-Websocket-Version" := ["13"] ]};
     RemoteAddr := "203.0.113.7:40000" |}.

(** An upgrade request in mixed case. *)
Definition mixedCaseUpgrade : Request :=
  {| Method := "GET"; Host := "chat.example.com"; URLPath := "/ws";
     RequestHeader :=
       {[ "Connection" := ["keep-alive, Upgrade"]; "Upgrade" := ["WebSocket"];
          "Sec-Websocket-Version" := ["13"];
          "Sec-Websocket-Key" := ["dGhlIHNhbXBsZSBub25jZQ=="] ]};
     RemoteAddr := "203.0.113.7:40000" |}.

(** A stand-in for the lowering of text that is not ASCII, which leaves
    such text as it is.  The sample requests are ASCII, and [ToLower]
    does not consult it there. *)
#[local] Instance keepOthers : Unicode := {| MapToLower := fun s => s |}.

End ws_spec.

(** ** Host matching *)

Module host_spec.
Import GoStrings matcher.

(** [pattern] is the wildcard [*.domain] and [host] is [domain] or ends in
    [.domain]. *)
Definition wildcardMatches (pattern host : string) : Prop :=
  exists domain, pattern = "*." +:+ domain
    /\ (host = domain \/ exists sub, host = sub +:+ "." +:+ domain).

(** The three tests [Match] makes on one rule inside its wildcard loop. *)
Definition wildcardTest (pattern host : string) : bool :=
  HasPrefix pattern "*."
  && HasSuffix host (sliceFrom 2 pattern)
  && (String.eqb host (sliceFrom 2 pattern)
      || HasSuffix host ("." +:+ sliceFrom 2 pattern)).

(** A wildcard rule and an exact rule for one of the hosts it covers. *)
Definition siteMatcher : HostMatcher :=
  AddRule (AddRule NewHostMatcher "*.example.com" "web") "api.example.com" "api".

(** A matcher whose only rule is an anchored regular expression. *)
Definition regexOnlyMatcher : HostMatcher :=
  AddRule NewHostMatcher "^api[0-9]+\.example\.com$" "api-service".

End host_spec.

(** ** Route matching *)

Module route_spec.
Import GoStrings config proxy.

(** The test [determineTarget] makes on one route rule, without the lookup
    of the target service. *)
Definition routeRuleMatches `{RegexpEngine} (pattern path : string) : bool :=
  if String.eqb pattern "/" && String.eqb path "/" then true
  else if HasSuffix pattern "/*" then
    let prefix := sliceTo (String.length pattern - 2) pattern in
    HasPrefix path prefix
    && (String.eqb path prefix || HasPrefix path (prefix +:+ "/"))
  else if HasPrefix pattern "^" && HasSuffix pattern "$" then
    match Compile pattern with
    | Some re => MatchString re path
    | None => false
    end
  else false.

(** A rule takes the request when its pattern matches and its target is a
    configured service. *)
Definition takes `{RegexpEngine} (svcs : gmap string Service.t) (path : string)
  (rr : RouteRule.t) : bool :=
  routeRuleMatches (RouteRule.Pattern rr) path
  && bool_decide (is_Some (svcs !! RouteRule.Target rr)).

(** A host rule for [example.com] with one route rule whose pattern is the
    exact path [/admin]. *)
Definition adminRoute : RouteRule.t :=
  {| RouteRule.Pattern := "/admin"; RouteRule.Target := "admin-service";
     RouteRule.Middlewares := [] |}.

Definition siteRule : HostRule.t :=
  {| HostRule.Pattern := "example.com"; HostRule.Port := 0;
     HostRule.Target := "web-service"; HostRule.Middlewares := [];
     HostRule.RouteRules := [adminRoute] |}.

Definition webService : Service.t :=
  {| Service.URL := "http://127.0.0.1:9001"; Service.ProxyHost := EmptyString |}.

Definition adminService : Service.t :=
  {| Service.URL := "http://127.0.0.1:9002"; Service.ProxyHost := EmptyString |}.

Definition siteHandler : ProxyHandler :=
  {| hostMatcher := matcher.AddRule matcher.NewHostMatcher "example.com" "web-service";
     services := {[ "web-service" := webService; "admin-service" := adminService ]};
     factory := middleware.NewMiddlewareFactory;
     cfg := {| HostRules := [siteRule];
               Services := {[ "web-service" := webService;
                              "admin-service" := adminService ]};
               Middlewares := []; MiddlewareServices := [] |} |}.

Definition adminRequest : http.Request :=
  {| http.Method := "GET"; http.Host := "example.com"; http.URLPath := "/admin";
     http.RequestHeader := ∅; http.RemoteAddr := "203.0.113.7:40000" |}.

End route_spec.

(** ** Chain assembly and dynamic routing *)

Module chain_spec.
Import config middleware proxy.

(** A middleware that lets every request pass. *)
Definition passThrough (name : string) : Middleware :=
  {| Name := name; Handle := fun ctx => (ctx, true) |}.

(** A configuration that names [rate_limit] on the host rule and on its
    route rule.  The creator stands for the plugin's [PluginMain], which
    builds the middleware from any configuration map, the nil map
    included. *)
Definition apiRoute : RouteRule.t :=
  {| RouteRule.Pattern := "/api/v2/*"; RouteRule.Target := "api-service";
     RouteRule.Middlewares := ["rate_limit"] |}.

Definition apiHost : HostRule.t :=
  {| HostRule.Pattern := "api.example.com"; HostRule.Port := 80;
     HostRule.Target := "api-service"; HostRule.Middlewares := ["rate_limit"];
     HostRule.RouteRules := [apiRoute] |}.

Definition apiService : Service.t :=
  {| Service.URL := "http://127.0.0.1:9001"; Service.ProxyHost := EmptyString |}.

Definition rateLimitConfig : Middleware.t :=
  {| Middleware.Name := "rate_limit"; Middleware.Enabled := true;
     Middleware.Config := Some {[ "requests_per_minute" := VInt 100;
                                  "burst_size" := VInt 20 ]} |}.

Definition apiHandler : ProxyHandler :=
  {| hostMatcher := matcher.AddRule matcher.NewHostMatcher "api.example.com" "api-service";
     services := {[ "api-service" := apiService ]};
     factory := RegisterMiddleware NewMiddlewareFactory "rate_limit"
                  (fun _ => Some (passThrough "rate_limit"));
     cfg := {| HostRules := [apiHost];
               Services := {[ "api-service" := apiService ]};
               Middlewares := [rateLimitConfig]; MiddlewareServices := [] |} |}.

(** The [dynamic_route] middleware with its API answering [alt]. *)
Definition dynamicRouteStub : Middleware :=
  {| Name := "dynamic_route";
     Handle := fun ctx =>
       ({| Request := Request ctx; Response := Response ctx;
           Values := <["dynamic_target_service" := VString "alt"]> (Values ctx);
           TargetURL := TargetURL ctx; ServiceName := ServiceName ctx;
           StatusCode := StatusCode ctx |}, true) |}.

Definition primaryService : Service.t :=
  {| Service.URL := "http://127.0.0.1:9001"; Service.ProxyHost := EmptyString |}.

Definition altService : Service.t :=
  {| Service.URL := "http://127.0.0.1:9002"; Service.ProxyHost := EmptyString |}.

Definition dynHost : HostRule.t :=
  {| HostRule.Pattern := "app.example.com"; HostRule.Port := 0;
     HostRule.Target := "primary"; HostRule.Middlewares := ["dynamic_route"];
     HostRule.RouteRules := [] |}.

Definition dynHandler (svcs : gmap string Service.t) : ProxyHandler :=
  {| hostMatcher := matcher.AddRule matcher.NewHostMatcher "app.example.com" "primary";
     services := svcs;
     factory := RegisterMiddleware NewMiddlewareFactory "dynamic_route"
                  (fun _ => Some dynamicRouteStub);
     cfg := {| HostRules := [dynHost]; Services := svcs;
               Middlewares := []; MiddlewareServices := [] |} |}.

Definition dynRequest : http.Request :=
  {| http.Method := "GET"; http.Host := "app.example.com:8080"; http.URLPath := "/";
     http.RequestHeader := ∅; http.RemoteAddr := "203.0.113.7:40000" |}.

(** The context the chain of [dynHandler] leaves for [dynRequest]. *)
Definition dynContext : Context :=
  {| Request := dynRequest; Response := http.newResponseWriter;
     Values := {[ "dynamic_target_service" := VString "alt" ]};
     TargetURL := "http://127.0.0.1:9001"; ServiceName := "127.0.0.1";
     StatusCode := 0 |}.

Definition bothServices : gmap string Service.t :=
  {[ "primary" := primaryService; "alt" := altService ]}.

End chain_spec.

(** ** Load balancing *)

Module lb_spec.
Import loadbalancer loadbalancer.Backend.

(** The connection counter of the backend a call with [url] works on: the
    first backend of the list with that URL. *)
Fixpoint connectionsOf (bs : list Backend.t) (url : string) : option Z :=
  match bs with
  | [] => None
  | backend :: rest =>
      if String.eqb (URL backend) url then Some (Connections backend)
      else connectionsOf rest url
  end.

(** "Treat any weight <= 0 as 1". *)
Definition effectiveWeight (b : Backend.t) : Z :=
  if Weight b <=? 0 then 1 else Weight b.

Fixpoint SumOfWeights (bs : list Backend.t) : Z :=
  match bs with
  | [] => 0
  | b :: rest => effectiveWeight b + SumOfWeights rest
  end.

(** The cumulative weight of the backend at position [i]: the weights of
    the positions [0..i] added up. *)
Definition cumulativeWeight (bs : list Backend.t) (i : nat) : Z :=
  SumOfWeights (firstn (S i) bs).

(** Position [i] is the first whose cumulative weight strictly exceeds
    [target]. *)
Definition firstExceeding (bs : list Backend.t) (target : Z) (i : nat) : Prop :=
  target < cumulativeWeight bs i
  /\ forall j, (j < i)%nat -> cumulativeWeight bs j <= target.

(** How many of the selections went to a backend of weight [w]. *)
Definition countWeight (w : Z) (rs : list (result Backend.t)) : nat :=
  length (List.filter
            (fun r => match r with
                      | Ok b => Weight b =? w
                      | Err _ => false
                      end) rs).

Definition withWeight (lb : WeightedRoundRobinLoadBalancer) (n : Z)
  : WeightedRoundRobinLoadBalancer :=
  {| base := base lb; current := current lb; weight := n |}.

(** The health-check configuration a probe of [backend] runs under, if one
    runs at all: the backend's own when enabled, else the balancer's when
    enabled. *)
Definition probeConfig (lb : BaseLoadBalancer) (backend : Backend.t)
  : option HealthCheckConfig :=
  if Enabled (HealthCheck backend) then Some (HealthCheck backend)
  else if Enabled (GlobalHealthCheck (config lb)) then Some (GlobalHealthCheck (config lb))
  else None.

Definition probeURL (backend : Backend.t) (cfg : HealthCheckConfig) : string :=
  if String.eqb (Path cfg) EmptyString then URL backend else URL backend +:+ Path cfg.

(** What the probe of [backend] comes to in the world [net]. *)
Definition probeOutcome (lb : BaseLoadBalancer) (net : Network)
  (backend : Backend.t) : option ProbeResult :=
  match probeConfig lb backend with
  | Some cfg => Some (net (probeURL backend cfg) (Timeout cfg))
  | None => None
  end.

(** Sample data: three backends of weights 3, 2 and 1 behind one balancer
    with health checking on [/health]. *)
Definition healthCfg : HealthCheckConfig :=
  {| Enabled := true; Interval := 10 * gotime.Second;
     Timeout := 2 * gotime.Second; Path := "/health" |}.

Definition noHealthCfg : HealthCheckConfig :=
  {| Enabled := false; Interval := 0; Timeout := 0; Path := EmptyString |}.

Definition mkBackend (url : string) (w : Z) : Backend.t :=
  {| URL := url; Weight := w; Active := true; Connections := 0;
     ResponseTime := 0; HealthCheck := noHealthCfg |}.

Definition b1 : Backend.t := mkBackend "http://10.0.0.1:8080" 3.
Definition b2 : Backend.t := mkBackend "http://10.0.0.2:8080" 2.
Definition b3 : Backend.t := mkBackend "http://10.0.0.3:8080" 1.

(** Weights 0 and -5 beside a weight 2. *)
Definition oddWeights : WeightedRoundRobinLoadBalancer :=
  NewWeightedRoundRobinLoadBalancer
    {| Strategy := "weighted_round_robin";
       Backends := [mkBackend "http://10.0.0.1:8080" 0;
                    mkBackend "http://10.0.0.2:8080" (-5);
                    mkBackend "http://10.0.0.3:8080" 2];
       GlobalHealthCheck := noHealthCfg |}.

Definition sampleConfig : LoadBalancerConfig :=
  {| Strategy := "weighted_round_robin"; Backends := [b1; b2; b3];
     GlobalHealthCheck := healthCfg |}.

Definition sampleLB : BaseLoadBalancer := NewBaseLoadBalancer sampleConfig.

Definition sampleWRR : WeightedRoundRobinLoadBalancer :=
  NewWeightedRoundRobinLoadBalancer sampleConfig.

(** A world in which the second backend answers its health probe with 500
    and the others with 200. *)
Definition secondFails : Network :=
  fun url _ =>
    if String.eqb url "http://10.0.0.2:8080/health" then Response 500
    else Response 200.

End lb_spec.

(** The backend the weights 3, 2, 1 give to a residue modulo 6. *)
Definition pick321 (x1 x2 x3 : loadbalancer.Backend.t) (r : Z) : loadbalancer.Backend.t :=
  if r <? 3 then x1 else if r <? 5 then x2 else x3.

(** ** Response-body substitution *)

Module replace_spec.
Import replace.

Definition fooOnce : ReplaceRule :=
  {| Pattern := "foo"; Replacement := "bar"; Global := false |}.

Definition fooAll : ReplaceRule :=
  {| Pattern := "foo"; Replacement := "bar"; Global := true |}.

Definition trimX : ReplaceRule :=
  {| Pattern := "x"; Replacement := EmptyString; Global := true |}.

Definition trimXOnce : ReplaceRule :=
  {| Pattern := "x"; Replacement := EmptyString; Global := false |}.

End replace_spec.

(** ** Rate limiting *)

Module ratelimit_spec.
Import GoStrings.

(** The text before the first comma. *)
Fixpoint firstSegment (s : string) : string :=
  match s with
  | EmptyString => EmptyString
  | String c s' =>
      if Ascii.eqb c ","%char then EmptyString else String c (firstSegment s')
  end.

(** The resolution order as the design document words it. *)
Definition claimedClientIP (r : http.Request) : string :=
  let forwarded := http.Get (http.RequestHeader r) "X-Forwarded-For" in
  if negb (String.eqb forwarded EmptyString) then firstSegment forwarded
  else
    let realIP := http.Get (http.RequestHeader r) "X-Real-IP" in
    if negb (String.eqb realIP EmptyString) then realIP
    else http.RemoteAddr r.

(** The fixed-window counter of the design document: a window opens with
    a request, lasts a minute, and admits [allowance] requests. *)
Record window := {
  opened : Z;
  admitted : Z
}.

Definition fixedWindowStep (allowance : Z) (w : option window) (now : Z)
  : option window * bool :=
  let w :=
    match w with
    | Some w =>
        if now - opened w >? gotime.Minute
        then {| opened := now; admitted := 0 |} else w
    | None => {| opened := now; admitted := 0 |}
    end in
  if admitted w >=? allowance then (Some w, false)
  else (Some {| opened := opened w; admitted := admitted w + 1 |}, true).

Fixpoint fixedWindowDecisions (allowance : Z) (w : option window)
  (times : list Z) : list bool :=
  match times with
  | [] => []
  | now :: rest =>
      let '(w', ok) := fixedWindowStep allowance w now in
      ok :: fixedWindowDecisions allowance w' rest
  end.

(** The decisions of the two implementations on the requests one client
    sends at the instants [times]. *)
Fixpoint pluginDecisions (rlm : ratelimit_plugin.RateLimitMiddleware)
  (ctx : middleware.Context) (times : list Z) : list bool :=
  match times with
  | [] => []
  | now :: rest =>
      let '(rlm', _, ok) := ratelimit_plugin.Handle rlm now ctx in
      ok :: pluginDecisions rlm' ctx rest
  end.

Fixpoint builtinDecisions (rlm : ratelimit.RateLimitMiddleware)
  (ctx : middleware.Context) (times : list Z) : list bool :=
  match times with
  | [] => []
  | now :: rest =>
      let '(rlm', _, ok) := ratelimit.Handle rlm now ctx in
      ok :: builtinDecisions rlm' ctx rest
  end.

Definition toWindow (l : ratelimit_plugin.rateLimiter) : window :=
  {| opened := ratelimit_plugin.lastReset l;
     admitted := ratelimit_plugin.count l |}.

(** The limiter the built-in middleware decides on: the stored one, or a
    fresh one for a new client or after more than a minute without an
    admitted request. *)
Definition freshLimiter (rlm : ratelimit.RateLimitMiddleware) (now : Z)
  : ratelimit.rateLimiter :=
  {| ratelimit.lastRequest := now; ratelimit.requests := 0;
     ratelimit.burst := ratelimit.burstSize rlm |}.

Definition effectiveLimiter (rlm : ratelimit.RateLimitMiddleware)
  (ip : string) (now : Z) : ratelimit.rateLimiter :=
  match ratelimit.clients rlm !! ip with
  | Some l =>
      if gotime.Sub now (ratelimit.lastRequest l) >? gotime.Minute
      then freshLimiter rlm now else l
  | None => freshLimiter rlm now
  end.

(** The requests the built-in middleware will still admit from a limiter:
    what is left of the per-minute count, then what is left of the burst. *)
Definition remaining (rlm : ratelimit.RateLimitMiddleware)
  (l : ratelimit.rateLimiter) : Z :=
  Z.max 0 (ratelimit.requestsPerMinute rlm - ratelimit.requests l)
  + Z.max 0 (ratelimit.burst l).

(** Sample requests. *)
Definition forwardedRequest : http.Request :=
  {| http.Method := "GET"; http.Host := "api.example.com"; http.URLPath := "/";
     http.RequestHeader :=
       {[ "X-Forwarded-For" := ["203.0.113.7, 10.0.0.1"];
          "X-Real-Ip" := ["10.0.0.1"] ]};
     http.RemoteAddr := "10.0.0.1:51000" |}.

Definition directRequest : http.Request :=
  {| http.Method := "GET"; http.Host := "api.example.com"; http.URLPath := "/";
     http.RequestHeader := {[ "X-Forwarded-For" := ["203.0.113.7"] ]};
     http.RemoteAddr := "10.0.0.1:51000" |}.

Definition contextOf (r : http.Request) : middleware.Context :=
  {| middleware.Request := r; middleware.Response := http.newResponseWriter;
     middleware.Values := ∅; middleware.TargetURL := "http://127.0.0.1:9001";
     middleware.ServiceName := "127.0.0.1"; middleware.StatusCode := 0 |}.

(** Two requests a minute and no burst; requests at 0 s, 50 s and 70 s. *)
Definition twoPerMinute : ratelimit.RateLimitMiddleware :=
  ratelimit.NewRateLimitMiddleware 2 0.

Definition twoPerMinutePlugin : ratelimit_plugin.RateLimitMiddleware :=
  {| ratelimit_plugin.requestsPerMinute := 2; ratelimit_plugin.burstSize := 0;
     ratelimit_plugin.clients := ∅ |}.

Definition threeRequests : list Z :=
  [0; 50 * gotime.Second; 70 * gotime.Second].

(** A plugin instance that admits nothing. *)
Definition closedPlugin : ratelimit_plugin.RateLimitMiddleware :=
  {| ratelimit_plugin.requestsPerMinute := 0; ratelimit_plugin.burstSize := 0;
     ratelimit_plugin.clients := ∅ |}.

(** One call of the built-in middleware: admitted exactly when the budget
    of the limiter it decides on is positive; an admitted request spends
    one unit and becomes the last request; a rejected one leaves the
    limiter as it is and answers 429. *)
Definition builtinSpendsBudget (rlm : ratelimit.RateLimitMiddleware) (now : Z)
  (ctx : middleware.Context) : Prop :=
  let ip := getClientIP (middleware.Request ctx) in
  let l := effectiveLimiter rlm ip now in
  exists rlm' ctx' ok,
    ratelimit.Handle rlm now ctx = (rlm', ctx', ok)
    /\ (ok = true <-> 0 < remaining rlm l)
    /\ (ok = true
        -> ctx' = ctx
           /\ exists l', ratelimit.clients rlm' !! ip = Some l'
                /\ remaining rlm l' = remaining rlm l - 1
                /\ ratelimit.lastRequest l' = now)
    /\ (ok = false
        -> ctx' = rejectTooMany ctx
           /\ middleware.StatusCode ctx' = 429
           /\ ratelimit.clients rlm' !! ip = Some l).

End ratelimit_spec.

(** * Further code of the dispatcher, the balancer and the middlewares *)

(** ** [NewProxyHandler]: the matcher built from the host rules *)

Module proxy_setup.
Import config proxy.

(** The loop [for _, rule := range cfg.HostRules { hostMatcher.AddRule(...) }]. *)
Definition hostMatcherOf (hostRules : list HostRule.t) : matcher.HostMatcher :=
  fold_left
    (fun hm rule => matcher.AddRule hm (HostRule.Pattern rule) (HostRule.Target rule))
    hostRules matcher.NewHostMatcher.

(** [NewProxyHandler]; [f] is the factory after the plugins found on disk
    have been registered. *)
Definition NewProxyHandler (c : Config) (f : middleware.DefaultMiddlewareFactory)
  : ProxyHandler :=
  {| hostMatcher := hostMatcherOf (HostRules c);
     services := Services c;
     factory := f;
     cfg := c |}.

(** The host rules of a list whose pattern is [pattern]. *)
Definition withPattern (pattern : string) (hostRules : list HostRule.t)
  : list HostRule.t :=
  List.filter (fun r => String.eqb (HostRule.Pattern r) pattern) hostRules.

(** Two host rules with one target and different route rules. *)
Definition shopRoute : RouteRule.t :=
  {| RouteRule.Pattern := "/cart/*"; RouteRule.Target := "cart";
     RouteRule.Middlewares := [] |}.

Definition shopRule : HostRule.t :=
  {| HostRule.Pattern := "shop.example.com"; HostRule.Port := 0;
     HostRule.Target := "web"; HostRule.Middlewares := [];
     HostRule.RouteRules := [shopRoute] |}.

Definition blogRule : HostRule.t :=
  {| HostRule.Pattern := "blog.example.com"; HostRule.Port := 0;
     HostRule.Target := "web"; HostRule.Middlewares := ["logging"];
     HostRule.RouteRules := [] |}.

Definition webSvc : Service.t :=
  {| Service.URL := "http://127.0.0.1:9001"; Service.ProxyHost := EmptyString |}.

Definition cartSvc : Service.t :=
  {| Service.URL := "http://127.0.0.1:9003"; Service.ProxyHost := EmptyString |}.

Definition shopConfig : Config :=
  {| HostRules := [shopRule; blogRule];
     Services := {[ "web" := webSvc; "cart" := cartSvc ]};
     Middlewares := []; MiddlewareServices := [] |}.

Definition shopHandler : ProxyHandler :=
  NewProxyHandler shopConfig middleware.NewMiddlewareFactory.

Definition blogCartRequest : http.Request :=
  {| http.Method := "GET"; http.Host := "blog.example.com:8080";
     http.URLPath := "/cart/7"; http.RequestHeader := ∅;
     http.RemoteAddr := "203.0.113.7:40000" |}.

End proxy_setup.

(** ** Host rules that overlap *)

Module overlap_spec.
Import matcher.

(** No two rules of the matcher that are wildcards matching [host] name
    different targets. *)
Definition unambiguous (hm : HostMatcher) (host : string) : Prop :=
  forall p1 t1 p2 t2,
    rules hm !! p1 = Some t1 -> rules hm !! p2 = Some t2
    -> host_spec.wildcardMatches p1 host -> host_spec.wildcardMatches p2 host
    -> t1 = t2.

(** Two wildcard rules that both cover [a.shop.example.com]. *)
Definition nestedWildcards : HostMatcher :=
  AddRule (AddRule NewHostMatcher "*.example.com" "web") "*.shop.example.com" "shop".

End overlap_spec.

(** ** Package [middleware]: the other operations of chain, factory and
    registry *)

Module middleware_ops.
Import config middleware.

(** The errors these operations return, by their message formats:
    ["middleware '%s' not found in chain"],
    ["index %d out of bounds for middleware chain of size %d"],
    ["middleware creator for '%s' not found"],
    ["middleware config missing 'name' field"],
    ["failed to create middleware '%s': ..."],
    ["unknown middleware type: %s"]. *)
Inductive error :=
| NotInChain (name : string)
| OutOfBounds (index size : Z)
| CreatorNotFound (name : string)
| MissingName
| CreateFailed (name : string)
| UnknownType (name : string).

(** The loop of [Remove]: the list without its first middleware called
    [name], [None] when there is none. *)
Fixpoint removeFirst (name : string) (mws : list Middleware)
  : option (list Middleware) :=
  match mws with
  | [] => None
  | mw :: rest =>
      if String.eqb (Name mw) name then Some rest
      else match removeFirst name rest with
           | Some rest' => Some (mw :: rest')
           | None => None
           end
  end.

(** [Remove]: the chain afterwards and the error, if any. *)
Definition Remove (dmc : DefaultMiddlewareChain) (name : string)
  : DefaultMiddlewareChain * option error :=
  match removeFirst name (middlewares dmc) with
  | Some mws => ({| middlewares := mws |}, None)
  | None => (dmc, Some (NotInChain name))
  end.

Definition Clear (dmc : DefaultMiddlewareChain) : DefaultMiddlewareChain :=
  {| middlewares := [] |}.

Fixpoint findByName (name : string) (mws : list Middleware) : option Middleware :=
  match mws with
  | [] => None
  | mw :: rest =>
      if String.eqb (Name mw) name then Some mw else findByName name rest
  end.

(** [GetMiddleware]; [None] is the result [(nil, false)]. *)
Definition GetMiddleware (dmc : DefaultMiddlewareChain) (name : string)
  : option Middleware :=
  findByName name (middlewares dmc).

Definition Size (dmc : DefaultMiddlewareChain) : Z :=
  Z.of_nat (length (middlewares dmc)).

Definition InsertAt (dmc : DefaultMiddlewareChain) (index : Z) (mw : Middleware)
  : DefaultMiddlewareChain * option error :=
  if (index <? 0) || (index >? Size dmc)
  then (dmc, Some (OutOfBounds index (Size dmc)))
  else ({| middlewares :=
             (firstn (Z.to_nat index) (middlewares dmc)
              ++ mw :: skipn (Z.to_nat index) (middlewares dmc))%list |},
        None).

(** [UnregisterMiddleware] *)
Definition UnregisterMiddleware (dmf : DefaultMiddlewareFactory) (name : string)
  : DefaultMiddlewareFactory * option error :=
  match creators dmf !! name with
  | None => (dmf, Some (CreatorNotFound name))
  | Some _ => ({| creators := delete name (creators dmf) |}, None)
  end.

(** [ValidateMiddlewareConfig]; [None] is the nil error. *)
Definition ValidateMiddlewareConfig (dmf : DefaultMiddlewareFactory)
  (c : ConfigMap) : option error :=
  match c with
  | Some m =>
      match m !! "name" with
      | Some (VString name) =>
          match creators dmf !! name with
          | Some _ => None
          | None => Some (UnknownType name)
          end
      | _ => Some MissingName
      end
  | None => Some MissingName
  end.

(** The loop of [CreateMiddlewareChainFromConfig], from the chain built
    so far: the first configuration without a string [name] or whose
    middleware cannot be created ends it with an error and no chain. *)
Fixpoint chainFromConfigs (dmf : DefaultMiddlewareFactory)
  (chain : DefaultMiddlewareChain) (configs : list ConfigMap)
  : DefaultMiddlewareChain + error :=
  match configs with
  | [] => inl chain
  | c :: rest =>
      match c with
      | Some m =>
          match m !! "name" with
          | Some (VString name) =>
              match CreateMiddleware dmf name c with
              | Some mw => chainFromConfigs dmf (Add chain mw) rest
              | None => inr (CreateFailed name)
              end
          | _ => inr MissingName
          end
      | None => inr MissingName
      end
  end.

Definition CreateMiddlewareChainFromConfig (dmf : DefaultMiddlewareFactory)
  (configs : list ConfigMap) : DefaultMiddlewareChain + error :=
  chainFromConfigs dmf NewMiddlewareChain configs.

(** The name a configuration map carries, if it is a string. *)
Definition nameOf (c : ConfigMap) : option string :=
  match c with
  | Some m =>
      match m !! "name" with
      | Some (VString name) => Some name
      | _ => None
      end
  | None => None
  end.

(** [NewDefaultMiddlewareServiceRegistry] and [Get]. *)
Definition NewDefaultMiddlewareServiceRegistry : DefaultMiddlewareServiceRegistry :=
  {| services := ∅ |}.

Definition Get (d : DefaultMiddlewareServiceRegistry) (name : string)
  : option MiddlewareService.t :=
  services d !! name.

(** The enabled services of a list that are called [name]. *)
Definition enabledNamed (name : string) (svcs : list MiddlewareService.t)
  : list MiddlewareService.t :=
  List.filter
    (fun s => MiddlewareService.Enabled s
              && String.eqb (MiddlewareService.Name s) name)
    svcs.

(** [Context.Get] and [Context.Set]. *)
Definition ContextGet (c : Context) (key : string) : option Value :=
  Values c !! key.

Definition ContextSet (c : Context) (key : string) (value : Value) : Context :=
  {| Request := Request c; Response := Response c;
     Values := <[key := value]> (Values c);
     TargetURL := TargetURL c; ServiceName := ServiceName c;
     StatusCode := StatusCode c |}.

(** Sample middlewares: one that refuses every request with 403, one that
    marks the context. *)
Definition denyAll : Middleware :=
  {| Name := "deny";
     Handle := fun ctx =>
       ({| Request := Request ctx;
           Response := http.Error (Response ctx) "Forbidden" 403;
           Values := Values ctx; TargetURL := TargetURL ctx;
           ServiceName := ServiceName ctx; StatusCode := 403 |}, false) |}.

Definition mark (name : string) : Middleware :=
  {| Name := name;
     Handle := fun ctx => (ContextSet ctx name (VBool true), true) |}.

Definition sampleChain : DefaultMiddlewareChain :=
  Add (Add (Add NewMiddlewareChain (mark "logging")) (mark "cors")) (mark "sse").

Definition sampleFactory : DefaultMiddlewareFactory :=
  RegisterMiddleware
    (RegisterMiddleware NewMiddlewareFactory "logging" (fun _ => Some (mark "logging")))
    "auth"
    (fun c => match c with
              | Some _ => Some (mark "auth")
              | None => None
              end).

Definition limiterService : MiddlewareService.t :=
  {| MiddlewareService.Name := "strict"; MiddlewareService.Type_ := "rate_limit";
     MiddlewareService.Enabled := true; MiddlewareService.IsGlobal := false;
     MiddlewareService.Config := Some {[ "requests_per_minute" := VInt 10 ]};
     MiddlewareService.Description := "strict limiter" |}.

Definition limiterServiceOff : MiddlewareService.t :=
  {| MiddlewareService.Name := "strict"; MiddlewareService.Type_ := "rate_limit";
     MiddlewareService.Enabled := false; MiddlewareService.IsGlobal := true;
     MiddlewareService.Config := Some {[ "requests_per_minute" := VInt 1 ]};
     MiddlewareService.Description := "switched off" |}.

End middleware_ops.

(** ** Package [loadbalancer]: the other strategies *)

(** [net.SplitHostPort]; [None] when it returns an error. *)
Class NetAddr := { SplitHostPort : string -> option (string * string) }.

Module strategies.
Import GoStrings loadbalancer loadbalancer.Backend.

Definition Millisecond : Z := 1000000.

(** [l[i]]; [None] is the run-time panic on an index out of range. *)
Definition elemAt {A : Type} (l : list A) (i : Z) : option A :=
  if (i <? 0) || (i >=? Z.of_nat (length l)) then None else l !! Z.to_nat i.

(** The loop of [getClientIP] over the header: the byte position of the
    first comma, 0 when there is none. *)
Fixpoint commaIndex (i : Z) (s : string) : Z :=
  match s with
  | EmptyString => 0
  | String c rest =>
      if Ascii.eqb c ","%char then i else commaIndex (i + 1) rest
  end.

(** [getClientIP] of the balancer (the rate limiter has its own). *)
Definition getClientIP `{NetAddr} (req : http.Request) : string :=
  let xForwardedFor := http.Get (http.RequestHeader req) "X-Forwarded-For" in
  if negb (String.eqb xForwardedFor EmptyString) then
    let commaIdx := commaIndex 0 xForwardedFor in
    if commaIdx >? 0 then sliceTo (Z.to_nat commaIdx) xForwardedFor
    else xForwardedFor
  else
    let xRealIP := http.Get (http.RequestHeader req) "X-Real-IP" in
    if negb (String.eqb xRealIP EmptyString) then xRealIP
    else
      match SplitHostPort (http.RemoteAddr req) with
      | Some (ip, _) => ip
      | None => http.RemoteAddr req
      end.

End strategies.

(** *** round_robin *)

Module round_robin.
Import loadbalancer loadbalancer.Backend strategies.

Record RoundRobinLoadBalancer := {
  base : BaseLoadBalancer;
  current : Z
}.

Definition NewRoundRobinLoadBalancer (c : LoadBalancerConfig)
  : RoundRobinLoadBalancer :=
  {| base := NewBaseLoadBalancer c; current := 0 |}.

(** [None] is the panic of the index expression. *)
Definition NextBackend (lb : RoundRobinLoadBalancer)
  : option (result Backend.t * RoundRobinLoadBalancer) :=
  let activeBackends := GetActiveBackends (base lb) in
  if Z.of_nat (length activeBackends) =? 0
  then Some (Err "no active backends available", lb)
  else
    match elemAt activeBackends
            (GoInt.rem (current lb) (Z.of_nat (length activeBackends))) with
    | Some backend =>
        Some (Ok backend,
              {| base := base lb; current := GoInt.add (current lb) 1 |})
    | None => None
    end.

(** [k] calls in a row. *)
Fixpoint nextBackends (k : nat) (lb : RoundRobinLoadBalancer)
  : option (list (result Backend.t) * RoundRobinLoadBalancer) :=
  match k with
  | O => Some ([], lb)
  | S k' =>
      match NextBackend lb with
      | Some (r, lb1) =>
          match nextBackends k' lb1 with
          | Some (rs, lb2) => Some (r :: rs, lb2)
          | None => None
          end
      | None => None
      end
  end.

End round_robin.

(** *** least_connections *)

Module least_connections.
Import loadbalancer loadbalancer.Backend.

(** [int(^uint(0) >> 1)] *)
Definition maxConnections : Z := Z.shiftr (Z.ones 64) 1.

(** The loop of [NextBackend]. *)
Fixpoint scan (minConnections : Z) (selectedBackend : option Backend.t)
  (activeBackends : list Backend.t) : option Backend.t :=
  match activeBackends with
  | [] => selectedBackend
  | backend :: rest =>
      if Connections backend <? minConnections
      then scan (Connections backend) (Some backend) rest
      else scan minConnections selectedBackend rest
  end.

(** [Ok None] is the result [(nil, nil)]. *)
Definition NextBackend (lb : BaseLoadBalancer) : result (option Backend.t) :=
  let activeBackends := GetActiveBackends lb in
  if Z.of_nat (length activeBackends) =? 0
  then Err "no active backends available"
  else Ok (scan maxConnections None activeBackends).

End least_connections.

(** *** response_time *)

Module response_time.
Import loadbalancer loadbalancer.Backend strategies.

(** [time.Duration(^int64(0))] *)
Definition initialMinimum : Z := Z.lnot 0.

Fixpoint scan (minResponseTime : Z) (selectedBackend : option Backend.t)
  (activeBackends : list Backend.t) : option Backend.t :=
  match activeBackends with
  | [] => selectedBackend
  | backend :: rest =>
      let responseTime :=
        if ResponseTime backend =? 0 then 100 * Millisecond
        else ResponseTime backend in
      if responseTime <? minResponseTime
      then scan responseTime (Some backend) rest
      else scan minResponseTime selectedBackend rest
  end.

Definition NextBackend (lb : BaseLoadBalancer) : result (option Backend.t) :=
  let activeBackends := GetActiveBackends lb in
  if Z.of_nat (length activeBackends) =? 0
  then Err "no active backends available"
  else Ok (scan initialMinimum None activeBackends).

End response_time.

(** *** random and weighted_random

    [Intn] is the answer of the generator: [rand.Intn(n)] panics for
    [n <= 0] and returns a number of [0..n-1] otherwise. *)

Module random.
Import loadbalancer loadbalancer.Backend strategies.

Definition NextBackend (lb : BaseLoadBalancer) (Intn : Z -> Z)
  : option (result Backend.t) :=
  let activeBackends := GetActiveBackends lb in
  if Z.of_nat (length activeBackends) =? 0
  then Some (Err "no active backends available")
  else
    match elemAt activeBackends (Intn (Z.of_nat (length activeBackends))) with
    | Some backend => Some (Ok backend)
    | None => None
    end.

End random.

Module weighted_random.
Import loadbalancer loadbalancer.Backend strategies.

(** The first loop of [NextBackend]. *)
Definition totalWeightOf (activeBackends : list Backend.t) : Z :=
  fold_left
    (fun totalWeight backend =>
       let weight := if Weight backend <=? 0 then 1 else Weight backend in
       GoInt.add totalWeight weight)
    activeBackends 0.

Definition NextBackend (lb : BaseLoadBalancer) (Intn : Z -> Z)
  : option (result Backend.t) :=
  let activeBackends := GetActiveBackends lb in
  match activeBackends with
  | [] => Some (Err "no active backends available")
  | first :: _ =>
      let totalWeight := totalWeightOf activeBackends in
      if totalWeight =? 0 then Some (Err "invalid weights for backends")
      else if totalWeight <? 0 then None
      else
        let targetWeight := Intn totalWeight in
        match selectByWeight targetWeight 0 activeBackends with
        | Some backend => Some (Ok backend)
        | None => Some (Ok first)
        end
  end.

End weighted_random.

Module strategies_spec.
Import loadbalancer loadbalancer.Backend.

(** The answers of a generator are within the bounds of [rand.Intn]. *)
Definition validIntn (Intn : Z -> Z) : Prop :=
  forall n, 0 < n -> 0 <= Intn n < n.

(** [l] turned left by [r] places. *)
Definition rotate {A : Type} (r : nat) (l : list A) : list A :=
  (drop r l ++ take r l)%list.

(** A backend with a number of open connections and a measured response
    time. *)
Definition loaded (url : string) (connections responseTime : Z) : Backend.t :=
  {| URL := url; Weight := 1; Active := true; Connections := connections;
     ResponseTime := responseTime; HealthCheck := lb_spec.noHealthCfg |}.

Definition loadedLB : BaseLoadBalancer :=
  NewBaseLoadBalancer
    {| Strategy := "least_connections";
       Backends := [loaded "http://10.0.0.1:8080" 4 (30 * strategies.Millisecond);
                    loaded "http://10.0.0.2:8080" 2 (20 * strategies.Millisecond);
                    loaded "http://10.0.0.3:8080" 2 0];
       GlobalHealthCheck := lb_spec.noHealthCfg |}.

(** No address is split: every [RemoteAddr] is taken as it is. *)
#[local] Instance noSplit : NetAddr := {| SplitHostPort := fun _ => None |}.

End strategies_spec.

(** ** The [auth] middleware *)

Module auth.
Import GoStrings http config middleware.

Definition StatusUnauthorized : Z := 401.
Definition StatusForbidden : Z := 403.

Record AuthMiddleware := {
  headerName : string;
  validKeys : gmap string bool
}.

Definition NewAuthMiddleware (headerName : string) (validKeys : list string)
  : AuthMiddleware :=
  {| headerName := headerName;
     validKeys := fold_left (fun keysMap key => <[key := true]> keysMap) validKeys ∅ |}.

(** [strings.TrimPrefix] *)
Definition TrimPrefix (s prefix : string) : string :=
  if HasPrefix s prefix then sliceFrom (String.length prefix) s else s.

(** [ctx.StatusCode = code] and [http.Error(ctx.Response, msg, code)]. *)
Definition reject (ctx : Context) (msg : string) (code : Z) : Context :=
  {| Request := Request ctx;
     Response := http.Error (Response ctx) msg code;
     Values := Values ctx; TargetURL := TargetURL ctx;
     ServiceName := ServiceName ctx; StatusCode := code |}.

Definition Handle (am : AuthMiddleware) (ctx : Context) : Context * bool :=
  let authHeader := Get (RequestHeader (Request ctx)) (headerName am) in
  if String.eqb authHeader EmptyString
  then (reject ctx "Missing authentication header" StatusUnauthorized, false)
  else
    let token :=
      if HasPrefix authHeader "Bearer " then TrimPrefix authHeader "Bearer "
      else authHeader in
    if negb (default false (validKeys am !! token))
    then (reject ctx "Invalid authentication token" StatusForbidden, false)
    else (ctx, true).

(** The middleware as the chain sees it. *)
Definition asMiddleware (am : AuthMiddleware) : Middleware :=
  {| middleware.Name := "auth"; middleware.Handle := Handle am |}.

(** A request that presents [value] in the header [X-API-Key]. *)
Definition presenting (value : string) : Context :=
  {| Request :=
       {| Method := "GET"; Host := "api.example.com"; URLPath := "/";
          RequestHeader := {[ "X-Api-Key" := [value] ]};
          RemoteAddr := "203.0.113.7:40000" |};
     Response := newResponseWriter; Values := ∅;
     TargetURL := "http://127.0.0.1:9001"; ServiceName := "127.0.0.1";
     StatusCode := 0 |}.

End auth.

(** ** The [dynamic_route] plugin

    [queryExternalAPI] is the answer of the external service for a host
    name: a target service name or an error.  The clock is read once per
    call to [Handle]; [context.Request.URL.Host] is handed in beside the
    context. *)

Module dynamic_route.
Import GoStrings http config middleware.

(** The largest [time.Duration], which [time.Since] returns for the zero
    [time.Time]. *)
Definition maxDuration : Z := 2 ^ 63 - 1.

(** [lastCacheUpdate] is [None] while it is the zero [time.Time]. *)
Record DynamicRouteMiddleware := {
  apiURL : string;
  timeout : Z;
  cacheExpiry : Z;
  lastCacheUpdate : option Z;
  cachedHostMappings : gmap string string
}.

Definition API := string -> result string.

(** [time.Since(drm.lastCacheUpdate)] at the instant [now]. *)
Definition sinceLastUpdate (drm : DynamicRouteMiddleware) (now : Z) : Z :=
  match lastCacheUpdate drm with
  | Some t => gotime.Sub now t
  | None => maxDuration
  end.

Definition getCachedTarget (drm : DynamicRouteMiddleware) (now : Z)
  (host : string) : string * bool :=
  if sinceLastUpdate drm now >? cacheExpiry drm then (EmptyString, false)
  else
    match cachedHostMappings drm !! host with
    | Some target => (target, true)
    | None => (EmptyString, false)
    end.

Definition updateCache (drm : DynamicRouteMiddleware) (now : Z)
  (host target : string) : DynamicRouteMiddleware :=
  {| apiURL := apiURL drm; timeout := timeout drm;
     cacheExpiry := cacheExpiry drm;
     lastCacheUpdate := Some now;
     cachedHostMappings := <[host := target]> (cachedHostMappings drm) |}.

(** [strings.Split(host, ":")[0]]: the text before the first colon. *)
Fixpoint splitHead (host : string) : string :=
  match host with
  | EmptyString => EmptyString
  | String c rest =>
      if Ascii.eqb c ":"%char then EmptyString else String c (splitHead rest)
  end.

Definition setTarget (context : Context) (targetService : string) : Context :=
  if negb (String.eqb targetService EmptyString)
  then {| Request := Request context; Response := Response context;
          Values := <["dynamic_target_service" := VString targetService]>
                      (Values context);
          TargetURL := TargetURL context; ServiceName := ServiceName context;
          StatusCode := StatusCode context |}
  else context.

Definition Handle (drm : DynamicRouteMiddleware) (now : Z) (api : API)
  (urlHost : string) (context : Context)
  : DynamicRouteMiddleware * Context * bool :=
  let host := Host (Request context) in
  let host := if String.eqb host EmptyString then urlHost else host in
  let hostName := splitHead host in
  let '(targetService, found) := getCachedTarget drm now hostName in
  if negb found then
    match api hostName with
    | Err _ => (drm, context, true)
    | Ok newTarget =>
        (updateCache drm now hostName newTarget, setTarget context newTarget, true)
    end
  else (drm, setTarget context targetService, true).

(** A middleware value for the chain of one request: the plugin in the
    state [drm] at the instant [now]. *)
Definition asMiddleware (drm : DynamicRouteMiddleware) (now : Z) (api : API)
  : Middleware :=
  {| middleware.Name := "dynamic_route";
     middleware.Handle := fun context =>
       let '(_, context', ok) := Handle drm now api EmptyString context in
       (context', ok) |}.

(** The plugin with a cache life of sixty seconds, nothing cached. *)
Definition fresh : DynamicRouteMiddleware :=
  {| apiURL := "http://127.0.0.1:7080/api/host";
     timeout := 5 * gotime.Second; cacheExpiry := 60 * gotime.Second;
     lastCacheUpdate := None; cachedHostMappings := ∅ |}.

(** An API that sends [app.example.com] to [alt] and knows no other host. *)
Definition altAPI : API :=
  fun host =>
    if String.eqb host "app.example.com" then Ok "alt"
    else Err "API returned error: unknown host".

(** An API that is down. *)
Definition downAPI : API := fun _ => Err "failed to send request".

End dynamic_route.

(** ** The upgrade request of the WebSocket proxy *)

Module ws_request.
Import http.

(** [Header.Set] *)
Definition Set_ (h : Header) (key value : string) : Header :=
  <[CanonicalHeaderKey key := [value]]> h.

Definition headersToCopy : list string :=
  ["Upgrade"; "Connection"; "Sec-WebSocket-Key"; "Sec-WebSocket-Version";
   "Sec-WebSocket-Protocol"; "Sec-WebSocket-Extensions"; "Origin";
   "User-Agent"; "Cookie"; "Authorization"].

(** The copying loop of [CreateWebSocketUpgradeRequest]. *)
Definition copyHeaders (headers : list string) (r : Request) (h : Header)
  : Header :=
  fold_left
    (fun h header =>
       let value := Get (RequestHeader r) header in
       if negb (String.eqb value EmptyString) then Set_ h header value else h)
    headers h.

(** The header of the request [CreateWebSocketUpgradeRequest] returns
    (a [GET] of the target URL with no body). *)
Definition upgradeRequestHeader (r : Request) : Header :=
  let h := copyHeaders headersToCopy r ∅ in
  let h := Set_ h "X-Forwarded-Proto" "http" in
  let h := Set_ h "X-Forwarded-Host" (Host r) in
  Set_ h "X-Forwarded-For" (RemoteAddr r).

(** An upgrade request with two protocol header lines, a forwarding header
    of its own and a header outside the list. *)
Definition chatUpgrade : Request :=
  {| Method := "GET"; Host := "chat.example.com"; URLPath := "/ws";
     RequestHeader :=
       {[ "Upgrade" := ["websocket"]; "Connection" := ["Upgrade"];
          "Sec-Websocket-Key" := ["dGhlIHNhbXBsZSBub25jZQ=="];
          "Sec-Websocket-Version" := ["13"];
          "Sec-Websocket-Protocol" := ["chat"; "superchat"];
          "X-Forwarded-For" := ["198.51.100.9"];
          "Accept-Language" := ["en"] ]};
     RemoteAddr := "203.0.113.7:40000" |}.

End ws_request.

(** ** The route matcher of package [matcher] *)

Module route_matcher_spec.
Import GoStrings matcher.

(** The tests of the two loops of [RouteMatcher.Match] on one rule. *)
Definition prefixTest (pattern path : string) : bool :=
  HasSuffix pattern "/*"
  && HasPrefix path (sliceTo (String.length pattern - 2) pattern)
  && (String.eqb path (sliceTo (String.length pattern - 2) pattern)
      || HasPrefix path (sliceTo (String.length pattern - 2) pattern +:+ "/")).

Definition regexpTest `{RegexpEngine} (pattern path : string) : bool :=
  HasPrefix pattern "^" && HasSuffix pattern "$"
  && match Compile pattern with
     | Some re => MatchString re path
     | None => false
     end.

(** [pattern] is [prefix/*] and [path] is [prefix] or lies below it. *)
Definition prefixCovers (pattern path : string) : Prop :=
  exists prefix, pattern = prefix +:+ "/*"
    /\ (path = prefix \/ exists rest, path = prefix +:+ "/" +:+ rest).

(** An order in which a loop of [Match] may visit the rules. *)
Definition visitOrder (rm : RouteMatcher) (order : list (string * string)) : Prop :=
  order ≡ₚ map_to_list (routeRules rm).

(** Routes of an API with a catch-all expression. *)
Definition apiRoutes : RouteMatcher :=
  {| routeRules := {[ "/api/*" := "api"; "/health" := "monitor";
                      "^/v[0-9]+/.*$" := "versioned" ]} |}.

End route_matcher_spec.

(** ** Package [loadbalancer]: the factory and the defaults *)

Module lb_factory.
Import loadbalancer loadbalancer.Backend.

Definition RoundRobin : string := "round_robin".
Definition WeightedRoundRobin : string := "weighted_round_robin".
Definition IPHash : string := "ip_hash".
Definition LeastConnections : string := "least_connections".
Definition ResponseTime : string := "response_time".
Definition Random : string := "random".
Definition WeightedRandom : string := "weighted_random".

Module SessionAffinityConfig.
Record t := {
  Enabled : bool;
  Timeout : Z;
  CookieName : string
}.
End SessionAffinityConfig.

(** [LoadBalancerConfig] with its field [SessionAffinity], a pointer. *)
Record FullConfig := {
  lbConfig : LoadBalancerConfig;
  SessionAffinity : option SessionAffinityConfig.t
}.

(** The errors of [validateConfig], by their messages:
    ["invalid strategy: %s"], ["at least one backend is required"],
    ["backend %d: URL is required"],
    ["health check interval must be greater than 0"],
    ["health check timeout must be greater than 0"],
    ["session affinity timeout must be greater than 0"],
    ["session affinity cookie name is required"]. *)
Inductive error :=
| InvalidStrategy (strategy : string)
| NoBackends
| URLRequired (i : Z)
| IntervalNotPositive
| TimeoutNotPositive
| AffinityTimeoutNotPositive
| CookieNameRequired.

Definition GetSupportedStrategies : list string :=
  [RoundRobin; WeightedRoundRobin; IPHash; LeastConnections; ResponseTime;
   Random; WeightedRandom].

Definition setWeight (b : Backend.t) (w : Z) : Backend.t :=
  {| URL := URL b; Weight := w; Active := Active b;
     Connections := Connections b; Backend.ResponseTime := Backend.ResponseTime b;
     HealthCheck := HealthCheck b |}.

Definition setHealthCheck (b : Backend.t) (hc : HealthCheckConfig) : Backend.t :=
  {| URL := URL b; Weight := Weight b; Active := Active b;
     Connections := Connections b; Backend.ResponseTime := Backend.ResponseTime b;
     HealthCheck := hc |}.

(** The loop of [validateConfig] over the backends, from index [i]: the
    backends as the loop leaves them (it writes the weights through the
    slice it shares with the caller) and the error that ended it. *)
Fixpoint checkBackends (weighted : bool) (i : Z) (bs : list Backend.t)
  : list Backend.t * option error :=
  match bs with
  | [] => ([], None)
  | backend :: rest =>
      if String.eqb (URL backend) EmptyString
      then (backend :: rest, Some (URLRequired i))
      else
        let backend' :=
          if weighted && (Weight backend <=? 0) then setWeight backend 1
          else backend in
        let '(rest', err) := checkBackends weighted (i + 1) rest in
        (backend' :: rest', err)
  end.

(** [validateConfig]: the backends of the caller's configuration after
    the call, and the error ([None] for nil). *)
Definition validateConfig (c : FullConfig) : list Backend.t * option error :=
  let config := lbConfig c in
  let valid := existsb (String.eqb (Strategy config)) GetSupportedStrategies in
  if negb valid then (Backends config, Some (InvalidStrategy (Strategy config)))
  else if Z.of_nat (length (Backends config)) =? 0
  then (Backends config, Some NoBackends)
  else
    let weighted :=
      String.eqb (Strategy config) WeightedRoundRobin
      || String.eqb (Strategy config) WeightedRandom in
    let '(bs, err) := checkBackends weighted 0 (Backends config) in
    match err with
    | Some e => (bs, Some e)
    | None =>
        if Enabled (GlobalHealthCheck config)
           && (Interval (GlobalHealthCheck config) <=? 0)
        then (bs, Some IntervalNotPositive)
        else if Enabled (GlobalHealthCheck config)
                && (Timeout (GlobalHealthCheck config) <=? 0)
        then (bs, Some TimeoutNotPositive)
        else
          match SessionAffinity c with
          | Some sa =>
              if SessionAffinityConfig.Enabled sa
                 && (SessionAffinityConfig.Timeout sa <=? 0)
              then (bs, Some AffinityTimeoutNotPositive)
              else if SessionAffinityConfig.Enabled sa
                      && String.eqb (SessionAffinityConfig.CookieName sa) EmptyString
              then (bs, Some CookieNameRequired)
              else (bs, None)
          | None => (bs, None)
          end
    end.

Definition defaultHealthCheck : HealthCheckConfig :=
  {| Enabled := false; Interval := 30 * gotime.Second;
     Timeout := 5 * gotime.Second; Path := "/health" |}.

Definition defaultSessionAffinity : SessionAffinityConfig.t :=
  {| SessionAffinityConfig.Enabled := false;
     SessionAffinityConfig.Timeout := 30 * gotime.Minute;
     SessionAffinityConfig.CookieName := "LB_SESSION" |}.

(** The body of the loop of [SetDefaultValues]. *)
Definition defaultBackend (b : Backend.t) : Backend.t :=
  let b := if Weight b <=? 0 then setWeight b 1 else b in
  if negb (Enabled (HealthCheck b)) then setHealthCheck b defaultHealthCheck
  else b.

Definition SetDefaultValues (cfg : FullConfig) : FullConfig :=
  let c := lbConfig cfg in
  let strategy :=
    if String.eqb (Strategy c) EmptyString then RoundRobin else Strategy c in
  let healthCheck :=
    if negb (Enabled (GlobalHealthCheck c)) then defaultHealthCheck
    else GlobalHealthCheck c in
  let sessionAffinity :=
    match SessionAffinity cfg with
    | None => Some defaultSessionAffinity
    | Some sa => Some sa
    end in
  {| lbConfig := {| Strategy := strategy;
                    Backends := map defaultBackend (Backends c);
                    GlobalHealthCheck := healthCheck |};
     SessionAffinity := sessionAffinity |}.

(** What a valid configuration is, condition by condition. *)
Definition wellFormed (c : FullConfig) : Prop :=
  In (Strategy (lbConfig c)) GetSupportedStrategies
  /\ Backends (lbConfig c) <> []
  /\ Forall (fun b => URL b <> EmptyString) (Backends (lbConfig c))
  /\ (Enabled (GlobalHealthCheck (lbConfig c)) = true
      -> 0 < Interval (GlobalHealthCheck (lbConfig c))
         /\ 0 < Timeout (GlobalHealthCheck (lbConfig c)))
  /\ (forall sa, SessionAffinity c = Some sa
      -> SessionAffinityConfig.Enabled sa = true
      -> 0 < SessionAffinityConfig.Timeout sa
         /\ SessionAffinityConfig.CookieName sa <> EmptyString).

Definition isWeighted (c : FullConfig) : bool :=
  String.eqb (Strategy (lbConfig c)) WeightedRoundRobin
  || String.eqb (Strategy (lbConfig c)) WeightedRandom.

(** A weighted configuration whose second backend has no URL. *)
Definition brokenConfig : FullConfig :=
  {| lbConfig :=
       {| Strategy := WeightedRoundRobin;
          Backends := [lb_spec.mkBackend "http://10.0.0.1:8080" 0;
                       lb_spec.mkBackend EmptyString 2];
          GlobalHealthCheck := lb_spec.noHealthCfg |};
     SessionAffinity := None |}.

Definition weightedSample : FullConfig :=
  {| lbConfig :=
       {| Strategy := WeightedRoundRobin;
          Backends := [lb_spec.mkBackend "http://10.0.0.1:8080" 0;
                       lb_spec.mkBackend "http://10.0.0.2:8080" 2];
          GlobalHealthCheck := lb_spec.healthCfg |};
     SessionAffinity := None |}.

End lb_factory.

(** * Properties *)

#[local] Arguments String.append !s1 s2 : simpl nomatch.

(** ** Strings *)

Section string_facts.
Import GoStrings.

Lemma HasPrefix_app (p t : string) : HasPrefix (p +:+ t) p = true.
Proof.
  induction p as [|c p IH]; simpl; [reflexivity|].
  rewrite Ascii.eqb_refl. exact IH.
Qed.

Lemma HasPrefix_inv (s p : string) :
  HasPrefix s p = true -> exists t, s = p +:+ t.
Proof.
  revert s. induction p as [|c p IH]; intros s Hp; simpl in *.
  - exists s. reflexivity.
  - destruct s as [|d s]; [discriminate|].
    apply andb_true_iff in Hp as [Hc Hs].
    apply Ascii.eqb_eq in Hc. subst d.
    destruct (IH _ Hs) as [t ->]. exists t. reflexivity.
Qed.

Lemma HasPrefix_iff (s p : string) :
  HasPrefix s p = true <-> exists t, s = p +:+ t.
Proof.
  split; [apply HasPrefix_inv|]. intros [t ->]. apply HasPrefix_app.
Qed.

Lemma length_app (s t : string) :
  String.length (s +:+ t) = (String.length s + String.length t)%nat.
Proof. induction s; simpl; congruence. Qed.

Lemma string_app_assoc (a b c : string) : a +:+ b +:+ c = (a +:+ b) +:+ c.
Proof. induction a as [|x a IH]; simpl; [reflexivity | f_equal; exact IH]. Qed.

Lemma string_app_nil (a : string) : a +:+ EmptyString = a.
Proof. induction a as [|x a IH]; simpl; [reflexivity | f_equal; exact IH]. Qed.

Lemma sliceFrom_app (s t : string) : sliceFrom (String.length s) (s +:+ t) = t.
Proof. induction s; simpl; [destruct t; reflexivity | assumption]. Qed.

Lemma sliceTo_app (s t : string) : sliceTo (String.length s) (s +:+ t) = s.
Proof. induction s; simpl; [destruct t; reflexivity | congruence]. Qed.

Lemma slice_split (n : nat) (s : string) : s = sliceTo n s +:+ sliceFrom n s.
Proof.
  revert s. induction n as [|n IH]; intros [|c s]; simpl; try reflexivity.
  f_equal. apply IH.
Qed.

Lemma sliceTo_length (n : nat) (s : string) :
  (n <= String.length s)%nat -> String.length (sliceTo n s) = n.
Proof.
  revert s. induction n as [|n IH]; intros [|c s] Hn; simpl in *; try lia.
  rewrite IH; lia.
Qed.

Lemma HasSuffix_iff (s suffix : string) :
  HasSuffix s suffix = true <-> exists t, s = t +:+ suffix.
Proof.
  unfold HasSuffix. rewrite andb_true_iff, Nat.leb_le, String.eqb_eq. split.
  - intros [_ Hs]. exists (sliceTo (String.length s - String.length suffix) s).
    etransitivity; [apply (slice_split (String.length s - String.length suffix))|].
    f_equal. exact Hs.
  - intros [t ->]. rewrite length_app. split; [lia|].
    replace (String.length t + String.length suffix - String.length suffix)%nat
      with (String.length t) by lia.
    apply sliceFrom_app.
Qed.

Lemma Contains_iff (s substr : string) :
  Contains s substr = true <-> exists a b, s = a +:+ substr +:+ b.
Proof.
  induction s as [|c s IH]; simpl.
  - rewrite orb_false_r, HasPrefix_iff. split.
    + intros [t Ht]. exists EmptyString, t. exact Ht.
    + intros [a [b Hab]]. destruct a; simpl in Hab; [eauto|discriminate].
  - rewrite orb_true_iff, IH. split.
    + intros [Hp | [a [b ->]]].
      * apply HasPrefix_inv in Hp as [t Ht]. exists EmptyString, t. exact Ht.
      * exists (String c a), b. reflexivity.
    + intros [[|d a] [b Hab]]; simpl in Hab.
      * left. rewrite Hab. apply (HasPrefix_app substr b).
      * right. injection Hab as _ ->. eauto.
Qed.

End string_facts.

(** ** WebSocket upgrade detection *)

Section websocket_detection.
Import http GoStrings websocket ws_spec.

(** C5, as stated, fails: one of the listed conditions holds of
    [versionOnlyRequest], and the request is not classified as an
    upgrade. *)
Lemma C5_one_condition_alone_is_not_detected :
  (connectionAsksUpgrade (H := keepOthers) versionOnlyRequest
   \/ versionIs13 versionOnlyRequest
   \/ keyPresent versionOnlyRequest)
  /\ isWebSocketUpgrade (H := keepOthers) versionOnlyRequest = false.
Proof.
  split.
  - right. left. vm_compute. reflexivity.
  - vm_compute. reflexivity.
Qed.

Context {U : Unicode}.

(** On ASCII text [ToLower] lowers the letters [A]..[Z] and keeps every
    other byte, whatever the lowering of other text is. *)
Lemma ToLower_ASCII (s : string) :
  isASCII s = true -> ToLower (H := U) s = lowerASCII s.
Proof.
  intros Ha. unfold ToLower. rewrite Ha.
  destruct (hasUpper s) eqn:Hu; cbn [negb]; [reflexivity|].
  clear Ha. induction s as [|c s IH]; [reflexivity|].
  cbn [hasUpper] in Hu. apply orb_false_iff in Hu as [Hc Hs].
  cbn [lowerASCII]. unfold lowerByte. rewrite Hc, <- (IH Hs). reflexivity.
Qed.

(** C5, amended: a request is classified as a WebSocket upgrade exactly
    when all the conditions hold together: [Connection] contains
    [upgrade] and [Upgrade] equals [websocket] (both compared after
    [strings.ToLower]), [Sec-WebSocket-Version] is [13], and
    [Sec-WebSocket-Key] is not empty.  For ASCII values of the two
    headers the comparison is the one that lowers the letters [A]..[Z]
    and nothing else. *)
Theorem C5_isWebSocketUpgrade_iff_all_conditions (r : Request) :
  (isWebSocketUpgrade (H := U) r = true
   <-> connectionAsksUpgrade (H := U) r /\ versionIs13 r /\ keyPresent r)
  /\ (isASCII (Get (RequestHeader r) "Connection") = true
      -> isASCII (Get (RequestHeader r) "Upgrade") = true
      -> (isWebSocketUpgrade (H := U) r = true
          <-> Contains (lowerASCII (Get (RequestHeader r) "Connection")) "upgrade"
              = true
              /\ lowerASCII (Get (RequestHeader r) "Upgrade") = "websocket"
              /\ versionIs13 r /\ keyPresent r)).
Proof.
  assert (Hiff : isWebSocketUpgrade (H := U) r = true
                 <-> connectionAsksUpgrade (H := U) r /\ versionIs13 r
                     /\ keyPresent r).
  { unfold isWebSocketUpgrade, connectionAsksUpgrade, versionIs13, keyPresent.
    destruct (Contains _ "upgrade") eqn:Hc; simpl.
    2: { split; [discriminate | intros [[H _] _]; discriminate]. }
    destruct (String.eqb_spec (ToLower (Get (RequestHeader r) "Upgrade")) "websocket")
      as [Hu|Hu]; simpl.
    2: { split; [discriminate | intros [[_ H] _]; contradiction]. }
    destruct (String.eqb_spec (Get (RequestHeader r) "Sec-WebSocket-Version") "13")
      as [Hv|Hv]; simpl.
    2: { split; [discriminate | intros [_ [H _]]; contradiction]. }
    destruct (String.eqb_spec (Get (RequestHeader r) "Sec-WebSocket-Key") EmptyString)
      as [Hk|Hk].
    - split; [discriminate | intros [_ [_ H]]; contradiction].
    - split; [intros _; repeat split; assumption | reflexivity]. }
  split; [exact Hiff|]. intros Hc Hu. rewrite Hiff.
  unfold connectionAsksUpgrade. rewrite (ToLower_ASCII _ Hc), (ToLower_ASCII _ Hu).
  tauto.
Qed.

(** Header values in mixed case are accepted. *)
Example mixed_case_upgrade_is_detected :
  isWebSocketUpgrade (H := U) mixedCaseUpgrade = true.
Proof.
  unfold isWebSocketUpgrade.
  rewrite !ToLower_ASCII by (vm_compute; reflexivity).
  vm_compute. reflexivity.
Qed.

End websocket_detection.

(** ** Host matching *)

Section host_matching.
Import GoStrings matcher host_spec.

Lemma matchWildcard_cons (pattern target : string)
  (rest : list (string * string)) (host : string) :
  matchWildcard ((pattern, target) :: rest) host
  = if wildcardTest pattern host then (target, true) else matchWildcard rest host.
Proof.
  unfold wildcardTest. cbn [matchWildcard].
  destruct (HasPrefix pattern "*."); [|reflexivity].
  destruct (HasSuffix host (sliceFrom 2 pattern)); [|reflexivity].
  reflexivity.
Qed.

Lemma wildcardTest_iff (pattern host : string) :
  wildcardTest pattern host = true <-> wildcardMatches pattern host.
Proof.
  unfold wildcardTest, wildcardMatches.
  rewrite !andb_true_iff, orb_true_iff, String.eqb_eq. split.
  - intros [[Hp _] Hm]. apply HasPrefix_inv in Hp as [domain ->].
    exists domain. split; [reflexivity|].
    change (sliceFrom 2 ("*." +:+ domain)) with domain in Hm.
    destruct Hm as [He|Hs]; [left; exact He|].
    right. apply HasSuffix_iff in Hs as [sub ->]. exists sub. reflexivity.
  - intros (domain & -> & Hm).
    change (sliceFrom 2 ("*." +:+ domain)) with domain.
    split; [split; [reflexivity|]|].
    + apply HasSuffix_iff. destruct Hm as [->|[sub ->]].
      * exists EmptyString. reflexivity.
      * exists (sub +:+ "."). apply string_app_assoc.
    + destruct Hm as [->|[sub ->]]; [left; reflexivity|].
      right. apply HasSuffix_iff. exists sub. reflexivity.
Qed.

(** The wildcard loop returns a target exactly when some visited rule is a
    matching wildcard, and the target is that of the first such rule. *)
Lemma matchWildcard_found (order : list (string * string)) (host target : string) :
  matchWildcard order host = (target, true)
  -> exists pattern, In (pattern, target) order /\ wildcardMatches pattern host.
Proof.
  induction order as [|[pattern t] rest IH]; [discriminate|].
  rewrite matchWildcard_cons.
  destruct (wildcardTest pattern host) eqn:Hw; intros H.
  - injection H as ->. exists pattern. split; [left; reflexivity|].
    apply wildcardTest_iff. exact Hw.
  - destruct (IH H) as [p [Hin Hp]]. exists p. split; [right; exact Hin|exact Hp].
Qed.

Lemma matchWildcard_none (order : list (string * string)) (host : string) :
  (forall pattern target, In (pattern, target) order -> ~ wildcardMatches pattern host)
  -> matchWildcard order host = (EmptyString, false).
Proof.
  induction order as [|[pattern t] rest IH]; intros Hno; [reflexivity|].
  rewrite matchWildcard_cons.
  destruct (wildcardTest pattern host) eqn:Hw.
  - exfalso. apply (Hno pattern t); [left; reflexivity|].
    apply wildcardTest_iff. exact Hw.
  - apply IH. intros p t' Hin. apply (Hno p t'). right. exact Hin.
Qed.

Lemma matchWildcard_some (order : list (string * string)) (host pattern target : string) :
  In (pattern, target) order -> wildcardMatches pattern host
  -> exists target', matchWildcard order host = (target', true).
Proof.
  induction order as [|[p t] rest IH]; [contradiction|].
  intros Hin Hw. rewrite matchWildcard_cons.
  destruct (wildcardTest p host) eqn:Hp; [eauto|].
  destruct Hin as [Heq|Hin]; [|eauto].
  injection Heq as -> ->. apply wildcardTest_iff in Hw. congruence.
Qed.

(** Exact beats wildcard: a rule whose pattern is the host itself decides,
    whatever else the rule set holds and in whatever order it is visited. *)
Lemma Match_exact (hm : HostMatcher) (order : list (string * string))
  (host target : string) :
  rules hm !! host = Some target -> Match hm order host = (target, true).
Proof. unfold Match. intros ->. reflexivity. Qed.

(** Every answer of [Match] is an exact rule or a matching wildcard rule;
    a rule of the shape [^...$] is never tried as a regular expression. *)
Lemma Match_found (hm : HostMatcher) (order : list (string * string))
  (host target : string) :
  rangeOrder hm order -> Match hm order host = (target, true)
  -> rules hm !! host = Some target
     \/ (rules hm !! host = None
         /\ exists pattern, rules hm !! pattern = Some target
                            /\ wildcardMatches pattern host).
Proof.
  unfold Match, rangeOrder. intros Hperm H.
  destruct (rules hm !! host) as [t|] eqn:Hx.
  - left. congruence.
  - right. split; [reflexivity|].
    apply matchWildcard_found in H as (pattern & Hin & Hw).
    exists pattern. split; [|exact Hw].
    apply elem_of_map_to_list. rewrite <- Hperm. apply list_elem_of_In. exact Hin.
Qed.

Lemma Match_not_found (hm : HostMatcher) (order : list (string * string))
  (host : string) :
  rangeOrder hm order
  -> rules hm !! host = None
  -> (forall pattern target, rules hm !! pattern = Some target
                             -> ~ wildcardMatches pattern host)
  -> Match hm order host = (EmptyString, false).
Proof.
  unfold Match, rangeOrder. intros Hperm -> Hno.
  apply matchWildcard_none. intros pattern target Hin.
  apply (Hno pattern target). apply elem_of_map_to_list.
  rewrite <- Hperm. apply list_elem_of_In. exact Hin.
Qed.

(** Host wildcard routing, and exact before wildcard, on [siteMatcher]. *)
Example wildcard_host :
  Match siteMatcher (map_to_list (rules siteMatcher)) "app.example.com" = ("web", true)
  /\ Match siteMatcher (map_to_list (rules siteMatcher)) "example.com" = ("web", true)
  /\ Match siteMatcher (map_to_list (rules siteMatcher)) "api.example.com" = ("api", true)
  /\ Match siteMatcher (map_to_list (rules siteMatcher)) "example.org" = (EmptyString, false).
Proof. repeat split; vm_compute; reflexivity. Qed.

(** C1, the part the code misses: with the single rule
    [^api[0-9]+\.example\.com$ -> api-service], the host
    [api7.example.com] (which that expression matches) is answered with
    [(EmptyString, false)]; [Match] has no regular-expression step. *)
Theorem C1_Match_ignores_regex_rule :
  Match regexOnlyMatcher (map_to_list (rules regexOnlyMatcher)) "api7.example.com"
  = (EmptyString, false)
  /\ proxy.stripPort "api7.example.com:8080" = "api7.example.com".
Proof. split; vm_compute; reflexivity. Qed.

End host_matching.

(** ** Route matching inside a host rule *)

Section route_matching.
Import GoStrings config proxy route_spec.
Context `{RegexpEngine}.

Lemma matchRouteRules_cons (svcs : gmap string Service.t) (path : string)
  (rr : RouteRule.t) (rest : list RouteRule.t) :
  matchRouteRules svcs path (rr :: rest)
  = if routeRuleMatches (RouteRule.Pattern rr) path then
      match svcs !! RouteRule.Target rr with
      | Some service => Some (service, rr)
      | None => matchRouteRules svcs path rest
      end
    else matchRouteRules svcs path rest.
Proof.
  unfold routeRuleMatches. cbn [matchRouteRules].
  destruct (String.eqb (RouteRule.Pattern rr) "/" && String.eqb path "/");
    [reflexivity|].
  destruct (HasSuffix (RouteRule.Pattern rr) "/*").
  { destruct (HasPrefix path _); [|reflexivity].
    destruct (_ || _); reflexivity. }
  destruct (HasPrefix (RouteRule.Pattern rr) "^" && HasSuffix (RouteRule.Pattern rr) "$");
    [|reflexivity].
  destruct (Compile (RouteRule.Pattern rr)) as [re|]; [|reflexivity].
  destruct (MatchString re path); reflexivity.
Qed.

(** Declaration order decides: the answer is the first rule of the list
    that takes the request. *)
Lemma matchRouteRules_first (svcs : gmap string Service.t) (path : string)
  (rules : list RouteRule.t) (service : Service.t) (rr : RouteRule.t) :
  matchRouteRules svcs path rules = Some (service, rr)
  <-> exists before after,
        rules = (before ++ rr :: after)%list
        /\ Forall (fun r => takes svcs path r = false) before
        /\ routeRuleMatches (RouteRule.Pattern rr) path = true
        /\ svcs !! RouteRule.Target rr = Some service.
Proof.
  induction rules as [|r rest IH].
  - split; [discriminate|]. intros (before & after & Heq & _).
    destruct before; discriminate.
  - rewrite matchRouteRules_cons. split.
    + intros Hm.
      destruct (routeRuleMatches (RouteRule.Pattern r) path) eqn:Hr.
      * destruct (svcs !! RouteRule.Target r) as [s|] eqn:Hs.
        -- injection Hm as -> ->. exists [], rest. repeat split; auto.
        -- apply IH in Hm as (before & after & -> & Hb & Hp & Ht).
           exists (r :: before), after. repeat split; auto.
           constructor; [|exact Hb]. unfold takes. rewrite Hr, Hs. reflexivity.
      * apply IH in Hm as (before & after & -> & Hb & Hp & Ht).
        exists (r :: before), after. repeat split; auto.
        constructor; [|exact Hb]. unfold takes. rewrite Hr. reflexivity.
    + intros (before & after & Heq & Hb & Hp & Ht).
      destruct before as [|b before]; simpl in Heq; injection Heq as -> ->.
      * rewrite Hp, Ht. reflexivity.
      * apply Forall_cons in Hb as [Hb0 Hb].
        assert (Hrest : matchRouteRules svcs path (before ++ rr :: after)%list
                        = Some (service, rr)).
        { apply IH. exists before, after. auto. }
        unfold takes in Hb0. apply andb_false_iff in Hb0 as [->|Hn]; [exact Hrest|].
        destruct (routeRuleMatches (RouteRule.Pattern b) path); [|exact Hrest].
        apply bool_decide_eq_false in Hn.
        destruct (svcs !! RouteRule.Target b) eqn:Hs; [|exact Hrest].
        exfalso. apply Hn. eauto.
Qed.

Lemma matchRouteRules_none (svcs : gmap string Service.t) (path : string)
  (rules : list RouteRule.t) :
  matchRouteRules svcs path rules = None
  <-> Forall (fun r => takes svcs path r = false) rules.
Proof.
  induction rules as [|r rest IH]; [split; [constructor|reflexivity]|].
  rewrite matchRouteRules_cons, Forall_cons, <- IH. unfold takes.
  destruct (routeRuleMatches (RouteRule.Pattern r) path); simpl.
  - destruct (svcs !! RouteRule.Target r) eqn:Hs.
    + split; [discriminate|]. intros [Hd _].
      apply bool_decide_eq_false in Hd. exfalso. apply Hd. eauto.
    + split; [intros ?; split; [|assumption]|intros [_ ?]; assumption].
      apply bool_decide_eq_false. intros [? ?]. discriminate.
  - split; [auto|intros [_ ?]; assumption].
Qed.

(** The shape [prefix/*]: the path is the prefix or starts with the prefix
    followed by a slash. *)
Lemma routeRuleMatches_prefix (prefix path : string) :
  routeRuleMatches (prefix +:+ "/*") path = true
  <-> path = prefix \/ exists rest, path = prefix +:+ "/" +:+ rest.
Proof.
  unfold routeRuleMatches.
  assert (Hne : String.eqb (prefix +:+ "/*") "/" = false).
  { apply String.eqb_neq. intros Heq.
    apply (f_equal String.length) in Heq. rewrite length_app in Heq.
    simpl in Heq. lia. }
  rewrite Hne. cbn [andb].
  assert (Hs : HasSuffix (prefix +:+ "/*") "/*" = true).
  { apply HasSuffix_iff. exists prefix. reflexivity. }
  rewrite Hs.
  assert (Hp : sliceTo (String.length (prefix +:+ "/*") - 2) (prefix +:+ "/*") = prefix).
  { rewrite length_app. simpl.
    replace (String.length prefix + 2 - 2)%nat with (String.length prefix) by lia.
    apply sliceTo_app. }
  rewrite Hp, andb_true_iff, orb_true_iff, String.eqb_eq, !HasPrefix_iff. split.
  - intros [_ [->|[t Ht]]]; [left; reflexivity|].
    right. exists t. rewrite Ht. symmetry. apply string_app_assoc.
  - intros [->|[rest ->]].
    + split; [exists EmptyString; symmetry; apply string_app_nil|left; reflexivity].
    + split; [eauto|]. right. exists rest. apply string_app_assoc.
Qed.

(** A pattern that is neither [prefix/*] nor shaped [^...$] matches in one
    case only: pattern and path are both the root path. *)
Lemma routeRuleMatches_plain (pattern path : string) :
  HasSuffix pattern "/*" = false
  -> HasPrefix pattern "^" && HasSuffix pattern "$" = false
  -> (routeRuleMatches pattern path = true <-> pattern = "/" /\ path = "/").
Proof.
  unfold routeRuleMatches. intros -> ->.
  destruct (String.eqb_spec pattern "/") as [->|Hp]; simpl.
  - destruct (String.eqb_spec path "/") as [->|Hq].
    + split; auto.
    + split; [discriminate|intros [_ ?]; contradiction].
  - split; [discriminate|intros [? _]; contradiction].
Qed.

(** The shape [^...$]: the compiled expression decides. *)
Lemma routeRuleMatches_regexp (pattern path : string) :
  HasSuffix pattern "/*" = false
  -> HasPrefix pattern "^" && HasSuffix pattern "$" = true
  -> routeRuleMatches pattern path
     = match Compile pattern with
       | Some re => MatchString re path
       | None => false
       end.
Proof.
  unfold routeRuleMatches. intros Hs Hr.
  destruct (String.eqb_spec pattern "/") as [->|Hp]; [discriminate Hr|].
  rewrite Hs, Hr. reflexivity.
Qed.

(** Fallback: when no route rule takes the request, the target service of
    the host rule serves it. *)
Lemma determineTarget_fallback (ph : ProxyHandler) (order : list (string * string))
  (r : http.Request) (name : string) (hostRule : HostRule.t) (service : Service.t) :
  matcher.Match (hostMatcher ph) order (stripPort (http.Host r)) = (name, true)
  -> findHostRule (HostRules (cfg ph)) name = Some hostRule
  -> Forall (fun rr => takes (services ph) (http.URLPath r) rr = false)
            (HostRule.RouteRules hostRule)
  -> services ph !! HostRule.Target hostRule = Some service
  -> determineTarget ph order r = Some (service, hostRule, None).
Proof.
  intros Hm Hf Hnone Hs. unfold determineTarget.
  rewrite Hm. cbn [negb]. rewrite Hf.
  apply matchRouteRules_none in Hnone. rewrite Hnone, Hs. reflexivity.
Qed.

End route_matching.

(** C3, the part the code misses: a route rule whose pattern is the exact
    path [/admin] does not take the request for [/admin]; the request
    falls through to the target of the host rule.  The sibling
    [RouteMatcher.Match] does answer [/admin] from the same rule. *)
Theorem C3_exact_route_pattern_is_not_matched `{RegexpEngine} :
  proxy.determineTarget route_spec.siteHandler
    (map_to_list (matcher.rules (proxy.hostMatcher route_spec.siteHandler)))
    route_spec.adminRequest
  = Some (route_spec.webService, route_spec.siteRule, None)
  /\ matcher.RouteMatch {| matcher.routeRules := {[ "/admin" := "admin-service" ]} |}
       [("/admin", "admin-service")] [("/admin", "admin-service")] "/admin"
     = ("admin-service", true).
Proof. split; vm_compute; reflexivity. Qed.

(** ** Assembly of the middleware chain *)

Section chain_assembly.
Import config middleware proxy chain_spec.

Lemma alreadyAdded_iff (hostRule : option HostRule.t)
  (routeRule : option RouteRule.t) (name : string) :
  alreadyAdded hostRule routeRule name = true
  <-> (exists rr, routeRule = Some rr /\ In name (RouteRule.Middlewares rr))
      \/ (exists hr, hostRule = Some hr /\ In name (HostRule.Middlewares hr)).
Proof.
  assert (Hex : forall l, existsb (fun mwName => String.eqb mwName name) l = true
                          <-> In name l).
  { intros l. rewrite existsb_exists. split.
    - intros [x [Hin Hx]]. apply String.eqb_eq in Hx. subst. exact Hin.
    - intros Hin. exists name. split; [exact Hin|apply String.eqb_refl]. }
  unfold alreadyAdded.
  destruct routeRule as [rr|];
    [destruct (existsb _ (RouteRule.Middlewares rr)) eqn:Hr|].
  - split; [|reflexivity]. intros _. left. exists rr. split; [reflexivity|].
    apply Hex. exact Hr.
  - destruct hostRule as [hr|]; [rewrite Hex|]; split.
    + intros Hin. right. eauto.
    + intros [(rr' & [= <-] & Hin)|(hr' & [= <-] & Hin)]; [|exact Hin].
      apply Hex in Hin. congruence.
    + discriminate.
    + intros [(rr' & [= <-] & Hin)|(hr' & [=] & _)].
      apply Hex in Hin. congruence.
  - destruct hostRule as [hr|]; [rewrite Hex|]; split.
    + intros Hin. right. eauto.
    + intros [(rr' & [=] & _)|(hr' & [= <-] & Hin)]. exact Hin.
    + discriminate.
    + intros [(rr' & [=] & _)|(hr' & [=] & _)].
Qed.

(** C2, the case the code misses: [rate_limit] is named on the route rule
    and on the host rule; the host-level loop adds it without looking at what
    the route-level loop added, and the chain holds it twice. *)
Theorem C2_name_on_route_and_host_is_added_twice :
  GetMiddlewareNames
    (createDynamicMiddlewareChain apiHandler (Some []) (Some apiHost) (Some apiRoute))
  = ["rate_limit"; "rate_limit"]
  /\ ~ NoDup (GetMiddlewareNames
                (createDynamicMiddlewareChain apiHandler (Some [])
                   (Some apiHost) (Some apiRoute))).
Proof.
  assert (Hn : GetMiddlewareNames
                 (createDynamicMiddlewareChain apiHandler (Some [])
                    (Some apiHost) (Some apiRoute)) = ["rate_limit"; "rate_limit"])
    by (vm_compute; reflexivity).
  split; [exact Hn|]. rewrite Hn. intros Hd.
  apply NoDup_cons in Hd as [Hnotin _]. apply Hnotin. left.
Qed.

End chain_assembly.

(** ** Dynamic routing *)

Section dynamic_routing.
Import config middleware proxy chain_spec.
Context `{RegexpEngine} `{URLParser}.

(** C4: when the chain completes and leaves a service name under
    [dynamic_target_service], a configured service of that name replaces
    the statically matched target (and the context is pointed at it); a
    name that is not configured leaves the matched target in place. *)
Theorem C4_dynamic_target_overrides_static_target (ph : ProxyHandler)
  (order : list (string * string)) (registry : option (list MiddlewareService.t))
  (w : http.ResponseWriter) (r : http.Request)
  (targetService : Service.t) (hostRule : HostRule.t)
  (routeRule : option RouteRule.t) (ctx : Context) (name : string) :
  determineTarget ph order r = Some (targetService, hostRule, routeRule)
  -> Execute (createDynamicMiddlewareChain ph registry (Some hostRule) routeRule)
       (newContext w r targetService) = (ctx, true)
  -> Values ctx !! "dynamic_target_service" = Some (VString name)
  -> (forall service, services ph !! name = Some service
        -> exists ctx', ServeHTTP ph order registry w r = ProxyTo service ctx'
             /\ TargetURL ctx' = Service.URL service
             /\ ServiceName ctx' = getServiceName (Service.URL service)
             /\ Values ctx' = Values ctx)
     /\ (services ph !! name = None
         -> ServeHTTP ph order registry w r = ProxyTo targetService ctx).
Proof.
  intros Hd He Hv. unfold ServeHTTP. rewrite Hd, He. cbn [negb].
  unfold resolveDynamicTarget. rewrite Hv. split.
  - intros service Hs. rewrite Hs. eexists. split; [reflexivity|].
    repeat split; reflexivity.
  - intros Hs. rewrite Hs. reflexivity.
Qed.

End dynamic_routing.

(** A request for [app.example.com] whose static target is [primary] is
    proxied to [alt] when [alt] is configured. *)
Lemma C4_witness_alt_configured :
  exists ctx',
    proxy.ServeHTTP (H := literal.engine) (H0 := literal.urls)
      (chain_spec.dynHandler chain_spec.bothServices)
      [("app.example.com", "primary")] None http.newResponseWriter
      chain_spec.dynRequest
    = proxy.ProxyTo chain_spec.altService ctx'
    /\ middleware.TargetURL ctx' = config.Service.URL chain_spec.altService
    /\ middleware.ServiceName ctx'
       = proxy.getServiceName (H := literal.urls)
           (config.Service.URL chain_spec.altService)
    /\ middleware.Values ctx' = middleware.Values chain_spec.dynContext.
Proof.
  refine (proj1 (C4_dynamic_target_overrides_static_target
            (H := literal.engine) (H0 := literal.urls)
            (chain_spec.dynHandler chain_spec.bothServices)
            [("app.example.com", "primary")] None http.newResponseWriter
            chain_spec.dynRequest chain_spec.primaryService chain_spec.dynHost None
            chain_spec.dynContext "alt" _ _ _) chain_spec.altService _);
    vm_compute; reflexivity.
Defined.

(** ** Go integers *)

Section goint_facts.

Lemma wrap_inRange (z : Z) : GoInt.inRange z -> GoInt.wrap z = z.
Proof.
  unfold GoInt.inRange, GoInt.wrap, GoInt.minInt, GoInt.maxInt. intros Hz.
  rewrite Z.mod_small; lia.
Qed.

Lemma add_small (a b : Z) :
  GoInt.minInt <= a + b <= GoInt.maxInt -> GoInt.add a b = a + b.
Proof. intros Hr. unfold GoInt.add. apply wrap_inRange. exact Hr. Qed.

Lemma sub_small (a b : Z) :
  GoInt.minInt <= a - b <= GoInt.maxInt -> GoInt.sub a b = a - b.
Proof. intros Hr. unfold GoInt.sub. apply wrap_inRange. exact Hr. Qed.

Lemma maxInt_pos : 0 < GoInt.maxInt.
Proof. reflexivity. Qed.

Lemma minInt_neg : GoInt.minInt < 0.
Proof. reflexivity. Qed.

End goint_facts.

(** ** Connection counters *)

Section connection_counters.
Import loadbalancer loadbalancer.Backend lb_spec.

Lemma setConnections_same (b : Backend.t) : setConnections b (Connections b) = b.
Proof. destruct b. reflexivity. Qed.

Lemma withBackends_same (lb : BaseLoadBalancer) : withBackends lb (backends lb) = lb.
Proof. destruct lb. reflexivity. Qed.

(** An update of the first backend with the URL carries a bound over. *)
Lemma updateFirst_Forall (P Q : Backend.t -> Prop) (url : string)
  (f : Backend.t -> Backend.t) (bs : list Backend.t) :
  (forall b, P b -> Q (f b)) -> (forall b, P b -> Q b)
  -> Forall P bs -> Forall Q (updateFirst url f bs).
Proof.
  intros Hf Hw. induction bs as [|b rest IH]; intros Hall; simpl; [constructor|].
  apply Forall_cons in Hall as [Hb Hrest].
  destruct (String.eqb (URL b) url); constructor; auto.
  eapply Forall_impl; [exact Hrest|exact Hw].
Qed.

Lemma Forall_weaken_bound (lo hi hi' : Z) (bs : list Backend.t) :
  hi <= hi'
  -> Forall (fun b => lo <= Connections b <= hi) bs
  -> Forall (fun b => lo <= Connections b <= hi') bs.
Proof.
  intros Hle Hall. eapply Forall_impl; [exact Hall|].
  intros b Hb. simpl in Hb. lia.
Qed.

(** One call keeps every counter at or above zero and raises it by one at
    most. *)
Lemma applyCall_bounds (lb : BaseLoadBalancer) (c : ConnCall) (M : Z) :
  M < GoInt.maxInt
  -> Forall (fun b => 0 <= Connections b <= M) (backends lb)
  -> Forall (fun b => 0 <= Connections b <= M + 1) (backends (applyCall lb c)).
Proof.
  intros HM Hall. pose proof minInt_neg as Hmin.
  destruct c as [url|url]; simpl;
    apply (updateFirst_Forall (fun b => 0 <= Connections b <= M)); try exact Hall.
  - intros b Hb. simpl. rewrite add_small; lia.
  - intros b Hb. lia.
  - intros b Hb. destruct (Connections b >? 0) eqn:Hpos; [|lia].
    apply Z.gtb_lt in Hpos. simpl. rewrite sub_small; lia.
  - intros b Hb. lia.
Qed.

Lemma applyCalls_bounds (calls : list ConnCall) (lb : BaseLoadBalancer) (M : Z) :
  M + Z.of_nat (length calls) <= GoInt.maxInt
  -> Forall (fun b => 0 <= Connections b <= M) (backends lb)
  -> Forall (fun b => 0 <= Connections b <= M + Z.of_nat (length calls))
       (backends (applyCalls lb calls)).
Proof.
  revert lb M. induction calls as [|c calls IH]; intros lb M HM Hall.
  - simpl. apply (Forall_weaken_bound 0 M); [lia|exact Hall].
  - cbn [applyCalls fold_left length] in *.
    replace (M + Z.of_nat (S (length calls)))
      with ((M + 1) + Z.of_nat (length calls)) in * by lia.
    apply (IH (applyCall lb c)); [exact HM|].
    apply applyCall_bounds; [lia|exact Hall].
Qed.

Lemma decrement_at_zero (bs : list Backend.t) (url : string) :
  connectionsOf bs url = Some 0
  -> updateFirst url
       (fun backend =>
          if Connections backend >? 0
          then setConnections backend (GoInt.sub (Connections backend) 1)
          else backend) bs = bs.
Proof.
  induction bs as [|b rest IH]; simpl; [reflexivity|].
  destruct (String.eqb (URL b) url).
  - intros [= ->]. reflexivity.
  - intros Hc. rewrite IH; auto.
Qed.

Lemma increment_then_decrement (bs : list Backend.t) (url : string) (M : Z) :
  M < GoInt.maxInt
  -> Forall (fun b => 0 <= Connections b <= M) bs
  -> updateFirst url
       (fun backend =>
          if Connections backend >? 0
          then setConnections backend (GoInt.sub (Connections backend) 1)
          else backend)
       (updateFirst url
          (fun backend => setConnections backend (GoInt.add (Connections backend) 1))
          bs) = bs.
Proof.
  intros HM. pose proof minInt_neg as Hmin.
  induction bs as [|b rest IH]; intros Hall; [reflexivity|].
  apply Forall_cons in Hall as [Hb Hrest]. simpl.
  destruct (String.eqb (URL b) url) eqn:Hu; simpl.
  - rewrite Hu. rewrite add_small by lia.
    replace (Connections b + 1 >? 0) with true by (symmetry; apply Z.gtb_lt; lia).
    simpl. rewrite sub_small by lia.
    replace (Connections b + 1 - 1) with (Connections b) by lia.
    destruct b. reflexivity.
  - rewrite Hu. f_equal. apply IH. exact Hrest.
Qed.

(** C7: if every counter starts in [0..M] and the calls cannot carry a
    counter past the largest [int], then after any sequence of
    [IncrementConnection] and [DecrementConnection] calls every counter
    is at least 0; a decrement of a counter that is 0 changes nothing; and
    an increment followed by the decrement for the same URL restores the
    state. *)
Theorem C7_connections_never_negative (lb : BaseLoadBalancer)
  (calls : list ConnCall) (M : Z) (url : string) :
  Forall (fun b => 0 <= Connections b <= M) (backends lb)
  -> M + Z.of_nat (length calls) < GoInt.maxInt
  -> let lb' := applyCalls lb calls in
     Forall (fun b => 0 <= Connections b) (backends lb')
     /\ (connectionsOf (backends lb') url = Some 0
         -> DecrementConnection lb' url = lb')
     /\ DecrementConnection (IncrementConnection lb' url) url = lb'.
Proof.
  intros Hall HM lb'.
  assert (Hb : Forall (fun b => 0 <= Connections b <= M + Z.of_nat (length calls))
                 (backends lb'))
    by (apply applyCalls_bounds; [lia|exact Hall]).
  split; [|split].
  - eapply Forall_impl; [exact Hb|]. intros b Hb'. simpl in Hb'. lia.
  - intros Hz. unfold DecrementConnection.
    rewrite decrement_at_zero by exact Hz. apply withBackends_same.
  - unfold DecrementConnection, IncrementConnection. simpl.
    rewrite (increment_then_decrement _ _ _ HM Hb).
    destruct lb'. reflexivity.
Qed.

(** Six calls on the sample balancer; the third backend is decremented
    while idle. *)
Lemma C7_witness_sample_calls :
  let lb' := applyCalls sampleLB
               [Decrement "http://10.0.0.3:8080"; Increment "http://10.0.0.1:8080";
                Increment "http://10.0.0.1:8080"; Decrement "http://10.0.0.1:8080";
                Decrement "http://10.0.0.2:8080"; Increment "http://10.0.0.9:8080"] in
  Forall (fun b => 0 <= Connections b) (backends lb')
  /\ (connectionsOf (backends lb') "http://10.0.0.3:8080" = Some 0
      -> DecrementConnection lb' "http://10.0.0.3:8080" = lb')
  /\ DecrementConnection (IncrementConnection lb' "http://10.0.0.3:8080")
       "http://10.0.0.3:8080" = lb'.
Proof.
  apply (C7_connections_never_negative sampleLB _ 0 "http://10.0.0.3:8080").
  - repeat constructor; simpl; lia.
  - vm_compute. reflexivity.
Defined.

End connection_counters.

(** ** Health probes *)

Section health_probes.
Import loadbalancer loadbalancer.Backend lb_spec.

(** The liveness a probe result stands for. *)
Lemma checkBackend_outcome (lb : BaseLoadBalancer) (net : Network) (backend : Backend.t) :
  checkBackend lb net backend
  = setActive backend
      match probeOutcome lb net backend with
      | None => true
      | Some (Response code) => (200 <=? code) && (code <? 300)
      | Some _ => false
      end.
Proof.
  unfold checkBackend, probeOutcome, probeConfig, probeURL.
  destruct (Enabled (HealthCheck backend)); cbn [negb].
  - destruct (String.eqb (Path (HealthCheck backend)) EmptyString); cbn [negb];
      destruct (net _ _); reflexivity.
  - destruct (Enabled (GlobalHealthCheck (config lb))); cbn [negb]; [|reflexivity].
    destruct (String.eqb (Path (GlobalHealthCheck (config lb))) EmptyString); cbn [negb];
      destruct (net _ _); reflexivity.
Qed.

(** [Active] is the only field a probe writes. *)
Lemma checkBackend_writes_Active_only (lb : BaseLoadBalancer) (net : Network)
  (backend : Backend.t) :
  let b' := checkBackend lb net backend in
  URL b' = URL backend /\ Weight b' = Weight backend
  /\ Connections b' = Connections backend
  /\ ResponseTime b' = ResponseTime backend
  /\ HealthCheck b' = HealthCheck backend.
Proof. rewrite checkBackend_outcome. simpl. auto. Qed.

Lemma probeOutcome_setActive (lb : BaseLoadBalancer) (net : Network)
  (backend : Backend.t) (a : bool) :
  probeOutcome lb net (setActive backend a) = probeOutcome lb net backend.
Proof. reflexivity. Qed.

Lemma checkBackend_idempotent (lb : BaseLoadBalancer) (net : Network)
  (backend : Backend.t) :
  checkBackend lb net (checkBackend lb net backend) = checkBackend lb net backend.
Proof.
  rewrite (checkBackend_outcome lb net backend).
  rewrite (checkBackend_outcome lb net (setActive _ _)).
  rewrite probeOutcome_setActive. reflexivity.
Qed.

Lemma checkBackend_iter (lb : BaseLoadBalancer) (net : Network)
  (backend : Backend.t) (N : nat) :
  Nat.iter (S N) (checkBackend lb net) backend = checkBackend lb net backend.
Proof.
  induction N as [|N IH]; [reflexivity|].
  change (Nat.iter (S (S N)) (checkBackend lb net) backend)
    with (checkBackend lb net (Nat.iter (S N) (checkBackend lb net) backend)).
  rewrite IH. apply checkBackend_idempotent.
Qed.

(** A checker that was started (the balancer's health check is enabled,
    the condition under which [Start] launches the probing loop) probes
    every backend. *)
Lemma started_checker_always_probes (lb : BaseLoadBalancer) (net : Network)
  (backend : Backend.t) :
  Enabled (GlobalHealthCheck (config lb)) = true
  -> exists outcome, probeOutcome lb net backend = Some outcome.
Proof.
  intros Hg. unfold probeOutcome, probeConfig. rewrite Hg.
  destruct (Enabled (HealthCheck backend)); eauto.
Qed.

(** C8: when a probe of the backend is made (its own health check or the
    balancer's is enabled) and comes to [outcome], the probe leaves
    [Active = true] exactly when [outcome] is a response whose status is
    in [200, 300), and [Active = false] on either error; probing again in
    the same world changes nothing, so any number [N >= 1] of consecutive
    probes leaves the liveness of the first. *)
Theorem C8_probe_sets_liveness_idempotently (lb : BaseLoadBalancer)
  (net : Network) (backend : Backend.t) (outcome : ProbeResult) :
  probeOutcome lb net backend = Some outcome
  -> (Active (checkBackend lb net backend) = true
      <-> exists code, outcome = Response code /\ 200 <= code < 300)
     /\ (outcome = NewRequestError \/ outcome = DoError
         -> Active (checkBackend lb net backend) = false)
     /\ checkBackend lb net (checkBackend lb net backend)
        = checkBackend lb net backend
     /\ forall N : nat,
          Active (Nat.iter (S N) (checkBackend lb net) backend)
          = Active (checkBackend lb net backend).
Proof.
  intros Ho. split; [|split; [|split]].
  - rewrite checkBackend_outcome, Ho. simpl. destruct outcome as [| |code].
    + split; [discriminate|intros (c & [=] & _)].
    + split; [discriminate|intros (c & [=] & _)].
    + rewrite andb_true_iff, Z.leb_le, Z.ltb_lt. split.
      * intros Hr. exists code. split; [reflexivity|lia].
      * intros (c & [= <-] & Hr). lia.
  - rewrite checkBackend_outcome, Ho. intros [-> | ->]; reflexivity.
  - apply checkBackend_idempotent.
  - intros N. rewrite checkBackend_iter. reflexivity.
Qed.

(** The second backend of the sample balancer answers its probe with 500:
    it is marked inactive, and stays so under repeated probes. *)
Lemma C8_witness_failing_backend :
  (Active (checkBackend sampleLB secondFails b2) = true
   <-> exists code, Response 500 = Response code /\ 200 <= code < 300)
  /\ (Response 500 = NewRequestError \/ Response 500 = DoError
      -> Active (checkBackend sampleLB secondFails b2) = false)
  /\ checkBackend sampleLB secondFails (checkBackend sampleLB secondFails b2)
     = checkBackend sampleLB secondFails b2
  /\ forall N : nat,
       Active (Nat.iter (S N) (checkBackend sampleLB secondFails) b2)
       = Active (checkBackend sampleLB secondFails b2).
Proof.
  apply (C8_probe_sets_liveness_idempotently sampleLB secondFails b2 (Response 500)).
  vm_compute. reflexivity.
Defined.

(** Health eviction: after one round of probes in that world the active
    backends are the first and the third. *)
Example health_eviction :
  map URL (GetActiveBackends (checkAllBackends sampleLB secondFails))
  = ["http://10.0.0.1:8080"; "http://10.0.0.3:8080"].
Proof. vm_compute. reflexivity. Qed.

End health_probes.

(** ** Weighted round robin *)

Section weighted_round_robin.
Import loadbalancer loadbalancer.Backend lb_spec.

Lemma effectiveWeight_pos (b : Backend.t) : 1 <= effectiveWeight b.
Proof. unfold effectiveWeight. destruct (Weight b <=? 0) eqn:Hw; lia. Qed.

Lemma SumOfWeights_nonneg (bs : list Backend.t) : 0 <= SumOfWeights bs.
Proof.
  induction bs as [|b rest IH]; simpl; [lia|].
  pose proof (effectiveWeight_pos b). lia.
Qed.

Lemma SumOfWeights_pos (bs : list Backend.t) : bs <> [] -> 1 <= SumOfWeights bs.
Proof.
  destruct bs as [|b rest]; [contradiction|]. intros _. simpl.
  pose proof (effectiveWeight_pos b). pose proof (SumOfWeights_nonneg rest). lia.
Qed.

Lemma totalWeight_from (bs : list Backend.t) (acc : Z) :
  0 <= acc -> acc + SumOfWeights bs <= GoInt.maxInt
  -> fold_left
       (fun totalWeight backend =>
          if Weight backend <=? 0 then GoInt.add totalWeight 1
          else GoInt.add totalWeight (Weight backend))
       bs acc
     = acc + SumOfWeights bs.
Proof.
  revert acc. induction bs as [|b rest IH]; intros acc Hacc Hsum; simpl in *; [lia|].
  pose proof (effectiveWeight_pos b) as Hb.
  pose proof (SumOfWeights_nonneg rest) as Hrest.
  pose proof minInt_neg as Hmin.
  assert (Hstep : (if Weight b <=? 0 then GoInt.add acc 1
                   else GoInt.add acc (Weight b)) = acc + effectiveWeight b).
  { unfold effectiveWeight in *. destruct (Weight b <=? 0); apply add_small; lia. }
  rewrite Hstep, IH; lia.
Qed.

Lemma totalWeightOf_sum (bs : list Backend.t) :
  SumOfWeights bs <= GoInt.maxInt -> totalWeightOf bs = SumOfWeights bs.
Proof. intros Hs. unfold totalWeightOf. rewrite totalWeight_from; lia. Qed.

Lemma cumulativeWeight_cons (b : Backend.t) (rest : list Backend.t) (i : nat) :
  cumulativeWeight (b :: rest) (S i) = effectiveWeight b + cumulativeWeight rest i.
Proof. reflexivity. Qed.

Lemma cumulativeWeight_zero (b : Backend.t) (rest : list Backend.t) :
  cumulativeWeight (b :: rest) 0 = effectiveWeight b.
Proof. unfold cumulativeWeight. simpl. lia. Qed.

(** The selection loop, started with [cur] already counted, stops at the
    first position whose cumulative weight exceeds the target. *)
Lemma selectByWeight_first (bs : list Backend.t) (target cur : Z) :
  0 <= cur -> cur + SumOfWeights bs <= GoInt.maxInt
  -> cur <= target < cur + SumOfWeights bs
  -> exists i b,
       selectByWeight target cur bs = Some b /\ bs !! i = Some b
       /\ target < cur + cumulativeWeight bs i
       /\ forall j, (j < i)%nat -> cur + cumulativeWeight bs j <= target.
Proof.
  revert cur. induction bs as [|b rest IH]; intros cur Hcur Hsum Ht; simpl in *; [lia|].
  pose proof (effectiveWeight_pos b) as Hb.
  pose proof (SumOfWeights_nonneg rest) as Hrest.
  pose proof minInt_neg as Hmin.
  change (if Weight b <=? 0 then 1 else Weight b) with (effectiveWeight b).
  rewrite add_small by lia.
  destruct (target <? cur + effectiveWeight b) eqn:Hlt.
  - apply Z.ltb_lt in Hlt. exists 0%nat, b. repeat split.
    + rewrite cumulativeWeight_zero. exact Hlt.
    + intros j Hj. lia.
  - apply Z.ltb_ge in Hlt.
    destruct (IH (cur + effectiveWeight b)) as (i & b' & Hsel & Hi & Hex & Hmin');
      try lia.
    exists (S i), b'. repeat split; [exact Hsel|exact Hi| |].
    + rewrite cumulativeWeight_cons. lia.
    + intros [|j] Hj.
      * rewrite cumulativeWeight_zero. lia.
      * rewrite cumulativeWeight_cons. specialize (Hmin' j). lia.
Qed.

Lemma withWeight_same (lb : WeightedRoundRobinLoadBalancer) :
  withWeight lb (weight lb) = lb.
Proof. destruct lb. reflexivity. Qed.

(** One call: the counter taken modulo the sum of the weights is the
    target of the selection, and the counter moves on by one. *)
Lemma NextBackend_selects (lb : WeightedRoundRobinLoadBalancer) :
  GetActiveBackends (base lb) <> []
  -> SumOfWeights (GetActiveBackends (base lb)) <= GoInt.maxInt
  -> 0 <= weight lb <= GoInt.maxInt
  -> exists i b,
       NextBackend lb = (Ok b, withWeight lb (GoInt.add (weight lb) 1))
       /\ GetActiveBackends (base lb) !! i = Some b
       /\ firstExceeding (GetActiveBackends (base lb))
            (weight lb mod SumOfWeights (GetActiveBackends (base lb))) i.
Proof.
  intros Hne Hsum Hw. unfold NextBackend.
  pose proof (SumOfWeights_pos _ Hne) as Hpos.
  destruct (GetActiveBackends (base lb)) as [|first rest] eqn:Hact; [contradiction|].
  rewrite (totalWeightOf_sum _ Hsum).
  replace (SumOfWeights (first :: rest) =? 0) with false
    by (symmetry; apply Z.eqb_neq; lia).
  unfold GoInt.rem. rewrite Z.rem_mod_nonneg by lia.
  pose proof (Z.mod_pos_bound (weight lb) (SumOfWeights (first :: rest))) as Hm.
  destruct (selectByWeight_first (first :: rest)
              (weight lb mod SumOfWeights (first :: rest)) 0)
    as (i & b & Hsel & Hi & Hex & Hfirst); try lia.
  rewrite Hsel. exists i, b. split; [reflexivity|]. split; [exact Hi|].
  split; [lia|]. intros j Hj. specialize (Hfirst j Hj). lia.
Qed.

(** The [j]-th of [k] calls in a row works with the counter advanced by
    [j]. *)
Lemma nextBackends_nth (k : nat) (lb : WeightedRoundRobinLoadBalancer) (j : nat) :
  GetActiveBackends (base lb) <> []
  -> SumOfWeights (GetActiveBackends (base lb)) <= GoInt.maxInt
  -> 0 <= weight lb -> weight lb + Z.of_nat j <= GoInt.maxInt
  -> (j < k)%nat
  -> (nextBackends k lb).1 !! j
     = Some (NextBackend (withWeight lb (weight lb + Z.of_nat j))).1.
Proof.
  revert lb j. induction k as [|k IH]; intros lb j Hne Hsum Hw Hj Hjk; [lia|].
  pose proof minInt_neg as Hmin.
  cbn [nextBackends].
  destruct (NextBackend_selects lb Hne Hsum) as (i & b & Hnext & _); [lia|].
  destruct (nextBackends k (NextBackend lb).2) as [rs lb2] eqn:Hrs.
  destruct (NextBackend lb) as [r lb1] eqn:Hn. cbn [snd] in Hrs. rewrite Hrs.
  injection Hnext as -> ->.
  destruct j as [|j].
  - cbn. rewrite Z.add_0_r, withWeight_same, Hn. reflexivity.
  - cbn [fst]. change ((Ok b :: rs) !! S j) with (rs !! j).
    replace rs with (nextBackends k (withWeight lb (GoInt.add (weight lb) 1))).1
      by (rewrite Hrs; reflexivity).
    rewrite add_small by lia.
    rewrite IH; cbn [withWeight base weight]; try assumption; try lia.
    do 3 f_equal. unfold withWeight. cbn. f_equal. lia.
Qed.

(** With the weights 3, 2, 1 one call answers by the residue of the
    counter modulo 6. *)
Lemma NextBackend_321 (lb : WeightedRoundRobinLoadBalancer) (x1 x2 x3 : Backend.t) :
  GetActiveBackends (base lb) = [x1; x2; x3]
  -> Weight x1 = 3 -> Weight x2 = 2 -> Weight x3 = 1
  -> 0 <= weight lb <= GoInt.maxInt
  -> (NextBackend lb).1 = Ok (pick321 x1 x2 x3 (weight lb mod 6)).
Proof.
  intros Hact H1 H2 H3 Hw. unfold NextBackend. rewrite Hact.
  unfold totalWeightOf. cbn [fold_left selectByWeight]. rewrite H1, H2, H3.
  cbn [Z.leb Z.compare].
  change (GoInt.add 0 3) with 3. change (GoInt.add 3 2) with 5.
  change (GoInt.add 5 1) with 6. cbn [Z.eqb].
  unfold GoInt.rem. rewrite Z.rem_mod_nonneg by lia.
  pose proof (Z.mod_pos_bound (weight lb) 6) as Hm. unfold pick321.
  destruct (weight lb mod 6 <? 3); [reflexivity|].
  destruct (weight lb mod 6 <? 5); [reflexivity|].
  replace (weight lb mod 6 <? 6) with true by (symmetry; apply Z.ltb_lt; lia).
  reflexivity.
Qed.

Lemma nextBackends_321 (k : nat) (lb : WeightedRoundRobinLoadBalancer)
  (x1 x2 x3 : Backend.t) :
  GetActiveBackends (base lb) = [x1; x2; x3]
  -> Weight x1 = 3 -> Weight x2 = 2 -> Weight x3 = 1
  -> 0 <= weight lb -> weight lb + Z.of_nat k <= GoInt.maxInt + 1
  -> (nextBackends k lb).1
     = map (fun j => Ok (pick321 x1 x2 x3 ((weight lb + Z.of_nat j) mod 6))) (seq 0 k).
Proof.
  intros Hact H1 H2 H3. revert lb Hact.
  induction k as [|k IH]; intros lb Hact Hw Hk; [reflexivity|].
  pose proof minInt_neg as Hmin.
  assert (Hne : GetActiveBackends (base lb) <> []) by (rewrite Hact; discriminate).
  assert (Hsum : SumOfWeights (GetActiveBackends (base lb)) <= GoInt.maxInt).
  { rewrite Hact. unfold SumOfWeights, effectiveWeight. rewrite H1, H2, H3.
    vm_compute. discriminate. }
  cbn [nextBackends].
  destruct (NextBackend_selects lb Hne Hsum) as (i & b & Hnext & _); [lia|].
  pose proof (NextBackend_321 lb x1 x2 x3 Hact H1 H2 H3) as Hfirst.
  rewrite Hnext in *. cbn [fst] in Hfirst.
  destruct (nextBackends k _) as [rs lb2] eqn:Hrs. cbn [fst].
  rewrite Hfirst by lia. cbn [seq map]. rewrite Z.add_0_r. f_equal.
  replace rs with (nextBackends k (withWeight lb (GoInt.add (weight lb) 1))).1
    by (rewrite Hrs; reflexivity).
  destruct k as [|k']; [reflexivity|].
  rewrite add_small by lia.
  rewrite IH; cbn [withWeight base weight]; try assumption; try lia.
  rewrite <- seq_shift, map_map. apply map_ext. intros j.
  do 3 f_equal. lia.
Qed.

(** C6: with a non-empty list of active backends whose effective weights
    (a weight <= 0 counts as 1) add up to an [int], the call made with the
    counter at [n] (the [n]-th of a balancer that starts at 0) returns the
    first backend whose cumulative weight strictly exceeds [n] modulo the
    sum of the weights; and with active backends of weights 3, 2, 1 any
    twelve consecutive calls give them 6, 4 and 2 selections. *)
Theorem C6_weighted_round_robin_selection :
  (forall (lb : WeightedRoundRobinLoadBalancer) (n : nat),
      GetActiveBackends (base lb) <> []
      -> SumOfWeights (GetActiveBackends (base lb)) <= GoInt.maxInt
      -> weight lb = 0
      -> Z.of_nat n <= GoInt.maxInt
      -> exists i b,
           (nextBackends (S n) lb).1 !! n = Some (Ok b)
           /\ GetActiveBackends (base lb) !! i = Some b
           /\ firstExceeding (GetActiveBackends (base lb))
                (Z.of_nat n mod SumOfWeights (GetActiveBackends (base lb))) i)
  /\ (forall (lb : WeightedRoundRobinLoadBalancer) (x1 x2 x3 : Backend.t),
        GetActiveBackends (base lb) = [x1; x2; x3]
        -> Weight x1 = 3 -> Weight x2 = 2 -> Weight x3 = 1
        -> 0 <= weight lb -> weight lb + 12 <= GoInt.maxInt + 1
        -> let rs := (nextBackends 12 lb).1 in
           countWeight 3 rs = 6%nat /\ countWeight 2 rs = 4%nat
           /\ countWeight 1 rs = 2%nat).
Proof.
  split.
  - intros lb n Hne Hsum Hw0 Hn.
    rewrite (nextBackends_nth (S n) lb n Hne Hsum) by lia.
    rewrite Hw0, Z.add_0_l.
    destruct (NextBackend_selects (withWeight lb (Z.of_nat n)))
      as (i & b & Hnext & Hi & Hfirst); cbn [withWeight base weight];
      try assumption; try lia.
    exists i, b. rewrite Hnext. auto.
  - intros lb x1 x2 x3 Hact H1 H2 H3 Hw Hk rs. subst rs.
    rewrite (nextBackends_321 12 lb x1 x2 x3 Hact H1 H2 H3 Hw) by lia.
    assert (Hshift : forall j, (weight lb + Z.of_nat j) mod 6
                               = (weight lb mod 6 + Z.of_nat j) mod 6)
      by (intros j; rewrite Z.add_mod_idemp_l by lia; reflexivity).
    rewrite (map_ext _ _ (fun j => f_equal (fun r => Ok (pick321 x1 x2 x3 r)) (Hshift j))).
    pose proof (Z.mod_pos_bound (weight lb) 6) as Hm.
    destruct x1 as [u1 w1 a1 c1 t1 h1], x2 as [u2 w2 a2 c2 t2 h2],
      x3 as [u3 w3 a3 c3 t3 h3].
    cbn [Weight] in H1, H2, H3. subst w1 w2 w3.
    assert (Hr : weight lb mod 6 = 0 \/ weight lb mod 6 = 1 \/ weight lb mod 6 = 2
                 \/ weight lb mod 6 = 3 \/ weight lb mod 6 = 4 \/ weight lb mod 6 = 5)
      by lia.
    destruct Hr as [-> | [-> | [-> | [-> | [-> | ->]]]]];
      vm_compute; repeat split; reflexivity.
Qed.

(** The sample balancer: the eighth call (counter 7) and the first twelve
    calls. *)
Lemma C6_witness_sample_balancer :
  (exists i b,
      (nextBackends 8 sampleWRR).1 !! 7%nat = Some (Ok b)
      /\ GetActiveBackends (base sampleWRR) !! i = Some b
      /\ firstExceeding (GetActiveBackends (base sampleWRR))
           (Z.of_nat 7 mod SumOfWeights (GetActiveBackends (base sampleWRR))) i)
  /\ (let rs := (nextBackends 12 sampleWRR).1 in
      countWeight 3 rs = 6%nat /\ countWeight 2 rs = 4%nat
      /\ countWeight 1 rs = 2%nat).
Proof.
  split.
  - apply (proj1 C6_weighted_round_robin_selection sampleWRR 7%nat).
    + vm_compute. discriminate.
    + vm_compute. discriminate.
    + reflexivity.
    + vm_compute. discriminate.
  - apply (proj2 C6_weighted_round_robin_selection sampleWRR b1 b2 b3).
    + reflexivity.
    + reflexivity.
    + reflexivity.
    + reflexivity.
    + vm_compute. discriminate.
    + vm_compute. discriminate.
Defined.

Example nonpositive_weight_counts_as_one :
  map (fun r => match r with Ok b => URL b | Err _ => EmptyString end)
      (nextBackends 8 oddWeights).1
  = ["http://10.0.0.1:8080"; "http://10.0.0.2:8080"; "http://10.0.0.3:8080";
     "http://10.0.0.3:8080";
     "http://10.0.0.1:8080"; "http://10.0.0.2:8080"; "http://10.0.0.3:8080";
     "http://10.0.0.3:8080"].
Proof. vm_compute. reflexivity. Qed.

Example weighted_first_six :
  map (fun r => match r with Ok b => Weight b | Err _ => 0 end)
      (nextBackends 6 sampleWRR).1
  = [3; 3; 3; 2; 2; 1].
Proof. vm_compute. reflexivity. Qed.

End weighted_round_robin.

(** ** Response-body substitution *)

Section replace_rules.
Import replace replace_spec.

Lemma ApplyReplaceRules_cons `{RegexpEngine} (content : string)
  (rule : ReplaceRule) (rest : list ReplaceRule) :
  ApplyReplaceRules content (rule :: rest)
  = match Compile (Pattern rule) with
    | Some re => ApplyReplaceRules (ReplaceAllString re content (Replacement rule)) rest
    | None => None
    end.
Proof. cbn [ApplyReplaceRules]. destruct (Global rule); reflexivity. Qed.

(** C10: [ApplyReplaceRules] returns the content as it is for no rules,
    and applies every rule, with [Global] true or false, with
    [ReplaceAllString] to the output of the rules before it: a single
    rule with [Global = false] gives what [ReplaceAllString] gives,
    every occurrence replaced.  Hence two rule lists that agree on
    patterns and replacements give the same output (or the same panic)
    on every input. *)
Theorem C10_ApplyReplaceRules_ignores_Global `{RegexpEngine} :
  (forall content : string, ApplyReplaceRules content [] = Some content)
  /\ (forall (content : string) (rule : ReplaceRule) (rest : list ReplaceRule),
        ApplyReplaceRules content (rule :: rest)
        = match Compile (Pattern rule) with
          | Some re =>
              ApplyReplaceRules (ReplaceAllString re content (Replacement rule)) rest
          | None => None
          end)
  /\ (forall (content : string) (rule : ReplaceRule) (re : Regexp),
        Compile (Pattern rule) = Some re
        -> ApplyReplaceRules content [rule]
           = Some (ReplaceAllString re content (Replacement rule)))
  /\ (forall (content : string) (rules rules' : list ReplaceRule),
        Forall2 sameUpToGlobal rules rules'
        -> ApplyReplaceRules content rules = ApplyReplaceRules content rules').
Proof.
  split; [|split; [|split]].
  - intros content. reflexivity.
  - intros content rule rest. apply ApplyReplaceRules_cons.
  - intros content rule re Hc. rewrite ApplyReplaceRules_cons, Hc. reflexivity.
  - intros content rules rules' Hsame. revert content.
    induction Hsame as [|r r' rs rs' [Hp Hr] _ IH]; intros content; [reflexivity|].
    rewrite !ApplyReplaceRules_cons, Hp, Hr.
    destruct (Compile (Pattern r')) as [re|]; [apply IH|reflexivity].
Qed.

(** Over the literal engine: no rules, a single rule with
    [Global = false] on a text with three occurrences, and both flags of
    a two-rule list flipped. *)
Lemma C10_witness_flipped_flags :
  ApplyReplaceRules (H := literal.engine) "foo x foo" [] = Some "foo x foo"
  /\ ApplyReplaceRules (H := literal.engine) "foo-foo-foo" [fooOnce]
     = Some (ReplaceAllString (RegexpEngine := literal.engine)
               "foo" "foo-foo-foo" (Replacement fooOnce))
  /\ ApplyReplaceRules (H := literal.engine) "foo x foo" [fooOnce; trimX]
     = ApplyReplaceRules (H := literal.engine) "foo x foo" [fooAll; trimXOnce].
Proof.
  destruct (C10_ApplyReplaceRules_ignores_Global (H := literal.engine))
    as (Hnil & _ & Hone & Hflags).
  split; [|split].
  - apply Hnil.
  - apply Hone. vm_compute. reflexivity.
  - apply Hflags. repeat constructor.
Defined.

(** A rule with [Global = false] replaces every occurrence. *)
Example single_replace_is_global :
  ApplyReplaceRules (H := literal.engine) "foo-foo-foo" [fooOnce] = Some "bar-bar-bar".
Proof. vm_compute. reflexivity. Qed.

End replace_rules.

(** ** Rate limiting *)

Section rate_limiting.
Import GoStrings ratelimit_spec.

Lemma firstSegment_without_comma (s : string) :
  Contains s "," = false -> firstSegment s = s.
Proof.
  induction s as [|c s IH]; [reflexivity|]. cbn [Contains HasPrefix firstSegment].
  rewrite andb_true_r. intros Hc. apply orb_false_iff in Hc as [Hc Hs].
  rewrite Hc. f_equal. apply IH. exact Hs.
Qed.

Lemma firstSegment_whole_iff (s : string) :
  firstSegment s = s <-> Contains s "," = false.
Proof.
  split; [|apply firstSegment_without_comma].
  induction s as [|c s IH]; [reflexivity|].
  cbn [Contains HasPrefix firstSegment]. rewrite andb_true_r.
  destruct (Ascii.eqb c ","%char); [discriminate|].
  intros [= Hs]. cbn [orb]. exact (IH Hs).
Qed.

(** The key of a request: the forwarded header as it stands, else the
    real-IP header, else the remote address. *)
Lemma getClientIP_order (r : http.Request) :
  let forwarded := http.Get (http.RequestHeader r) "X-Forwarded-For" in
  let realIP := http.Get (http.RequestHeader r) "X-Real-IP" in
  (forwarded <> EmptyString -> getClientIP r = forwarded)
  /\ (forwarded = EmptyString -> realIP <> EmptyString -> getClientIP r = realIP)
  /\ (forwarded = EmptyString -> realIP = EmptyString -> getClientIP r = http.RemoteAddr r).
Proof.
  intros forwarded realIP. unfold getClientIP. fold forwarded. fold realIP.
  destruct (String.eqb_spec forwarded EmptyString) as [Hf|Hf];
    destruct (String.eqb_spec realIP EmptyString) as [Hr|Hr]; cbn [negb];
    repeat split; intros; congruence.
Qed.

Lemma rejectTooMany_status (ctx : middleware.Context) :
  middleware.StatusCode (rejectTooMany ctx) = 429
  /\ (http.wroteHeader (middleware.Response ctx) = None
      -> http.wroteHeader (middleware.Response (rejectTooMany ctx)) = Some 429).
Proof.
  split; [reflexivity|]. intros Hw. unfold rejectTooMany, http.Error, http.WriteHeader.
  cbn. rewrite Hw. reflexivity.
Qed.

(** *** The plugin is the fixed-window counter *)

Lemma plugin_step (rlm : ratelimit_plugin.RateLimitMiddleware) (now : Z)
  (ctx : middleware.Context) :
  let ip := getClientIP (middleware.Request ctx) in
  let allowance := ratelimit_plugin.requestsPerMinute rlm + ratelimit_plugin.burstSize rlm in
  GoInt.inRange allowance
  -> (forall l, ratelimit_plugin.clients rlm !! ip = Some l
                -> GoInt.minInt <= ratelimit_plugin.count l)
  -> exists l',
       ratelimit_plugin.Handle rlm now ctx
       = (ratelimit_plugin.withClient rlm ip l',
          if (fixedWindowStep allowance
                (toWindow <$> ratelimit_plugin.clients rlm !! ip) now).2
          then ctx else rejectTooMany ctx,
          (fixedWindowStep allowance
             (toWindow <$> ratelimit_plugin.clients rlm !! ip) now).2)
       /\ (fixedWindowStep allowance
             (toWindow <$> ratelimit_plugin.clients rlm !! ip) now).1
          = Some (toWindow l')
       /\ GoInt.minInt <= ratelimit_plugin.count l'.
Proof.
  intros ip allowance Ha Hc. pose proof minInt_neg as Hmin.
  unfold ratelimit_plugin.Handle, fixedWindowStep. fold ip.
  rewrite (add_small _ _ Ha). fold allowance. unfold gotime.Sub.
  destruct Ha as [Ha1 Ha2].
  destruct (ratelimit_plugin.clients rlm !! ip) as [l|] eqn:Hl; cbn [fmap option_fmap option_map].
  - specialize (Hc l eq_refl). unfold toWindow. cbn [opened admitted].
    destruct (now - ratelimit_plugin.lastReset l >? gotime.Minute).
    + cbn [ratelimit_plugin.count ratelimit_plugin.lastReset opened admitted].
      destruct (0 >=? allowance) eqn:Hge; eexists; cbn [fst snd];
        (split; [reflexivity|split; [reflexivity|]]);
        cbn [ratelimit_plugin.count]; try change (GoInt.add 0 1) with 1; lia.
    + cbn [opened admitted].
      destruct (ratelimit_plugin.count l >=? allowance) eqn:Hge.
      * exists l. cbn [fst snd]. split; [reflexivity|]. split; [reflexivity|exact Hc].
      * rewrite Z.geb_leb in Hge. apply Z.leb_gt in Hge.
        rewrite add_small by lia. eexists. cbn [fst snd].
        split; [reflexivity|]. split; [reflexivity|]. cbn. lia.
  - cbn [ratelimit_plugin.count ratelimit_plugin.lastReset opened admitted].
    rewrite Z.sub_diag. change (0 >? gotime.Minute) with false. cbn iota.
    cbn [ratelimit_plugin.count ratelimit_plugin.lastReset opened admitted].
    destruct (0 >=? allowance) eqn:Hge; eexists; cbn [fst snd];
      (split; [reflexivity|split; [reflexivity|]]);
        cbn [ratelimit_plugin.count]; try change (GoInt.add 0 1) with 1; lia.
Qed.

Lemma plugin_is_fixed_window (times : list Z)
  (rlm : ratelimit_plugin.RateLimitMiddleware) (ctx : middleware.Context) :
  let ip := getClientIP (middleware.Request ctx) in
  let allowance := ratelimit_plugin.requestsPerMinute rlm + ratelimit_plugin.burstSize rlm in
  GoInt.inRange allowance
  -> (forall l, ratelimit_plugin.clients rlm !! ip = Some l
                -> GoInt.minInt <= ratelimit_plugin.count l)
  -> pluginDecisions rlm ctx times
     = fixedWindowDecisions allowance
         (toWindow <$> ratelimit_plugin.clients rlm !! ip) times.
Proof.
  revert rlm. induction times as [|now rest IH]; intros rlm ip allowance Ha Hc;
    [reflexivity|].
  cbn [pluginDecisions fixedWindowDecisions].
  destruct (plugin_step rlm now ctx Ha Hc) as (l' & Hh & Hw & Hl').
  fold ip in Hh, Hw. fold allowance in Hh, Hw. rewrite Hh.
  destruct (fixedWindowStep allowance _ now) as [w' ok] eqn:Hstep.
  cbn [fst snd] in *. f_equal. subst w'.
  pose proof (IH (ratelimit_plugin.withClient rlm ip l')) as IH'.
  cbn in IH'. fold ip in IH'. rewrite lookup_insert_eq in IH'.
  apply IH'; [exact Ha|]. intros l [= <-]. exact Hl'.
Qed.

(** *** The built-in middleware spends a budget *)

Lemma builtin_step (rlm : ratelimit.RateLimitMiddleware) (now : Z)
  (ctx : middleware.Context) :
  let ip := getClientIP (middleware.Request ctx) in
  let l := effectiveLimiter rlm ip now in
  GoInt.inRange (ratelimit.requestsPerMinute rlm)
  -> GoInt.inRange (ratelimit.requests l) -> GoInt.inRange (ratelimit.burst l)
  -> exists rlm' ctx' ok,
       ratelimit.Handle rlm now ctx = (rlm', ctx', ok)
       /\ (ok = true <-> 0 < remaining rlm l)
       /\ (ok = true
           -> ctx' = ctx
              /\ exists l', ratelimit.clients rlm' !! ip = Some l'
                   /\ remaining rlm l' = remaining rlm l - 1
                   /\ ratelimit.lastRequest l' = now)
       /\ (ok = false
           -> ctx' = rejectTooMany ctx
              /\ ratelimit.clients rlm' !! ip = Some l).
Proof.
  intros ip l Hrpm Hreq Hburst. pose proof minInt_neg as Hmin.
  destruct Hrpm as [Hr1 Hr2], Hreq as [Hq1 Hq2], Hburst as [Hb1 Hb2].
  assert (Hl : ratelimit.Handle rlm now ctx
               = if ratelimit.requests l >=? ratelimit.requestsPerMinute rlm then
                   if ratelimit.burst l <=? 0 then
                     (ratelimit.withClient rlm ip l, rejectTooMany ctx, false)
                   else
                     (ratelimit.withClient rlm ip
                        {| ratelimit.lastRequest := now;
                           ratelimit.requests := ratelimit.requests l;
                           ratelimit.burst := GoInt.sub (ratelimit.burst l) 1 |},
                      ctx, true)
                 else
                   (ratelimit.withClient rlm ip
                      {| ratelimit.lastRequest := now;
                         ratelimit.requests := GoInt.add (ratelimit.requests l) 1;
                         ratelimit.burst := ratelimit.burst l |},
                    ctx, true)).
  { unfold ratelimit.Handle. fold ip. subst l. unfold effectiveLimiter, freshLimiter.
    destruct (ratelimit.clients rlm !! ip) as [l0|]; [reflexivity|].
    cbn [ratelimit.lastRequest].
    unfold gotime.Sub. rewrite Z.sub_diag.
    change (0 >? gotime.Minute) with false. reflexivity. }
  rewrite Hl. unfold remaining.
  destruct (ratelimit.requests l >=? ratelimit.requestsPerMinute rlm) eqn:Hge.
  - rewrite Z.geb_leb in Hge. apply Z.leb_le in Hge.
    destruct (ratelimit.burst l <=? 0) eqn:Hb.
    + apply Z.leb_le in Hb. do 3 eexists. split; [reflexivity|].
      split; [split; [discriminate|lia]|]. split; [discriminate|].
      intros _. split; [reflexivity|]. cbn. apply lookup_insert_eq.
    + apply Z.leb_gt in Hb. do 3 eexists. split; [reflexivity|].
      split; [split; [lia|reflexivity]|]. split; [|discriminate].
      intros _. split; [reflexivity|]. eexists. split; [cbn; apply lookup_insert_eq|].
      cbn [ratelimit.requests ratelimit.burst ratelimit.lastRequest].
      rewrite sub_small by lia. split; [lia|reflexivity].
  - rewrite Z.geb_leb in Hge. apply Z.leb_gt in Hge.
    do 3 eexists. split; [reflexivity|].
    split; [split; [lia|reflexivity]|]. split; [|discriminate].
    intros _. split; [reflexivity|]. eexists. split; [cbn; apply lookup_insert_eq|].
    cbn [ratelimit.requests ratelimit.burst ratelimit.lastRequest].
    rewrite add_small by lia. split; [lia|reflexivity].
Qed.

(** C9, as stated, fails twice.  The key taken from
    [X-Forwarded-For: 203.0.113.7, 10.0.0.1] is the whole header, not its
    first segment; and the built-in middleware, set to two requests a
    minute, rejects the third of the requests at 0 s, 50 s, 70 s, which a
    fixed one-minute window opened at 0 s admits. *)
Lemma C9_key_is_whole_header_and_window_is_not_fixed :
  getClientIP forwardedRequest = "203.0.113.7, 10.0.0.1"
  /\ claimedClientIP forwardedRequest = "203.0.113.7"
  /\ getClientIP forwardedRequest <> claimedClientIP forwardedRequest
  /\ builtinDecisions twoPerMinute (contextOf directRequest) threeRequests
     = [true; true; false]
  /\ fixedWindowDecisions 2 None threeRequests = [true; true; true].
Proof.
  repeat split; try (vm_compute; reflexivity).
  intros Heq. vm_compute in Heq. discriminate Heq.
Qed.

(** C9, amended: the client key is the whole value of the
    [X-Forwarded-For] header when that header is present, which is its
    first comma-separated segment exactly when the value holds no comma;
    else the [X-Real-IP] header when it is present; else [RemoteAddr].
    The plugin counts the requests of a key in a fixed one-minute window
    that admits [requests_per_minute + burst_size] requests.  The built-in
    middleware admits a request while its budget (what is left of
    [requests_per_minute], then of [burst_size]) is positive, spends one
    unit on it and records its instant as the last request; the budget is
    renewed only when more than a minute has passed since that instant.
    Both reject with status 429. *)
Theorem C9_rate_limit_key_and_counting :
  (forall r : http.Request,
      let forwarded := http.Get (http.RequestHeader r) "X-Forwarded-For" in
      let realIP := http.Get (http.RequestHeader r) "X-Real-IP" in
      (forwarded <> EmptyString
       -> getClientIP r = forwarded
          /\ (getClientIP r = firstSegment forwarded
              <-> Contains forwarded "," = false))
      /\ (forwarded = EmptyString -> realIP <> EmptyString -> getClientIP r = realIP)
      /\ (forwarded = EmptyString -> realIP = EmptyString -> getClientIP r = http.RemoteAddr r))
  /\ (forall (rlm : ratelimit_plugin.RateLimitMiddleware)
             (ctx : middleware.Context) (times : list Z),
        let ip := getClientIP (middleware.Request ctx) in
        let allowance :=
          ratelimit_plugin.requestsPerMinute rlm + ratelimit_plugin.burstSize rlm in
        GoInt.inRange allowance
        -> (forall l, ratelimit_plugin.clients rlm !! ip = Some l
                      -> GoInt.minInt <= ratelimit_plugin.count l)
        -> pluginDecisions rlm ctx times
           = fixedWindowDecisions allowance
               (toWindow <$> ratelimit_plugin.clients rlm !! ip) times)
  /\ (forall (rlm : ratelimit_plugin.RateLimitMiddleware) (now : Z)
             (ctx : middleware.Context),
        (ratelimit_plugin.Handle rlm now ctx).2 = false
        -> (ratelimit_plugin.Handle rlm now ctx).1.2 = rejectTooMany ctx
           /\ middleware.StatusCode (ratelimit_plugin.Handle rlm now ctx).1.2 = 429)
  /\ (forall (rlm : ratelimit.RateLimitMiddleware) (now : Z)
             (ctx : middleware.Context),
        let ip := getClientIP (middleware.Request ctx) in
        let l := effectiveLimiter rlm ip now in
        GoInt.inRange (ratelimit.requestsPerMinute rlm)
        -> GoInt.inRange (ratelimit.requests l) -> GoInt.inRange (ratelimit.burst l)
        -> builtinSpendsBudget rlm now ctx).
Proof.
  split; [|split; [|split]].
  - intros r forwarded realIP.
    destruct (getClientIP_order r) as (Hf & Hr & Ha). fold forwarded in Hf, Hr, Ha.
    fold realIP in Hr, Ha. split; [|split; assumption].
    intros Hne. split; [exact (Hf Hne)|]. rewrite (Hf Hne).
    rewrite <- firstSegment_whole_iff. split; intros Heq; symmetry; exact Heq.
  - intros rlm ctx times. apply plugin_is_fixed_window.
  - intros rlm now ctx. unfold ratelimit_plugin.Handle.
    destruct (_ >? gotime.Minute); destruct (_ >=? _); cbn; intros Hok;
      try discriminate; split; reflexivity.
  - intros rlm now ctx ip l Hrpm Hreq Hburst.
    destruct (builtin_step rlm now ctx Hrpm Hreq Hburst)
      as (rlm' & ctx' & ok & Hh & Hok & Hadm & Hrej).
    unfold builtinSpendsBudget. fold ip. fold l.
    exists rlm', ctx', ok. split; [exact Hh|]. split; [exact Hok|].
    split; [exact Hadm|]. intros Hf. destruct (Hrej Hf) as [-> Hc].
    split; [reflexivity|]. split; [reflexivity|exact Hc].
Qed.

(** A request with two forwarded addresses, whose key is the whole
    header, a request with one, whose key is that address, the three
    requests at 0 s, 50 s and 70 s through the plugin, a plugin that
    admits nothing, and the first call of the built-in middleware. *)
Lemma C9_witness_sample_requests :
  getClientIP forwardedRequest = "203.0.113.7, 10.0.0.1"
  /\ getClientIP directRequest = firstSegment "203.0.113.7"
  /\ pluginDecisions twoPerMinutePlugin (contextOf directRequest) threeRequests
     = fixedWindowDecisions (2 + 0) None threeRequests
  /\ middleware.StatusCode
       (ratelimit_plugin.Handle closedPlugin 0 (contextOf directRequest)).1.2 = 429
  /\ builtinSpendsBudget twoPerMinute 0 (contextOf directRequest).
Proof.
  destruct C9_rate_limit_key_and_counting as (Hkey & Hplugin & Hreject & Hbuiltin).
  split; [|split; [|split; [|split]]].
  - destruct (Hkey forwardedRequest) as (Hf & _ & _). apply Hf.
    vm_compute. discriminate.
  - destruct (Hkey directRequest) as (Hf & _ & _).
    destruct Hf as [_ Hseg]; [vm_compute; discriminate|].
    apply Hseg. vm_compute. reflexivity.
  - apply (Hplugin twoPerMinutePlugin (contextOf directRequest) threeRequests).
    + vm_compute. split; discriminate.
    + intros l Hl. vm_compute in Hl. discriminate Hl.
  - apply (Hreject closedPlugin 0 (contextOf directRequest)).
    vm_compute. reflexivity.
  - apply (Hbuiltin twoPerMinute 0 (contextOf directRequest));
      vm_compute; split; discriminate.
Defined.

End rate_limiting.

(** * Further properties *)

(** ** The host handed to the matcher *)

Section strip_port.
Import GoStrings proxy.

Lemma Index_colon_cons (c : ascii) (s : string) :
  Index (String c s) ":"
  = if Ascii.eqb c ":"%char then 0
    else if Index s ":" <? 0 then -1 else Index s ":" + 1.
Proof. cbn [Index HasPrefix]. rewrite andb_true_r. reflexivity. Qed.

Lemma Index_colon_range (s : string) : -1 <= Index s ":".
Proof.
  induction s as [|c s IH]; [cbn; lia|]. rewrite Index_colon_cons.
  destruct (Ascii.eqb c ":"%char); [lia|]. destruct (Index s ":" <? 0); lia.
Qed.

Lemma Contains_colon_cons (c : ascii) (s : string) :
  Contains (String c s) ":" = Ascii.eqb c ":"%char || Contains s ":".
Proof. cbn [Contains HasPrefix]. rewrite andb_true_r. reflexivity. Qed.

Lemma Index_colon_absent (s : string) :
  Index s ":" = -1 <-> Contains s ":" = false.
Proof.
  induction s as [|c s IH]; [cbn; tauto|].
  rewrite Index_colon_cons, Contains_colon_cons.
  pose proof (Index_colon_range s) as Hr.
  destruct (Ascii.eqb c ":"%char); cbn [orb]; [split; [lia|discriminate]|].
  destruct (Index s ":" <? 0) eqn:Hn.
  - apply Z.ltb_lt in Hn. rewrite <- IH. split; [intros _|reflexivity]. lia.
  - apply Z.ltb_ge in Hn. rewrite <- IH. lia.
Qed.

Lemma stripPort_cons (c : ascii) (s : string) :
  stripPort (String c s)
  = if Ascii.eqb c ":"%char then EmptyString else String c (stripPort s).
Proof.
  unfold stripPort. rewrite Index_colon_cons.
  pose proof (Index_colon_range s) as Hr.
  destruct (Ascii.eqb c ":"%char); [reflexivity|].
  destruct (Index s ":" <? 0) eqn:Hn.
  - apply Z.ltb_lt in Hn. replace (Index s ":") with (-1) by lia. reflexivity.
  - apply Z.ltb_ge in Hn.
    replace (Index s ":" + 1 =? -1) with false by (symmetry; apply Z.eqb_neq; lia).
    replace (Index s ":" =? -1) with false by (symmetry; apply Z.eqb_neq; lia).
    cbn [negb]. rewrite Z2Nat.inj_add by lia.
    rewrite Nat.add_comm. reflexivity.
Qed.

(** X1: the host handed to the matcher is the part of the [Host] header
    before its first colon: it holds no colon, it is a prefix of the
    header, a header without colon is passed on as it is, and a port (or
    anything else) after the first colon is dropped. *)
Theorem X1_stripPort_cuts_at_first_colon :
  (forall host, Contains (stripPort host) ":" = false)
  /\ (forall host, exists rest, host = stripPort host +:+ rest)
  /\ (forall host, Contains host ":" = false -> stripPort host = host)
  /\ (forall name port,
        Contains name ":" = false -> stripPort (name +:+ ":" +:+ port) = name).
Proof.
  split; [|split; [|split]].
  - induction host as [|c s IH]; [reflexivity|]. rewrite stripPort_cons.
    destruct (Ascii.eqb c ":"%char) eqn:Hc; [reflexivity|].
    rewrite Contains_colon_cons, Hc. exact IH.
  - induction host as [|c s [rest IH]]; [exists EmptyString; reflexivity|].
    rewrite stripPort_cons. destruct (Ascii.eqb c ":"%char).
    + exists (String c s). reflexivity.
    + exists rest. simpl. f_equal. exact IH.
  - induction host as [|c s IH]; [reflexivity|]. rewrite stripPort_cons.
    rewrite Contains_colon_cons. intros Hc. apply orb_false_iff in Hc as [Hc Hs].
    rewrite Hc. f_equal. apply IH. exact Hs.
  - induction name as [|c s IH]; intros port Hc.
    + reflexivity.
    + rewrite Contains_colon_cons in Hc. apply orb_false_iff in Hc as [Hc Hs].
      change (String c s +:+ ":" +:+ port) with (String c (s +:+ ":" +:+ port)).
      rewrite stripPort_cons, Hc. f_equal. apply IH. exact Hs.
Qed.

Lemma X1_witness_host_with_port :
  stripPort "api7.example.com" = "api7.example.com"
  /\ stripPort ("api7.example.com" +:+ ":" +:+ "8080") = "api7.example.com".
Proof.
  destruct X1_stripPort_cuts_at_first_colon as (_ & _ & Hsame & Hport).
  split; [apply Hsame|apply Hport]; vm_compute; reflexivity.
Defined.

End strip_port.

(** ** The matcher of [NewProxyHandler] *)

Section handler_setup.
Import GoStrings config proxy proxy_setup route_spec.

Lemma hostMatcher_fold (hostRules : list HostRule.t) (hm : matcher.HostMatcher)
  (pattern : string) :
  matcher.rules
    (fold_left
       (fun hm rule => matcher.AddRule hm (HostRule.Pattern rule) (HostRule.Target rule))
       hostRules hm) !! pattern
  = match last (withPattern pattern hostRules) with
    | Some r => Some (HostRule.Target r)
    | None => matcher.rules hm !! pattern
    end.
Proof.
  revert hm. induction hostRules as [|r rest IH]; intros hm; [reflexivity|].
  cbn [fold_left]. rewrite IH. unfold withPattern. cbn [List.filter].
  destruct (String.eqb_spec (HostRule.Pattern r) pattern) as [Hp|Hp].
  - fold (withPattern pattern rest).
    destruct (withPattern pattern rest) as [|r' l] eqn:Hl.
    + cbn. rewrite Hp. apply lookup_insert_eq.
    + change (last (r :: r' :: l)) with (last (r' :: l)).
      destruct (last (r' :: l)) eqn:Hlast; [reflexivity|].
      apply last_None in Hlast. discriminate.
  - fold (withPattern pattern rest).
    destruct (last (withPattern pattern rest)); [reflexivity|].
    cbn. apply lookup_insert_ne. exact Hp.
Qed.

(** X2: the matcher that [NewProxyHandler] builds maps a pattern to the
    target of the last host rule with that pattern (a later rule replaces
    an earlier one with the same pattern; a pattern no rule has is not in
    the matcher), and a host that is itself such a pattern is answered
    with that target. *)
Theorem X2_later_host_rule_replaces_earlier :
  (forall (hostRules : list HostRule.t) (pattern : string),
      matcher.rules (hostMatcherOf hostRules) !! pattern
      = HostRule.Target <$> last (withPattern pattern hostRules))
  /\ (forall (hostRules : list HostRule.t) (order : list (string * string))
             (host : string) (r : HostRule.t),
        last (withPattern host hostRules) = Some r
        -> matcher.Match (hostMatcherOf hostRules) order host
           = (HostRule.Target r, true)).
Proof.
  assert (Hlookup : forall hostRules pattern,
             matcher.rules (hostMatcherOf hostRules) !! pattern
             = HostRule.Target <$> last (withPattern pattern hostRules)).
  { intros hostRules pattern. unfold hostMatcherOf. rewrite hostMatcher_fold.
    destruct (last (withPattern pattern hostRules)); reflexivity. }
  split; [exact Hlookup|].
  intros hostRules order host r Hlast. unfold matcher.Match.
  rewrite Hlookup, Hlast. reflexivity.
Qed.

Lemma X2_witness_repeated_pattern :
  matcher.Match
    (hostMatcherOf
       [shopRule;
        {| HostRule.Pattern := "shop.example.com"; HostRule.Port := 8080;
           HostRule.Target := "cart"; HostRule.Middlewares := [];
           HostRule.RouteRules := [] |}])
    [] "shop.example.com"
  = ("cart", true).
Proof.
  apply (proj2 X2_later_host_rule_replaces_earlier
           [shopRule;
            {| HostRule.Pattern := "shop.example.com"; HostRule.Port := 8080;
               HostRule.Target := "cart"; HostRule.Middlewares := [];
               HostRule.RouteRules := [] |}]
           [] "shop.example.com"
           {| HostRule.Pattern := "shop.example.com"; HostRule.Port := 8080;
              HostRule.Target := "cart"; HostRule.Middlewares := [];
              HostRule.RouteRules := [] |}).
  vm_compute. reflexivity.
Defined.

Lemma findHostRule_first (hostRules : list HostRule.t) (name : string)
  (hr : HostRule.t) :
  findHostRule hostRules name = Some hr
  -> exists before after,
       hostRules = (before ++ hr :: after)%list
       /\ HostRule.Target hr = name
       /\ Forall (fun h => HostRule.Target h <> name) before.
Proof.
  induction hostRules as [|h rest IH]; [discriminate|]. cbn [findHostRule].
  destruct (String.eqb_spec (HostRule.Target h) name) as [Ht|Ht].
  - intros [= <-]. exists [], rest. repeat split; [exact Ht|constructor].
  - intros Hf. destruct (IH Hf) as (before & after & -> & Hn & Hb).
    exists (h :: before), after. repeat split; [exact Hn|].
    constructor; assumption.
Qed.

Context `{RegexpEngine}.

(** X4: the host rule [determineTarget] works with is looked up by the
    name of the matched target, not by the pattern that matched: it is
    the first host rule of the configuration whose target is the name the
    matcher returned. *)
Theorem X4_host_rule_is_first_with_matched_target (ph : ProxyHandler)
  (order : list (string * string)) (r : http.Request)
  (svc : Service.t) (hr : HostRule.t) (rr : option RouteRule.t) :
  determineTarget ph order r = Some (svc, hr, rr)
  -> exists name before after,
       matcher.Match (hostMatcher ph) order (stripPort (http.Host r)) = (name, true)
       /\ HostRules (cfg ph) = (before ++ hr :: after)%list
       /\ HostRule.Target hr = name
       /\ Forall (fun h => HostRule.Target h <> name) before.
Proof.
  unfold determineTarget.
  destruct (matcher.Match _ _ _) as [name matched] eqn:Hm.
  destruct matched; cbn [negb]; [|discriminate].
  destruct (findHostRule _ name) as [hr'|] eqn:Hf; [|discriminate].
  intros Hd.
  assert (hr' = hr) as ->.
  { destruct (matchRouteRules _ _ _) as [[s rr']|]; [congruence|].
    destruct (services ph !! _); congruence. }
  destruct (findHostRule_first _ _ _ Hf) as (before & after & Hl & Ht & Hb).
  exists name, before, after. auto.
Qed.

(** X5: what [determineTarget] returns is sound for the route rules: a
    returned route rule is the first rule of the host rule that matches
    the path and names a configured service (matching rules whose target
    is not configured are passed over), and the service is that rule's
    target; without a route rule, no rule of the host rule takes the
    request and the service is the configured target of the host rule. *)
Theorem X5_determineTarget_route_soundness (ph : ProxyHandler)
  (order : list (string * string)) (r : http.Request)
  (svc : Service.t) (hr : HostRule.t) :
  (forall rr,
      determineTarget ph order r = Some (svc, hr, Some rr)
      -> exists before after,
           HostRule.RouteRules hr = (before ++ rr :: after)%list
           /\ Forall (fun x => takes (services ph) (http.URLPath r) x = false) before
           /\ routeRuleMatches (RouteRule.Pattern rr) (http.URLPath r) = true
           /\ services ph !! RouteRule.Target rr = Some svc)
  /\ (determineTarget ph order r = Some (svc, hr, None)
      -> Forall (fun x => takes (services ph) (http.URLPath r) x = false)
           (HostRule.RouteRules hr)
         /\ services ph !! HostRule.Target hr = Some svc).
Proof.
  unfold determineTarget.
  destruct (matcher.Match _ _ _) as [name matched].
  destruct matched; cbn [negb]; [|split; [intros rr|]; discriminate].
  destruct (findHostRule _ name) as [hr'|]; [|split; [intros rr|]; discriminate].
  destruct (matchRouteRules (services ph) (http.URLPath r) (HostRule.RouteRules hr'))
    as [[s rr']|] eqn:Hm.
  - split; [|discriminate]. intros rr [= -> -> ->].
    apply matchRouteRules_first. exact Hm.
  - destruct (services ph !! HostRule.Target hr') eqn:Hs;
      (split; [intros rr; discriminate|]); [|discriminate].
    intros [= -> ->]. split; [apply matchRouteRules_none; exact Hm|exact Hs].
Qed.

End handler_setup.

(** A request for [blog.example.com] is served through the route rule of
    [shop.example.com], the first host rule with the target [web]. *)
Lemma X4_witness_shared_target :
  exists name before after,
    matcher.Match (proxy.hostMatcher proxy_setup.shopHandler)
      [("shop.example.com", "web"); ("blog.example.com", "web")]
      (proxy.stripPort (http.Host proxy_setup.blogCartRequest)) = (name, true)
    /\ config.HostRules (proxy.cfg proxy_setup.shopHandler)
       = (before ++ proxy_setup.shopRule :: after)%list
    /\ config.HostRule.Target proxy_setup.shopRule = name
    /\ Forall (fun h => config.HostRule.Target h <> name) before.
Proof.
  apply (X4_host_rule_is_first_with_matched_target (H := literal.engine)
           proxy_setup.shopHandler
           [("shop.example.com", "web"); ("blog.example.com", "web")]
           proxy_setup.blogCartRequest proxy_setup.cartSvc proxy_setup.shopRule
           (Some proxy_setup.shopRoute)).
  vm_compute. reflexivity.
Defined.

Lemma X5_witness_shared_target :
  exists before after,
    config.HostRule.RouteRules proxy_setup.shopRule
    = (before ++ proxy_setup.shopRoute :: after)%list
    /\ Forall (fun x => route_spec.takes (H := literal.engine)
                          (proxy.services proxy_setup.shopHandler)
                          (http.URLPath proxy_setup.blogCartRequest) x = false) before
    /\ route_spec.routeRuleMatches (H := literal.engine)
         (config.RouteRule.Pattern proxy_setup.shopRoute)
         (http.URLPath proxy_setup.blogCartRequest) = true
    /\ proxy.services proxy_setup.shopHandler
         !! config.RouteRule.Target proxy_setup.shopRoute = Some proxy_setup.cartSvc.
Proof.
  apply (proj1 (X5_determineTarget_route_soundness (H := literal.engine)
                  proxy_setup.shopHandler
                  [("shop.example.com", "web"); ("blog.example.com", "web")]
                  proxy_setup.blogCartRequest proxy_setup.cartSvc proxy_setup.shopRule)
           proxy_setup.shopRoute).
  vm_compute. reflexivity.
Defined.

(** ** Outcomes of [ServeHTTP] *)

Section serve_outcomes.
Import config middleware proxy.
Context `{RegexpEngine} `{URLParser}.



End serve_outcomes.


(** ** Overlapping wildcard rules *)

Section overlapping_rules.
Import GoStrings matcher host_spec overlap_spec.

Lemma matchWildcard_cases (order : list (string * string)) (host : string) :
  matchWildcard order host = (EmptyString, false)
  \/ exists target, matchWildcard order host = (target, true).
Proof.
  induction order as [|[p t] rest IH]; [left; reflexivity|].
  rewrite matchWildcard_cons. destruct (wildcardTest p host); [right; eauto|exact IH].
Qed.

Lemma rangeOrder_In (hm : HostMatcher) (order : list (string * string))
  (p t : string) :
  rangeOrder hm order -> (In (p, t) order <-> rules hm !! p = Some t).
Proof.
  unfold rangeOrder. intros Hperm.
  rewrite <- list_elem_of_In, Hperm. apply elem_of_map_to_list.
Qed.

(** X6: the answer of [Match] does not depend on the order in which the
    rules are visited as long as the wildcard rules that cover the host
    agree on the target; the order matters only between overlapping
    wildcards with different targets. *)
Theorem X6_Match_is_order_independent_without_overlap (hm : HostMatcher)
  (order1 order2 : list (string * string)) (host : string) :
  rangeOrder hm order1 -> rangeOrder hm order2 -> unambiguous hm host
  -> Match hm order1 host = Match hm order2 host.
Proof.
  intros H1 H2 Hu. unfold Match.
  destruct (rules hm !! host); [reflexivity|].
  destruct (matchWildcard_cases order1 host) as [E1|[t1 E1]];
    destruct (matchWildcard_cases order2 host) as [E2|[t2 E2]];
    rewrite E1, E2; try reflexivity.
  - exfalso. apply matchWildcard_found in E2 as (p & Hin & Hw).
    apply (rangeOrder_In hm order2) in Hin; [|exact H2].
    apply (rangeOrder_In hm order1) in Hin; [|exact H1].
    destruct (matchWildcard_some _ _ _ _ Hin Hw) as [t' Ht']. congruence.
  - exfalso. apply matchWildcard_found in E1 as (p & Hin & Hw).
    apply (rangeOrder_In hm order1) in Hin; [|exact H1].
    apply (rangeOrder_In hm order2) in Hin; [|exact H2].
    destruct (matchWildcard_some _ _ _ _ Hin Hw) as [t' Ht']. congruence.
  - apply matchWildcard_found in E1 as (p1 & Hin1 & Hw1).
    apply matchWildcard_found in E2 as (p2 & Hin2 & Hw2).
    apply (rangeOrder_In hm order1) in Hin1; [|exact H1].
    apply (rangeOrder_In hm order2) in Hin2; [|exact H2].
    rewrite (Hu p1 t1 p2 t2 Hin1 Hin2 Hw1 Hw2). reflexivity.
Qed.

Lemma siteMatcher_unambiguous (host : string) : unambiguous siteMatcher host.
Proof.
  assert (Hweb : forall p t,
             rules siteMatcher !! p = Some t -> wildcardMatches p host
             -> t = "web").
  { intros p t Hr [d [Hp _]].
    unfold siteMatcher, AddRule, NewHostMatcher in Hr. cbn [rules] in Hr.
    apply lookup_insert_Some in Hr as [[<- <-]|[_ Hr]]; [discriminate Hp|].
    apply lookup_insert_Some in Hr as [[_ <-]|[_ Hr]]; [reflexivity|].
    rewrite lookup_empty in Hr. discriminate Hr. }
  intros p1 t1 p2 t2 Hr1 Hr2 Hw1 Hw2.
  rewrite (Hweb p1 t1 Hr1 Hw1), (Hweb p2 t2 Hr2 Hw2). reflexivity.
Qed.

Lemma X6_witness_site_matcher :
  Match siteMatcher (map_to_list (rules siteMatcher)) "app.example.com"
  = Match siteMatcher (reverse (map_to_list (rules siteMatcher))) "app.example.com".
Proof.
  apply X6_Match_is_order_independent_without_overlap.
  - unfold rangeOrder. reflexivity.
  - unfold rangeOrder. apply reverse_Permutation.
  - apply siteMatcher_unambiguous.
Defined.

(** With overlapping wildcards the visiting order decides. *)
Example overlapping_wildcards_depend_on_order :
  Match nestedWildcards
    [("*.example.com", "web"); ("*.shop.example.com", "shop")] "a.shop.example.com"
  = ("web", true)
  /\ Match nestedWildcards
       [("*.shop.example.com", "shop"); ("*.example.com", "web")] "a.shop.example.com"
     = ("shop", true).
Proof. split; vm_compute; reflexivity. Qed.

End overlapping_rules.

(** ** The middleware chain *)

Section chain_operations.
Import middleware middleware_ops.

Lemma executeFrom_app (mws1 mws2 : list Middleware) (ctx : Context) :
  executeFrom (mws1 ++ mws2)%list ctx
  = (let '(ctx', ok) := executeFrom mws1 ctx in
     if ok then executeFrom mws2 ctx' else (ctx', false)).
Proof.
  revert ctx. induction mws1 as [|mw rest IH]; intros ctx; [reflexivity|].
  cbn [app executeFrom]. destruct (Handle mw ctx) as [ctx1 ok].
  destruct ok; cbn [negb]; [apply IH|reflexivity].
Qed.

Lemma executeFrom_refused (mws : list Middleware) (ctx ctx' : Context) :
  executeFrom mws ctx = (ctx', false)
  -> exists pre mw post ctx1,
       mws = (pre ++ mw :: post)%list
       /\ executeFrom pre ctx = (ctx1, true)
       /\ Handle mw ctx1 = (ctx', false).
Proof.
  revert ctx. induction mws as [|m rest IH]; intros ctx; [discriminate|].
  cbn [executeFrom]. destruct (Handle m ctx) as [c1 ok] eqn:Hh.
  destruct ok; cbn [negb].
  - intros He. destruct (IH _ He) as (pre & mw & post & ctx1 & -> & Hp & Hr).
    exists (m :: pre), mw, post, ctx1. repeat split; [|exact Hr].
    cbn [executeFrom]. rewrite Hh. exact Hp.
  - intros [= <-]. exists [], m, rest, ctx. repeat split. exact Hh.
Qed.

(** X7: [Execute] stops at the first middleware that refuses: the chain
    answers false exactly when some middleware, reached after all the
    ones before it agreed, answers false, and the context is then the one
    this middleware left; the middlewares after it are not run, whatever
    they are. *)
Theorem X7_Execute_stops_at_first_refusal (dmc : DefaultMiddlewareChain)
  (ctx ctx' : Context) :
  Execute dmc ctx = (ctx', false)
  <-> exists pre mw post ctx1,
        middlewares dmc = (pre ++ mw :: post)%list
        /\ Execute {| middlewares := pre |} ctx = (ctx1, true)
        /\ Handle mw ctx1 = (ctx', false).
Proof.
  unfold Execute. cbn [middlewares]. split.
  - apply executeFrom_refused.
  - intros (pre & mw & post & ctx1 & -> & Hp & Hr).
    rewrite executeFrom_app, Hp. cbn [executeFrom]. rewrite Hr. reflexivity.
Qed.

Lemma removeFirst_Some (name : string) (mws mws' : list Middleware) :
  removeFirst name mws = Some mws'
  <-> exists pre mw post,
        mws = (pre ++ mw :: post)%list /\ mws' = (pre ++ post)%list
        /\ Name mw = name
        /\ Forall (fun m => Name m <> name) pre.
Proof.
  revert mws'. induction mws as [|m rest IH]; intros mws'.
  - split; [discriminate|]. intros (pre & mw & post & Hl & _).
    destruct pre; discriminate.
  - cbn [removeFirst]. destruct (String.eqb_spec (Name m) name) as [Hn|Hn].
    + split.
      * intros [= <-]. exists [], m, rest. repeat split; [exact Hn|constructor].
      * intros (pre & mw & post & Hl & -> & Hmw & Hpre).
        destruct pre as [|p pre]; cbn [app] in *.
        -- injection Hl as -> ->. reflexivity.
        -- injection Hl as -> ->. apply Forall_cons in Hpre as [Hp _].
           contradiction.
    + split.
      * destruct (removeFirst name rest) as [rest'|] eqn:Hr; [|discriminate].
        intros [= <-].
        destruct (proj1 (IH rest') eq_refl) as (pre & mw & post & -> & -> & Hmw & Hpre).
        exists (m :: pre), mw, post. repeat split; [exact Hmw|].
        constructor; assumption.
      * intros (pre & mw & post & Hl & -> & Hmw & Hpre).
        destruct pre as [|p pre]; cbn [app] in *.
        -- injection Hl as -> ->. contradiction.
        -- injection Hl as -> ->. apply Forall_cons in Hpre as [_ Hpre].
           assert (removeFirst name (pre ++ mw :: post)%list = Some (pre ++ post)%list) as ->.
           { apply IH. exists pre, mw, post. auto. }
           reflexivity.
Qed.

Lemma removeFirst_None (name : string) (mws : list Middleware) :
  removeFirst name mws = None <-> ~ In name (map Name mws).
Proof.
  induction mws as [|m rest IH]; [cbn; tauto|].
  cbn [removeFirst map In]. destruct (String.eqb_spec (Name m) name) as [Hn|Hn].
  - split; [discriminate|]. intros Hc. exfalso. apply Hc. left. exact Hn.
  - destruct (removeFirst name rest).
    + split; [discriminate|]. intros Hc. exfalso. apply Hc. right.
      destruct (in_dec string_dec name (map Name rest)) as [Hi|Hi]; [exact Hi|].
      apply IH in Hi. discriminate.
    + split; [|reflexivity]. intros _ [Hc|Hc]; [contradiction|].
      apply (proj1 IH eq_refl Hc).
Qed.

(** X8: [Remove] takes out the first middleware of the given name and
    nothing else: it succeeds exactly when the name is in the chain, the
    chain is then the old one without that one occurrence (a second
    middleware of the same name stays), and a failed [Remove] reports the
    name and leaves the chain as it was. *)
Theorem X8_Remove_takes_out_first_occurrence (dmc : DefaultMiddlewareChain)
  (name : string) :
  (In name (GetMiddlewareNames dmc)
   -> exists pre mw post,
        middlewares dmc = (pre ++ mw :: post)%list
        /\ Name mw = name
        /\ ~ In name (map Name pre)
        /\ Remove dmc name = ({| middlewares := (pre ++ post)%list |}, None)
        /\ Size (fst (Remove dmc name)) = Size dmc - 1)
  /\ (~ In name (GetMiddlewareNames dmc)
      -> Remove dmc name = (dmc, Some (NotInChain name)))
  /\ (forall mw, ~ In (Name mw) (GetMiddlewareNames dmc)
      -> Remove (Add dmc mw) (Name mw) = (dmc, None)).
Proof.
  unfold GetMiddlewareNames, Remove. repeat split.
  - intros Hin.
    destruct (removeFirst name (middlewares dmc)) as [mws'|] eqn:Hr.
    + destruct (proj1 (removeFirst_Some _ _ _) Hr)
        as (pre & mw & post & Hl & -> & Hn & Hpre).
      exists pre, mw, post. repeat split; try assumption.
      * intros Hc. apply in_map_iff in Hc as (m & Hm & Hi).
        rewrite Forall_forall in Hpre. apply list_elem_of_In in Hi.
        exact (Hpre m Hi Hm).
      * unfold Size. cbn [fst middlewares]. rewrite Hl, !List.length_app.
        cbn [length]. lia.
    + apply removeFirst_None in Hr. contradiction.
  - intros Hn. apply removeFirst_None in Hn. rewrite Hn. reflexivity.
  - intros mw Hn. cbn [Add middlewares].
    assert (removeFirst (Name mw) (middlewares dmc ++ [mw])%list
            = Some (middlewares dmc)) as ->.
    { apply removeFirst_Some. exists (middlewares dmc), mw, [].
      repeat split; [rewrite app_nil_r; reflexivity|].
      apply Forall_forall. intros m Hi Hm. apply Hn.
      apply in_map_iff. exists m. split; [exact Hm|].
      apply list_elem_of_In. exact Hi. }
    destruct dmc. reflexivity.
Qed.

(** X9: [InsertAt] refuses an index below 0 or above the size of the
    chain and then leaves the chain alone; any other index puts the
    middleware at that position, in front of the middleware that was
    there, so that the chain grows by one, the index 0 puts it in front
    and the index [Size] does what [Add] does. *)
Theorem X9_InsertAt_bounds_and_position (dmc : DefaultMiddlewareChain)
  (index : Z) (mw : Middleware) :
  (index < 0 \/ Size dmc < index
   -> InsertAt dmc index mw = (dmc, Some (OutOfBounds index (Size dmc))))
  /\ (0 <= index <= Size dmc
      -> snd (InsertAt dmc index mw) = None
         /\ Size (fst (InsertAt dmc index mw)) = Size dmc + 1
         /\ nth_error (middlewares (fst (InsertAt dmc index mw))) (Z.to_nat index)
            = Some mw
         /\ (forall i, (i < Z.to_nat index)%nat
             -> nth_error (middlewares (fst (InsertAt dmc index mw))) i
                = nth_error (middlewares dmc) i)
         /\ (forall i, (Z.to_nat index <= i)%nat
             -> nth_error (middlewares (fst (InsertAt dmc index mw))) (S i)
                = nth_error (middlewares dmc) i))
  /\ fst (InsertAt dmc (Size dmc) mw) = Add dmc mw
  /\ middlewares (fst (InsertAt dmc 0 mw)) = mw :: middlewares dmc.
Proof.
  unfold InsertAt, Size. set (mws := middlewares dmc).
  repeat split.
  - intros Hout.
    replace ((index <? 0) || (index >? Z.of_nat (length mws))) with true;
      [reflexivity|].
    symmetry. apply orb_true_iff. rewrite Z.ltb_lt, Z.gtb_ltb, Z.ltb_lt. lia.
  - replace ((index <? 0) || (index >? Z.of_nat (length mws))) with false;
      [reflexivity|].
    symmetry. apply orb_false_iff. rewrite Z.ltb_ge, Z.gtb_ltb, Z.ltb_ge. lia.
  - replace ((index <? 0) || (index >? Z.of_nat (length mws))) with false
      by (symmetry; apply orb_false_iff; rewrite Z.ltb_ge, Z.gtb_ltb, Z.ltb_ge; lia).
    cbn [fst middlewares]. rewrite List.length_app. cbn [length].
    rewrite List.length_firstn, List.length_skipn. lia.
  - replace ((index <? 0) || (index >? Z.of_nat (length mws))) with false
      by (symmetry; apply orb_false_iff; rewrite Z.ltb_ge, Z.gtb_ltb, Z.ltb_ge; lia).
    cbn [fst middlewares].
    rewrite nth_error_app2 by (rewrite List.length_firstn; lia).
    rewrite List.length_firstn.
    replace (Z.to_nat index - Init.Nat.min (Z.to_nat index) (length mws))%nat
      with 0%nat by lia.
    reflexivity.
  - intros i Hi.
    replace ((index <? 0) || (index >? Z.of_nat (length mws))) with false
      by (symmetry; apply orb_false_iff; rewrite Z.ltb_ge, Z.gtb_ltb, Z.ltb_ge; lia).
    cbn [fst middlewares].
    rewrite nth_error_app1 by (rewrite List.length_firstn; lia).
    rewrite nth_error_firstn.
    destruct (Nat.ltb_spec i (Z.to_nat index)); [reflexivity|lia].
  - intros i Hi.
    replace ((index <? 0) || (index >? Z.of_nat (length mws))) with false
      by (symmetry; apply orb_false_iff; rewrite Z.ltb_ge, Z.gtb_ltb, Z.ltb_ge; lia).
    cbn [fst middlewares].
    rewrite nth_error_app2 by (rewrite List.length_firstn; lia).
    rewrite List.length_firstn.
    replace (S i - Init.Nat.min (Z.to_nat index) (length mws))%nat
      with (S (i - Z.to_nat index)) by lia.
    cbn [nth_error]. rewrite nth_error_skipn. f_equal. lia.
  - replace ((Z.of_nat (length mws) <? 0)
             || (Z.of_nat (length mws) >? Z.of_nat (length mws))) with false
      by (symmetry; apply orb_false_iff; rewrite Z.ltb_ge, Z.gtb_ltb, Z.ltb_ge; lia).
    cbn [fst]. unfold Add. rewrite Nat2Z.id.
    rewrite firstn_all, skipn_all. reflexivity.
  - destruct (0 >? Z.of_nat (length mws)) eqn:Hc.
    + rewrite Z.gtb_ltb, Z.ltb_lt in Hc. lia.
    + reflexivity.
Qed.

Lemma X9_witness_middle_of_sample_chain :
  snd (InsertAt sampleChain 1 denyAll) = None
  /\ Size (fst (InsertAt sampleChain 1 denyAll)) = Size sampleChain + 1
  /\ nth_error (middlewares (fst (InsertAt sampleChain 1 denyAll))) (Z.to_nat 1)
     = Some denyAll
  /\ (forall i, (i < Z.to_nat 1)%nat
      -> nth_error (middlewares (fst (InsertAt sampleChain 1 denyAll))) i
         = nth_error (middlewares sampleChain) i)
  /\ (forall i, (Z.to_nat 1 <= i)%nat
      -> nth_error (middlewares (fst (InsertAt sampleChain 1 denyAll))) (S i)
         = nth_error (middlewares sampleChain) i).
Proof.
  apply (proj1 (proj2 (X9_InsertAt_bounds_and_position sampleChain 1 denyAll))).
  vm_compute. split; discriminate.
Defined.

Lemma X8_witness_sample_chain :
  exists pre mw post,
    middlewares sampleChain = (pre ++ mw :: post)%list
    /\ Name mw = "cors"
    /\ ~ In "cors" (map Name pre)
    /\ Remove sampleChain "cors" = ({| middlewares := (pre ++ post)%list |}, None)
    /\ Size (fst (Remove sampleChain "cors")) = Size sampleChain - 1.
Proof.
  apply (proj1 (X8_Remove_takes_out_first_occurrence sampleChain "cors")).
  vm_compute. right. left. reflexivity.
Defined.

End chain_operations.

(** ** The middleware factory and the service registry *)

Section factory_operations.
Import config middleware middleware_ops.

(** X10: registering and unregistering creators: [CreateMiddleware] runs
    the creator registered last under the name and is not affected by
    registrations under other names; [UnregisterMiddleware] fails for a
    name that is not registered and leaves the factory alone, otherwise it
    removes the creator, so that the name can no longer be created;
    registering a new name and unregistering it gives the factory back. *)
Theorem X10_factory_register_unregister (dmf : DefaultMiddlewareFactory)
  (name : string) (creator : Creator) (c : ConfigMap) :
  CreateMiddleware (RegisterMiddleware dmf name creator) name c = creator c
  /\ (forall other, other <> name
      -> CreateMiddleware (RegisterMiddleware dmf name creator) other c
         = CreateMiddleware dmf other c)
  /\ (creators dmf !! name = None
      -> UnregisterMiddleware dmf name = (dmf, Some (CreatorNotFound name))
         /\ UnregisterMiddleware (RegisterMiddleware dmf name creator) name
            = (dmf, None))
  /\ (forall old, creators dmf !! name = Some old
      -> snd (UnregisterMiddleware dmf name) = None
         /\ CreateMiddleware (fst (UnregisterMiddleware dmf name)) name c = None
         /\ forall other, other <> name
            -> CreateMiddleware (fst (UnregisterMiddleware dmf name)) other c
               = CreateMiddleware dmf other c).
Proof.
  unfold CreateMiddleware, UnregisterMiddleware, RegisterMiddleware.
  cbn [creators]. split; [|split; [|split]].
  - rewrite lookup_insert_eq. reflexivity.
  - intros other Hne. rewrite lookup_insert_ne by congruence. reflexivity.
  - intros Hnone. split.
    + rewrite Hnone. reflexivity.
    + rewrite lookup_insert_eq. rewrite delete_insert_eq.
      rewrite delete_id by exact Hnone. destruct dmf. reflexivity.
  - intros old Hold. rewrite Hold. cbn [fst snd creators]. split; [reflexivity|].
    split.
    + rewrite lookup_delete_eq. reflexivity.
    + intros other Hne. rewrite lookup_delete_ne by congruence. reflexivity.
Qed.

Lemma chainFromConfigs_spec (dmf : DefaultMiddlewareFactory)
  (configs : list ConfigMap) (chain chain' : DefaultMiddlewareChain) :
  chainFromConfigs dmf chain configs = inl chain'
  <-> exists created,
        middlewares chain' = (middlewares chain ++ created)%list
        /\ Forall2
             (fun c mw => exists name,
                nameOf c = Some name /\ CreateMiddleware dmf name c = Some mw)
             configs created.
Proof.
  revert chain. induction configs as [|c rest IH]; intros chain.
  - cbn [chainFromConfigs]. split.
    + intros [= <-]. exists []. split; [rewrite app_nil_r; reflexivity|constructor].
    + intros (created & Hm & Hf). apply Forall2_nil_inv_l in Hf. subst created.
      rewrite app_nil_r in Hm. destruct chain, chain'. cbn in Hm. congruence.
  - cbn [chainFromConfigs]. split.
    + intros Hc.
      assert (exists name mw,
                 nameOf c = Some name /\ CreateMiddleware dmf name c = Some mw
                 /\ chainFromConfigs dmf (Add chain mw) rest = inl chain')
        as (name & mw & Hn & Hcr & Hrest).
      { revert Hc. unfold nameOf. destruct c as [m|]; [|discriminate].
        destruct (m !! "name") as [[| | |name|]|]; try discriminate.
        destruct (CreateMiddleware dmf name (Some m)) as [mw|] eqn:Hcr;
          [|discriminate].
        intros Hc. exists name, mw. auto. }
      apply IH in Hrest as (created & Hm & Hf).
      exists (mw :: created). split.
      * rewrite Hm. cbn [Add middlewares]. rewrite <- app_assoc. reflexivity.
      * constructor; [exists name; auto|exact Hf].
    + intros (created & Hm & Hf).
      apply Forall2_cons_inv_l in Hf as (mw & created' & (name & Hn & Hcr) & Hf & ->).
      assert (chainFromConfigs dmf (Add chain mw) rest = inl chain') as Hrest.
      { apply IH. exists created'. split; [|exact Hf].
        rewrite Hm. cbn [Add middlewares]. rewrite <- app_assoc. reflexivity. }
      unfold nameOf in Hn. destruct c as [m|]; [|discriminate].
      destruct (m !! "name") as [[| | |name'|]|]; try discriminate.
      injection Hn as ->. rewrite Hcr. exact Hrest.
Qed.

(** X11: [CreateMiddlewareChainFromConfig] is all or nothing: it returns a
    chain exactly when every configuration carries a string [name] whose
    creator is registered and succeeds on that configuration, the chain
    then holds one middleware per configuration, in the order of the
    configurations; every configuration of a chain that was created
    passes [ValidateMiddlewareConfig]. *)
Theorem X11_chain_from_config_is_all_or_nothing (dmf : DefaultMiddlewareFactory)
  (configs : list ConfigMap) (chain : DefaultMiddlewareChain) :
  (CreateMiddlewareChainFromConfig dmf configs = inl chain
   <-> Forall2
         (fun c mw => exists name,
            nameOf c = Some name /\ CreateMiddleware dmf name c = Some mw)
         configs (middlewares chain))
  /\ (CreateMiddlewareChainFromConfig dmf configs = inl chain
      -> Size chain = Z.of_nat (length configs)
         /\ Forall (fun c => ValidateMiddlewareConfig dmf c = None) configs).
Proof.
  unfold CreateMiddlewareChainFromConfig.
  assert (Hiff : chainFromConfigs dmf NewMiddlewareChain configs = inl chain
                 <-> Forall2
                       (fun c mw => exists name,
                          nameOf c = Some name
                          /\ CreateMiddleware dmf name c = Some mw)
                       configs (middlewares chain)).
  { rewrite chainFromConfigs_spec. cbn [NewMiddlewareChain middlewares app].
    split; [intros (created & -> & Hf); exact Hf|eauto]. }
  split; [exact Hiff|]. intros Hc. apply Hiff in Hc. split.
  - unfold Size. apply Forall2_length in Hc. lia.
  - clear Hiff. induction Hc as [|c mw cs mws (name & Hn & Hcr) _ IH];
      constructor; [|exact IH].
    unfold nameOf in Hn. unfold ValidateMiddlewareConfig.
    destruct c as [m|]; [|discriminate].
    destruct (m !! "name") as [[| | |name'|]|]; try discriminate.
    injection Hn as ->. unfold CreateMiddleware in Hcr.
    destruct (creators dmf !! name); [reflexivity|discriminate].
Qed.

Lemma Init_fold (svcs : list MiddlewareService.t)
  (d : DefaultMiddlewareServiceRegistry) (name : string) :
  services (fold_left
              (fun d svc =>
                 if MiddlewareService.Enabled svc
                 then Register d (MiddlewareService.Name svc) svc
                 else d)
              svcs d) !! name
  = match last (enabledNamed name svcs) with
    | Some svc => Some svc
    | None => services d !! name
    end.
Proof.
  revert d. induction svcs as [|s rest IH]; intros d; [reflexivity|].
  cbn [fold_left]. rewrite IH. unfold enabledNamed. cbn [List.filter].
  destruct (MiddlewareService.Enabled s) eqn:He; cbn [andb].
  - destruct (String.eqb_spec (MiddlewareService.Name s) name) as [Hn|Hn].
    + fold (enabledNamed name rest).
      destruct (enabledNamed name rest) as [|s' l] eqn:Hl.
      * cbn [last Register services]. rewrite Hn, lookup_insert_eq. reflexivity.
      * change (last (s :: s' :: l)) with (last (s' :: l)).
        destruct (last (s' :: l)) eqn:Hlast; [reflexivity|].
        apply last_None in Hlast. discriminate.
    + fold (enabledNamed name rest).
      destruct (last (enabledNamed name rest)); [reflexivity|].
      cbn [Register services]. rewrite lookup_insert_ne by exact Hn. reflexivity.
  - reflexivity.
Qed.

(** X12: after [Init] on a new registry, [Get] answers a name with the
    last enabled middleware service of the configuration carrying it; a
    service that is switched off is never registered, also when it is the
    last of its name, and every service [List] returns is enabled and
    registered under its own name. *)
Theorem X12_registry_holds_last_enabled_service (cfg : Config) :
  (forall name,
     Get (Init NewDefaultMiddlewareServiceRegistry cfg) name
     = last (enabledNamed name (MiddlewareServices cfg)))
  /\ (forall name svc,
        Get (Init NewDefaultMiddlewareServiceRegistry cfg) name = Some svc
        -> MiddlewareService.Enabled svc = true
           /\ MiddlewareService.Name svc = name
           /\ In svc (MiddlewareServices cfg))
  /\ (forall l, listOrder (Init NewDefaultMiddlewareServiceRegistry cfg) l
      -> Forall (fun svc =>
                   MiddlewareService.Enabled svc = true
                   /\ Get (Init NewDefaultMiddlewareServiceRegistry cfg)
                        (MiddlewareService.Name svc) = Some svc) l).
Proof.
  assert (Hget : forall name,
             Get (Init NewDefaultMiddlewareServiceRegistry cfg) name
             = last (enabledNamed name (MiddlewareServices cfg))).
  { intros name. unfold Get, Init. rewrite Init_fold.
    cbn [NewDefaultMiddlewareServiceRegistry services]. rewrite lookup_empty.
    destruct (last _); reflexivity. }
  assert (Hsound : forall name svc,
             Get (Init NewDefaultMiddlewareServiceRegistry cfg) name = Some svc
             -> MiddlewareService.Enabled svc = true
                /\ MiddlewareService.Name svc = name
                /\ In svc (MiddlewareServices cfg)).
  { intros name svc. rewrite Hget. intros Hl.
    apply last_Some in Hl as [l' Hl].
    assert (In svc (enabledNamed name (MiddlewareServices cfg))) as Hin.
    { rewrite Hl. apply in_or_app. right. left. reflexivity. }
    unfold enabledNamed in Hin. apply filter_In in Hin as [Hin Hb].
    apply andb_true_iff in Hb as [He Hn]. apply String.eqb_eq in Hn. auto. }
  split; [exact Hget|]. split; [exact Hsound|].
  intros l Hl. apply Forall_forall. intros svc Hin.
  unfold listOrder in Hl. rewrite Hl in Hin.
  apply list_elem_of_fmap in Hin as ([name svc'] & -> & Hin). cbn [snd].
  apply elem_of_map_to_list in Hin.
  destruct (Hsound name svc' Hin) as (He & Hn & _).
  split; [exact He|]. rewrite Hn. exact Hin.
Qed.

Lemma X12_witness_switched_off_last :
  Get (Init NewDefaultMiddlewareServiceRegistry
         {| HostRules := []; Services := ∅; Middlewares := [];
            MiddlewareServices := [limiterService; limiterServiceOff] |})
    "strict"
  = Some limiterService.
Proof.
  rewrite (proj1 (X12_registry_holds_last_enabled_service
                    {| HostRules := []; Services := ∅; Middlewares := [];
                       MiddlewareServices := [limiterService; limiterServiceOff] |})).
  reflexivity.
Defined.

End factory_operations.

(** ** The other balancing strategies *)

Section round_robin_strategy.
Import loadbalancer loadbalancer.Backend strategies round_robin strategies_spec.

Lemma elemAt_lookup {A : Type} (l : list A) (i : Z) :
  0 <= i < Z.of_nat (length l) -> elemAt l i = l !! Z.to_nat i.
Proof.
  intros Hi. unfold elemAt.
  replace ((i <? 0) || (i >=? Z.of_nat (length l))) with false; [reflexivity|].
  symmetry. apply orb_false_iff. rewrite Z.ltb_ge, Z.geb_leb, Z.leb_gt. lia.
Qed.

Lemma elemAt_out_of_range {A : Type} (l : list A) (i : Z) :
  i < 0 \/ Z.of_nat (length l) <= i -> elemAt l i = None.
Proof.
  intros Hi. unfold elemAt.
  replace ((i <? 0) || (i >=? Z.of_nat (length l))) with true; [reflexivity|].
  symmetry. apply orb_true_iff. rewrite Z.ltb_lt, Z.geb_leb, Z.leb_le. lia.
Qed.

Lemma elemAt_Some_In {A : Type} (l : list A) (i : Z) (a : A) :
  elemAt l i = Some a -> In a l.
Proof.
  unfold elemAt. destruct ((i <? 0) || (i >=? Z.of_nat (length l))); [discriminate|].
  intros Hl. apply list_elem_of_In. eapply list_elem_of_lookup_2. exact Hl.
Qed.

Lemma rotate_lookup {A : Type} (r j : nat) (l : list A) :
  (r < length l)%nat -> (j < length l)%nat
  -> rotate r l !! j = l !! ((r + j) mod length l)%nat.
Proof.
  intros Hr Hj. unfold rotate.
  destruct (Nat.lt_ge_cases j (length l - r)) as [Hlt|Hge].
  - rewrite lookup_app_l by (rewrite length_drop; exact Hlt).
    rewrite lookup_drop, Nat.mod_small by lia. reflexivity.
  - rewrite lookup_app_r by (rewrite length_drop; exact Hge).
    rewrite length_drop, lookup_take_lt by lia.
    replace (r + j)%nat with ((j - (length l - r)) + 1 * length l)%nat by lia.
    rewrite Nat.Div0.mod_add, Nat.mod_small by lia. reflexivity.
Qed.

Lemma rotate_Permutation {A : Type} (r : nat) (l : list A) : rotate r l ≡ₚ l.
Proof.
  unfold rotate. rewrite Permutation_app_comm, take_drop. reflexivity.
Qed.

Lemma round_robin_step (lb : RoundRobinLoadBalancer) :
  GetActiveBackends (base lb) <> []
  -> 0 <= current lb < GoInt.maxInt
  -> exists b,
       NextBackend lb
       = Some (Ok b, {| base := base lb; current := current lb + 1 |})
       /\ GetActiveBackends (base lb)
            !! Z.to_nat (current lb mod Z.of_nat (length (GetActiveBackends (base lb))))
          = Some b.
Proof.
  intros Hne Hc. unfold NextBackend.
  set (active := GetActiveBackends (base lb)) in *.
  assert (0 < Z.of_nat (length active)) as Hlen.
  { destruct active; [contradiction|cbn [length]; lia]. }
  replace (Z.of_nat (length active) =? 0) with false
    by (symmetry; apply Z.eqb_neq; lia).
  unfold GoInt.rem. rewrite Z.rem_mod_nonneg by lia.
  pose proof (Z.mod_pos_bound (current lb) (Z.of_nat (length active)) Hlen) as Hm.
  rewrite elemAt_lookup by exact Hm.
  destruct (lookup_lt_is_Some_2 active
              (Z.to_nat (current lb mod Z.of_nat (length active)))) as [b Hb];
    [lia|].
  exists b. rewrite Hb. split; [|reflexivity].
  rewrite add_small; [reflexivity|].
  pose proof minInt_neg. lia.
Qed.

Lemma round_robin_run (k : nat) (lb : RoundRobinLoadBalancer) :
  GetActiveBackends (base lb) <> []
  -> 0 <= current lb -> current lb + Z.of_nat k <= GoInt.maxInt
  -> exists rs,
       nextBackends k lb
       = Some (rs, {| base := base lb; current := current lb + Z.of_nat k |})
       /\ length rs = k
       /\ forall j, (j < k)%nat
          -> rs !! j
             = Ok <$> (GetActiveBackends (base lb)
                         !! Z.to_nat ((current lb + Z.of_nat j)
                                      mod Z.of_nat (length (GetActiveBackends (base lb))))).
Proof.
  revert lb. induction k as [|k IH]; intros lb Hne H0 Hk.
  - exists []. cbn [nextBackends]. rewrite Z.add_0_r.
    split; [destruct lb; reflexivity|]. split; [reflexivity|]. intros j Hj. lia.
  - destruct (round_robin_step lb Hne) as (b & Hstep & Hb); [lia|].
    cbn [nextBackends]. rewrite Hstep.
    destruct (IH {| base := base lb; current := current lb + 1 |})
      as (rs & Hrun & Hlen & Hrs); cbn [base current]; [exact Hne|lia|lia|].
    cbn [base current] in Hrun, Hrs. rewrite Hrun.
    exists (Ok b :: rs). split; [do 3 f_equal; lia|].
    split; [cbn [length]; lia|].
    intros [|j] Hj.
    + cbn [lookup list_lookup]. rewrite Z.add_0_r, Hb. reflexivity.
    + change ((Ok b :: rs) !! S j) with (rs !! j). rewrite Hrs by lia.
      do 4 f_equal. lia.
Qed.

(** X13: round robin takes the active backends in turn: as long as the
    counter stays within [int], call number [j] of a run returns the
    active backend at position [(current + j) mod N], the backends are
    not touched and the counter advances by one per call; hence any [N]
    calls in a row return every active backend exactly once. *)
Theorem X13_round_robin_takes_turns (lb : RoundRobinLoadBalancer) (k : nat) :
  GetActiveBackends (base lb) <> []
  -> 0 <= current lb -> current lb + Z.of_nat k <= GoInt.maxInt
  -> exists rs,
       nextBackends k lb
       = Some (rs, {| base := base lb; current := current lb + Z.of_nat k |})
       /\ length rs = k
       /\ (forall j, (j < k)%nat
           -> rs !! j
              = Ok <$> (GetActiveBackends (base lb)
                          !! Z.to_nat ((current lb + Z.of_nat j)
                                       mod Z.of_nat (length (GetActiveBackends (base lb))))))
       /\ (k = length (GetActiveBackends (base lb))
           -> rs ≡ₚ Ok <$> GetActiveBackends (base lb)).
Proof.
  intros Hne H0 Hk.
  destruct (round_robin_run k lb Hne H0 Hk) as (rs & Hrun & Hlen & Hrs).
  exists rs. split; [exact Hrun|]. split; [exact Hlen|]. split; [exact Hrs|].
  intros HkN. set (active := GetActiveBackends (base lb)) in *.
  assert (0 < length active)%nat as Hpos.
  { destruct active; [contradiction|cbn [length]; lia]. }
  set (r := Z.to_nat (current lb mod Z.of_nat (length active))).
  assert (r < length active)%nat as Hr.
  { pose proof (Z.mod_pos_bound (current lb) (Z.of_nat (length active))). lia. }
  assert (rs = Ok <$> rotate r active) as ->.
  { apply list_eq. intros j. rewrite list_lookup_fmap.
    destruct (Nat.lt_ge_cases j k) as [Hj|Hj].
    - rewrite Hrs by exact Hj. rewrite rotate_lookup by lia. do 2 f_equal.
      unfold r. rewrite <- Zplus_mod_idemp_l.
      rewrite <- (Z2Nat.id (current lb mod Z.of_nat (length active))) at 1
        by (pose proof (Z.mod_pos_bound (current lb) (Z.of_nat (length active))); lia).
      rewrite <- Nat2Z.inj_add, <- Nat2Z.inj_mod, Nat2Z.id. reflexivity.
    - rewrite lookup_ge_None_2 by lia.
      rewrite lookup_ge_None_2; [reflexivity|].
      unfold rotate. rewrite List.length_app, length_drop, length_take. lia. }
  rewrite rotate_Permutation. reflexivity.
Qed.

End round_robin_strategy.

Lemma X13_witness_three_backends :
  exists rs,
    round_robin.nextBackends 3
      (round_robin.NewRoundRobinLoadBalancer lb_spec.sampleConfig)
    = Some (rs, {| round_robin.base := loadbalancer.NewBaseLoadBalancer lb_spec.sampleConfig;
                   round_robin.current := 0 + Z.of_nat 3 |})
    /\ length rs = 3%nat
    /\ (forall j, (j < 3)%nat
        -> rs !! j
           = Ok <$> (loadbalancer.GetActiveBackends
                       (loadbalancer.NewBaseLoadBalancer lb_spec.sampleConfig)
                       !! Z.to_nat ((0 + Z.of_nat j)
                                    mod Z.of_nat
                                          (length
                                             (loadbalancer.GetActiveBackends
                                                (loadbalancer.NewBaseLoadBalancer
                                                   lb_spec.sampleConfig))))))
    /\ (3%nat = length (loadbalancer.GetActiveBackends
                          (loadbalancer.NewBaseLoadBalancer lb_spec.sampleConfig))
        -> rs ≡ₚ Ok <$> loadbalancer.GetActiveBackends
                          (loadbalancer.NewBaseLoadBalancer lb_spec.sampleConfig)).
Proof.
  apply (X13_round_robin_takes_turns
           (round_robin.NewRoundRobinLoadBalancer lb_spec.sampleConfig) 3).
  - vm_compute. discriminate.
  - vm_compute. discriminate.
  - vm_compute. discriminate.
Defined.

Section selecting_strategies.
Import loadbalancer loadbalancer.Backend strategies strategies_spec lb_spec.

Lemma active_nonempty_length (bs : list Backend.t) :
  bs <> [] -> (Z.of_nat (length bs) =? 0) = false.
Proof. intros Hne. destruct bs; [contradiction|reflexivity]. Qed.

Lemma GetActiveBackends_In (lb : BaseLoadBalancer) (b : Backend.t) :
  In b (GetActiveBackends lb) <-> In b (backends lb) /\ Active b = true.
Proof. unfold GetActiveBackends. apply filter_In. Qed.

Lemma least_scan_cases (bs : list Backend.t) (m : Z) (sel : option Backend.t) :
  (Forall (fun b => m <= Connections b) bs /\ least_connections.scan m sel bs = sel)
  \/ exists pre b post,
       bs = (pre ++ b :: post)%list
       /\ least_connections.scan m sel bs = Some b
       /\ Connections b < m
       /\ Forall (fun p => Connections b < Connections p) pre
       /\ Forall (fun p => Connections b <= Connections p) post.
Proof.
  revert m sel. induction bs as [|x rest IH]; intros m sel.
  - left. split; [constructor|reflexivity].
  - cbn [least_connections.scan]. destruct (Connections x <? m) eqn:Hx.
    + apply Z.ltb_lt in Hx. right.
      destruct (IH (Connections x) (Some x))
        as [[Hall Hs]|(pre & b & post & -> & Hs & Hb & Hpre & Hpost)].
      * exists [], x, rest. repeat split; try assumption. constructor.
      * exists (x :: pre), b, post. repeat split; try assumption; [lia|].
        constructor; assumption.
    + apply Z.ltb_ge in Hx.
      destruct (IH m sel)
        as [[Hall Hs]|(pre & b & post & -> & Hs & Hb & Hpre & Hpost)].
      * left. split; [constructor; assumption|exact Hs].
      * right. exists (x :: pre), b, post. repeat split; try assumption.
        constructor; [lia|assumption].
Qed.

Lemma least_scan_none (bs : list Backend.t) (m : Z) (sel : option Backend.t) :
  Forall (fun b => m <= Connections b) bs
  -> least_connections.scan m sel bs = sel.
Proof.
  induction 1 as [|x rest Hx _ IH]; [reflexivity|].
  cbn [least_connections.scan]. apply Z.ltb_ge in Hx. rewrite Hx. exact IH.
Qed.

(** X14: least connections returns the first active backend among those
    with the fewest open connections, provided some active backend has
    fewer than the largest [int]: the backend returned has fewer than
    that, no active backend before it has as few, none after it has
    fewer.  When every active backend holds the largest [int] of
    connections (or more), the call returns no backend and no error.
    The two cases exclude each other. *)
Theorem X14_least_connections_selects_first_minimum (lb : BaseLoadBalancer) :
  GetActiveBackends lb <> []
  -> ((Forall (fun b => GoInt.maxInt <= Connections b) (GetActiveBackends lb)
       /\ least_connections.NextBackend lb = Ok None)
      \/ exists pre b post,
           GetActiveBackends lb = (pre ++ b :: post)%list
           /\ least_connections.NextBackend lb = Ok (Some b)
           /\ Connections b < GoInt.maxInt
           /\ Forall (fun p => Connections b < Connections p) pre
           /\ Forall (fun p => Connections b <= Connections p) post)
     /\ (Forall (fun b => GoInt.maxInt <= Connections b) (GetActiveBackends lb)
         -> least_connections.NextBackend lb = Ok None)
     /\ (forall b, least_connections.NextBackend lb = Ok (Some b)
         -> Connections b < GoInt.maxInt).
Proof.
  intros Hne. unfold least_connections.NextBackend.
  rewrite active_nonempty_length by exact Hne.
  change least_connections.maxConnections with GoInt.maxInt.
  split; [|split].
  - destruct (least_scan_cases (GetActiveBackends lb) GoInt.maxInt None)
      as [[Hall Hs]|(pre & b & post & Hl & Hs & Hb & Hpre & Hpost)].
    + left. split; [exact Hall|]. rewrite Hs. reflexivity.
    + right. exists pre, b, post. rewrite Hs. auto.
  - intros Hall. rewrite least_scan_none by exact Hall. reflexivity.
  - intros b [= Hs].
    destruct (least_scan_cases (GetActiveBackends lb) GoInt.maxInt None)
      as [[Hall Hs']|(pre & b' & post & Hl & Hs' & Hb & Hpre & Hpost)].
    + rewrite Hs' in Hs. discriminate.
    + rewrite Hs' in Hs. injection Hs as <-. exact Hb.
Qed.

Lemma X14_witness_loaded_balancer :
  least_connections.NextBackend loadedLB
  = Ok (Some (loaded "http://10.0.0.2:8080" 2 (20 * Millisecond)))
  /\ Connections (loaded "http://10.0.0.2:8080" 2 (20 * Millisecond)) < GoInt.maxInt.
Proof.
  assert (GetActiveBackends loadedLB <> []) as Hne.
  { vm_compute. discriminate. }
  split; [reflexivity|].
  apply (proj2 (proj2 (X14_least_connections_selects_first_minimum loadedLB Hne))).
  reflexivity.
Defined.

(** With every active backend at the largest [int] no backend is
    returned, and no error. *)
Example saturated_backends_give_none :
  least_connections.NextBackend
    (NewBaseLoadBalancer
       {| Strategy := "least_connections";
          Backends := [loaded "http://10.0.0.1:8080" GoInt.maxInt 0;
                       loaded "http://10.0.0.2:8080" GoInt.maxInt 0];
          GlobalHealthCheck := noHealthCfg |})
  = Ok None.
Proof. vm_compute. reflexivity. Qed.

Lemma fastest_scan_selected (bs : list Backend.t) (m : Z)
  (sel : option Backend.t) (b : Backend.t) :
  response_time.scan m sel bs = Some b
  -> sel = Some b
     \/ (In b bs
         /\ (if ResponseTime b =? 0 then 100 * Millisecond else ResponseTime b) < m).
Proof.
  revert m sel. induction bs as [|x rest IH]; intros m sel; [left; assumption|].
  cbn [response_time.scan].
  destruct ((if ResponseTime x =? 0 then 100 * Millisecond else ResponseTime x) <? m)
    eqn:Hx; intros Hs.
  - apply Z.ltb_lt in Hx. destruct (IH _ _ Hs) as [[= <-]|[Hin Hlt]].
    + right. split; [left; reflexivity|exact Hx].
    + right. split; [right; exact Hin|lia].
  - destruct (IH _ _ Hs) as [Hsel|[Hin Hlt]]; [left; exact Hsel|].
    right. split; [right; exact Hin|exact Hlt].
Qed.

Lemma fastest_scan_none (bs : list Backend.t) (m : Z) (sel : option Backend.t) :
  Forall (fun b => m <= (if ResponseTime b =? 0 then 100 * Millisecond
                         else ResponseTime b)) bs
  -> response_time.scan m sel bs = sel.
Proof.
  induction 1 as [|x rest Hx _ IH]; [reflexivity|].
  cbn [response_time.scan]. apply Z.ltb_ge in Hx. rewrite Hx. exact IH.
Qed.

(** X15: the response-time strategy starts its search from the duration
    -1, so a backend is selected only if its response time is below -1:
    with response times that are not negative, as measured ones are, the
    call returns no backend and no error whenever there are active
    backends. *)
Theorem X15_response_time_selects_no_measured_backend (lb : BaseLoadBalancer) :
  (GetActiveBackends lb = []
   -> response_time.NextBackend lb = Err "no active backends available")
  /\ (forall b, response_time.NextBackend lb = Ok (Some b)
      -> ResponseTime b < -1 /\ In b (GetActiveBackends lb))
  /\ (GetActiveBackends lb <> []
      -> Forall (fun b => 0 <= ResponseTime b) (GetActiveBackends lb)
      -> response_time.NextBackend lb = Ok None).
Proof.
  unfold response_time.NextBackend. split; [|split].
  - intros ->. reflexivity.
  - intros b. destruct (Z.of_nat (length (GetActiveBackends lb)) =? 0);
      [discriminate|].
    intros [= Hs]. apply fastest_scan_selected in Hs as [Hs|[Hin Hlt]];
      [discriminate|].
    split; [|exact Hin]. unfold response_time.initialMinimum in Hlt.
    change (Z.lnot 0) with (-1) in Hlt. unfold Millisecond in Hlt.
    destruct (ResponseTime b =? 0); lia.
  - intros Hne Hall. rewrite active_nonempty_length by exact Hne.
    rewrite fastest_scan_none; [reflexivity|].
    eapply Forall_impl; [exact Hall|]. intros b Hb. cbn beta in Hb |- *.
    unfold response_time.initialMinimum. change (Z.lnot 0) with (-1).
    unfold Millisecond. destruct (ResponseTime b =? 0); lia.
Qed.

Lemma X15_witness_loaded_balancer :
  response_time.NextBackend loadedLB = Ok None.
Proof.
  apply (proj2 (proj2 (X15_response_time_selects_no_measured_backend loadedLB))).
  - vm_compute. discriminate.
  - repeat constructor; vm_compute; discriminate.
Defined.

Lemma weighted_random_total (bs : list Backend.t) :
  weighted_random.totalWeightOf bs = totalWeightOf bs.
Proof.
  unfold weighted_random.totalWeightOf, totalWeightOf. generalize 0 at 2 4.
  induction bs as [|b rest IH]; intros acc; [reflexivity|].
  cbn [fold_left]. rewrite IH. destruct (Weight b <=? 0); reflexivity.
Qed.

(** X16: weighted random selects by the drawn number as weighted round
    robin does by its counter: for a draw within the bounds of
    [rand.Intn] and a weight sum within [int], the backend returned is
    the first active one whose cumulative weight exceeds the draw. *)
Theorem X16_weighted_random_selects_by_draw (lb : BaseLoadBalancer)
  (Intn : Z -> Z) :
  GetActiveBackends lb <> []
  -> SumOfWeights (GetActiveBackends lb) <= GoInt.maxInt
  -> validIntn Intn
  -> exists i b,
       weighted_random.NextBackend lb Intn = Some (Ok b)
       /\ GetActiveBackends lb !! i = Some b
       /\ firstExceeding (GetActiveBackends lb)
            (Intn (SumOfWeights (GetActiveBackends lb))) i.
Proof.
  intros Hne Hsum Hvalid. unfold weighted_random.NextBackend.
  set (active := GetActiveBackends lb) in *.
  pose proof (SumOfWeights_pos active Hne) as Hpos.
  rewrite weighted_random_total, totalWeightOf_sum by exact Hsum.
  destruct active as [|first rest] eqn:Hactive; [contradiction|].
  rewrite <- Hactive in *.
  replace (SumOfWeights active =? 0) with false by (symmetry; apply Z.eqb_neq; lia).
  replace (SumOfWeights active <? 0) with false by (symmetry; apply Z.ltb_ge; lia).
  destruct (Hvalid (SumOfWeights active)) as [Hlo Hhi]; [lia|].
  destruct (selectByWeight_first active (Intn (SumOfWeights active)) 0)
    as (i & b & Hsel & Hb & Hex & Hbefore); [lia|lia|lia|].
  exists i, b. rewrite Hsel. split; [reflexivity|]. split; [exact Hb|].
  split; [lia|]. intros j Hj. specialize (Hbefore j Hj). lia.
Qed.

Lemma X16_witness_sample_draw :
  exists i b,
    weighted_random.NextBackend sampleLB (fun n => n - 1) = Some (Ok b)
    /\ GetActiveBackends sampleLB !! i = Some b
    /\ firstExceeding (GetActiveBackends sampleLB)
         ((fun n => n - 1) (SumOfWeights (GetActiveBackends sampleLB))) i.
Proof.
  apply (X16_weighted_random_selects_by_draw sampleLB (fun n => n - 1)).
  - vm_compute. discriminate.
  - vm_compute. discriminate.
  - intros n Hn. lia.
Defined.

Lemma selectByWeight_In (bs : list Backend.t) (target cur : Z) (b : Backend.t) :
  selectByWeight target cur bs = Some b -> In b bs.
Proof.
  revert cur. induction bs as [|x rest IH]; intros cur; [discriminate|].
  cbn [selectByWeight].
  destruct (target <? GoInt.add cur (if Weight x <=? 0 then 1 else Weight x)).
  - intros [= <-]. left. reflexivity.
  - intros Hs. right. exact (IH _ Hs).
Qed.

Lemma least_scan_In (bs : list Backend.t) (m : Z) (sel : option Backend.t)
  (b : Backend.t) :
  least_connections.scan m sel bs = Some b -> sel = Some b \/ In b bs.
Proof.
  revert m sel. induction bs as [|x rest IH]; intros m sel; [left; assumption|].
  cbn [least_connections.scan]. destruct (Connections x <? m); intros Hs.
  - destruct (IH _ _ Hs) as [[= <-]|Hin]; right; [left; reflexivity|right; exact Hin].
  - destruct (IH _ _ Hs) as [Hsel|Hin]; [left; exact Hsel|right; right; exact Hin].
Qed.

(** X17: no strategy hands out a backend that is marked inactive or is
    not one of the balancer's: whatever the counters, weights and draws
    are, a backend returned by round robin, weighted round robin, least
    connections, response time, random or weighted random is a backend
    of the balancer whose [Active] flag is set. *)
Theorem X17_strategies_return_active_backends (lb : BaseLoadBalancer)
  (b : Backend.t) :
  (forall rr rr',
     round_robin.base rr = lb
     -> round_robin.NextBackend rr = Some (Ok b, rr')
     -> In b (backends lb) /\ Active b = true)
  /\ (forall wrr wrr',
        base wrr = lb -> NextBackend wrr = (Ok b, wrr')
        -> In b (backends lb) /\ Active b = true)
  /\ (least_connections.NextBackend lb = Ok (Some b)
      -> In b (backends lb) /\ Active b = true)
  /\ (response_time.NextBackend lb = Ok (Some b)
      -> In b (backends lb) /\ Active b = true)
  /\ (forall Intn, random.NextBackend lb Intn = Some (Ok b)
      -> In b (backends lb) /\ Active b = true)
  /\ (forall Intn, weighted_random.NextBackend lb Intn = Some (Ok b)
      -> In b (backends lb) /\ Active b = true).
Proof.
  repeat apply conj.
  - intros rr rr' <-. unfold round_robin.NextBackend.
    destruct (Z.of_nat (length (GetActiveBackends (round_robin.base rr))) =? 0);
      [discriminate|].
    destruct (elemAt _ _) as [x|] eqn:Hx; [|discriminate].
    intros [= -> _]. apply GetActiveBackends_In.
    exact (elemAt_Some_In _ _ _ Hx).
  - intros wrr wrr' <-. unfold NextBackend.
    destruct (GetActiveBackends (base wrr)) as [|first rest] eqn:Hactive;
      [discriminate|].
    destruct (totalWeightOf (first :: rest) =? 0); [discriminate|].
    destruct (selectByWeight _ 0 (first :: rest)) as [x|] eqn:Hx.
    + intros [= -> _]. apply GetActiveBackends_In. rewrite Hactive.
      exact (selectByWeight_In _ _ _ _ Hx).
    + intros [= -> _]. apply GetActiveBackends_In. rewrite Hactive.
      left. reflexivity.
  - unfold least_connections.NextBackend.
    destruct (Z.of_nat (length (GetActiveBackends lb)) =? 0); [discriminate|].
    intros [= Hs]. apply least_scan_In in Hs as [Hs|Hin]; [discriminate|].
    apply GetActiveBackends_In. exact Hin.
  - unfold response_time.NextBackend.
    destruct (Z.of_nat (length (GetActiveBackends lb)) =? 0); [discriminate|].
    intros [= Hs]. apply fastest_scan_selected in Hs as [Hs|[Hin _]];
      [discriminate|].
    apply GetActiveBackends_In. exact Hin.
  - intros Intn. unfold random.NextBackend.
    destruct (Z.of_nat (length (GetActiveBackends lb)) =? 0); [discriminate|].
    destruct (elemAt _ _) as [x|] eqn:Hx; [|discriminate].
    intros [= ->]. apply GetActiveBackends_In. exact (elemAt_Some_In _ _ _ Hx).
  - intros Intn. unfold weighted_random.NextBackend.
    destruct (GetActiveBackends lb) as [|first rest] eqn:Hactive; [discriminate|].
    destruct (weighted_random.totalWeightOf (first :: rest) =? 0); [discriminate|].
    destruct (weighted_random.totalWeightOf (first :: rest) <? 0); [discriminate|].
    destruct (selectByWeight _ 0 (first :: rest)) as [x|] eqn:Hx.
    + intros [= ->]. apply GetActiveBackends_In. rewrite Hactive.
      exact (selectByWeight_In _ _ _ _ Hx).
    + intros [= ->]. apply GetActiveBackends_In. rewrite Hactive.
      left. reflexivity.
Qed.

End selecting_strategies.

(** ** The client address of the balancer and the status of a backend *)

Section balancer_client_ip.
Import GoStrings ratelimit_spec.
Context `{NetAddr}.

Lemma commaIndex_cases (s : string) (i : Z) :
  1 <= i
  -> (strategies.commaIndex i s = 0 /\ firstSegment s = s)
     \/ (i <= strategies.commaIndex i s
         /\ sliceTo (Z.to_nat (strategies.commaIndex i s - i)) s = firstSegment s).
Proof.
  revert i. induction s as [|c rest IH]; intros i Hi; [left; split; reflexivity|].
  cbn [strategies.commaIndex firstSegment]. destruct (Ascii.eqb c ","%char).
  - right. split; [lia|]. rewrite Z.sub_diag. reflexivity.
  - destruct (IH (i + 1)) as [[Hz Hf]|[Hle Hs]]; [lia| |].
    + left. rewrite Hf. split; [exact Hz|reflexivity].
    + right. split; [lia|].
      replace (Z.to_nat (strategies.commaIndex (i + 1) rest - i))
        with (S (Z.to_nat (strategies.commaIndex (i + 1) rest - (i + 1)))) by lia.
      cbn [sliceTo]. rewrite Hs. reflexivity.
Qed.

(** X18: the balancer's [getClientIP] cuts [X-Forwarded-For] at its first
    comma, unlike the rate limiter's, which takes the whole header; only
    a header that begins with a comma is taken whole.  The two functions
    therefore name the same client for a header exactly when cutting at
    the first comma changes nothing or the header begins with a comma. *)
Theorem X18_balancer_client_ip_is_first_segment (req : http.Request) :
  let xForwardedFor := http.Get (http.RequestHeader req) "X-Forwarded-For" in
  (xForwardedFor <> EmptyString -> HasPrefix xForwardedFor "," = false
   -> strategies.getClientIP req = firstSegment xForwardedFor)
  /\ (HasPrefix xForwardedFor "," = true
      -> strategies.getClientIP req = xForwardedFor)
  /\ (xForwardedFor <> EmptyString
      -> (strategies.getClientIP req = getClientIP req
          <-> firstSegment xForwardedFor = xForwardedFor
              \/ HasPrefix xForwardedFor "," = true)).
Proof.
  intros xff.
  assert (Hcut : xff <> EmptyString -> HasPrefix xff "," = false
                 -> strategies.getClientIP req = firstSegment xff).
  { intros Hne Hp. unfold strategies.getClientIP. fold xff.
    destruct xff as [|c rest] eqn:Hx; [contradiction|].
    cbn [String.eqb negb strategies.commaIndex firstSegment].
    cbn [HasPrefix] in Hp. rewrite andb_true_r in Hp. rewrite Hp.
    change (0 + 1) with 1.
    destruct (commaIndex_cases rest 1) as [[Hz Hf]|[Hle Hs]]; [lia| |].
    - rewrite Hz, Hf. reflexivity.
    - replace (strategies.commaIndex 1 rest >? 0) with true
        by (symmetry; rewrite Z.gtb_ltb; apply Z.ltb_lt; lia).
      replace (Z.to_nat (strategies.commaIndex 1 rest))
        with (S (Z.to_nat (strategies.commaIndex 1 rest - 1))) by lia.
      cbn [sliceTo]. rewrite Hs. reflexivity. }
  assert (Hwhole : HasPrefix xff "," = true -> strategies.getClientIP req = xff).
  { intros Hp. unfold strategies.getClientIP. fold xff.
    destruct xff as [|c rest] eqn:Hx; [discriminate|].
    cbn [String.eqb negb strategies.commaIndex].
    cbn [HasPrefix] in Hp. rewrite andb_true_r in Hp. rewrite Hp. reflexivity. }
  split; [exact Hcut|]. split; [exact Hwhole|].
  intros Hne.
  assert (getClientIP req = xff) as ->.
  { apply (proj1 (getClientIP_order req)). exact Hne. }
  destruct (HasPrefix xff ",") eqn:Hp.
  - rewrite Hwhole by reflexivity. split; [right; reflexivity|reflexivity].
  - rewrite Hcut by (exact Hne || reflexivity).
    split; [left; assumption|]. intros [Hf|Hf]; [exact Hf|discriminate].
Qed.

End balancer_client_ip.

Section backend_status.
Import loadbalancer loadbalancer.Backend lb_spec.

Lemma updateFirst_absent (url : string) (f : Backend.t -> Backend.t)
  (bs : list Backend.t) :
  ~ In url (map URL bs) -> updateFirst url f bs = bs.
Proof.
  induction bs as [|b rest IH]; [reflexivity|]. cbn [map In updateFirst].
  intros Hn. destruct (String.eqb_spec (URL b) url) as [He|He].
  - exfalso. apply Hn. left. exact He.
  - rewrite IH; [reflexivity|]. intros Hin. apply Hn. right. exact Hin.
Qed.

Lemma filter_other_urls (url : string) (bs : list Backend.t) :
  ~ In url (map URL bs)
  -> List.filter (fun b => negb (String.eqb (URL b) url)) (List.filter Active bs)
     = List.filter Active bs.
Proof.
  induction bs as [|b rest IH]; [reflexivity|]. cbn [map In List.filter].
  intros Hn. destruct (Active b); cbn [List.filter].
  - destruct (String.eqb_spec (URL b) url) as [He|He].
    + exfalso. apply Hn. left. exact He.
    + cbn [negb]. rewrite IH; [reflexivity|]. tauto.
  - apply IH. tauto.
Qed.

(** X19: marking a URL inactive takes its backend out of the active
    list and leaves the others in place, provided the URLs of the
    balancer are distinct; a URL the balancer does not know changes
    nothing. *)
Theorem X19_UpdateBackendStatus_evicts_by_url (lb : BaseLoadBalancer)
  (url : string) :
  NoDup (map URL (backends lb))
  -> GetActiveBackends (UpdateBackendStatus lb url false)
     = List.filter (fun b => negb (String.eqb (URL b) url)) (GetActiveBackends lb)
     /\ (forall active, ~ In url (map URL (backends lb))
         -> UpdateBackendStatus lb url active = lb).
Proof.
  intros Hnd. split.
  - unfold GetActiveBackends, UpdateBackendStatus, withBackends. cbn [backends].
    induction (backends lb) as [|b rest IH]; [reflexivity|].
    cbn [map] in Hnd. apply NoDup_cons in Hnd as [Hb Hrest].
    cbn [updateFirst]. destruct (String.eqb_spec (URL b) url) as [He|He].
    + cbn [List.filter setActive Active].
      rewrite <- He in *.
      assert (~ In (URL b) (map URL rest)) as Hn.
      { intros Hin. apply Hb. apply list_elem_of_In. exact Hin. }
      destruct (Active b); cbn [List.filter].
      * rewrite String.eqb_refl. cbn [negb]. rewrite filter_other_urls by exact Hn.
        reflexivity.
      * rewrite filter_other_urls by exact Hn. reflexivity.
    + cbn [List.filter]. destruct (Active b); cbn [List.filter].
      * apply String.eqb_neq in He. rewrite He. cbn [negb]. rewrite IH by exact Hrest.
        reflexivity.
      * apply IH. exact Hrest.
  - intros active Hn. unfold UpdateBackendStatus, withBackends.
    rewrite updateFirst_absent by exact Hn. destruct lb. reflexivity.
Qed.

Lemma X19_witness_second_backend :
  GetActiveBackends (UpdateBackendStatus sampleLB "http://10.0.0.2:8080" false)
  = List.filter (fun b => negb (String.eqb (URL b) "http://10.0.0.2:8080"))
      (GetActiveBackends sampleLB)
  /\ (forall active, ~ In "http://10.0.0.2:8080" (map URL (backends sampleLB))
      -> UpdateBackendStatus sampleLB "http://10.0.0.2:8080" active = sampleLB).
Proof.
  apply (X19_UpdateBackendStatus_evicts_by_url sampleLB "http://10.0.0.2:8080").
  apply (bool_decide_unpack _). vm_compute. exact I.
Defined.

(** With a URL configured twice only the first backend is marked. *)
Example duplicate_url_stays_active :
  GetActiveBackends
    (UpdateBackendStatus
       (NewBaseLoadBalancer
          {| Strategy := "round_robin"; Backends := [b1; b1];
             GlobalHealthCheck := noHealthCfg |})
       "http://10.0.0.1:8080" false)
  = [b1].
Proof. reflexivity. Qed.

End backend_status.

(** ** The [auth] middleware *)

Section auth_middleware.
Import GoStrings http middleware auth.

Lemma keysMap_fold (keys : list string) (m : gmap string bool) (k : string) :
  default false (fold_left (fun keysMap key => <[key := true]> keysMap) keys m !! k)
  = true
  <-> In k keys \/ default false (m !! k) = true.
Proof.
  revert m. induction keys as [|key rest IH]; intros m; cbn [fold_left In].
  - tauto.
  - rewrite IH. destruct (String.eqb_spec key k) as [He|He].
    + subst key. rewrite lookup_insert_eq. cbn [default]. tauto.
    + rewrite lookup_insert_ne by exact He. tauto.
Qed.

Lemma validKeys_In (header : string) (keys : list string) (token : string) :
  default false (validKeys (NewAuthMiddleware header keys) !! token) = true
  <-> In token keys.
Proof.
  unfold NewAuthMiddleware. cbn [validKeys]. rewrite keysMap_fold.
  rewrite lookup_empty. cbn [default]. split; [intros [Hin|Hf]|left]; auto.
  discriminate.
Qed.

Lemma Handle_by_token (header : string) (keys : list string) (ctx : Context)
  (token : string) :
  Get (RequestHeader (Request ctx)) header <> EmptyString
  -> (if HasPrefix (Get (RequestHeader (Request ctx)) header) "Bearer "
      then TrimPrefix (Get (RequestHeader (Request ctx)) header) "Bearer "
      else Get (RequestHeader (Request ctx)) header) = token
  -> (In token keys -> Handle (NewAuthMiddleware header keys) ctx = (ctx, true))
     /\ (~ In token keys
         -> Handle (NewAuthMiddleware header keys) ctx
            = (reject ctx "Invalid authentication token" StatusForbidden, false)).
Proof.
  intros Hne Htoken. unfold Handle.
  change (headerName (NewAuthMiddleware header keys)) with header.
  apply String.eqb_neq in Hne. rewrite Hne, Htoken.
  destruct (default false (validKeys (NewAuthMiddleware header keys) !! token))
    eqn:Hv; cbn [negb].
  - split; [reflexivity|]. intros Hn. apply validKeys_In in Hv. contradiction.
  - split; [|reflexivity]. intros Hin.
    apply (validKeys_In header keys token) in Hin. congruence.
Qed.

(** X20: the [auth] middleware lets a request pass, untouched, exactly
    when the configured header is present and its token is one of the
    valid keys, where the token is the header value without one leading
    ["Bearer "], or the whole value when it does not begin so.  A missing
    or empty header is answered with 401, any other refusal with 403. *)
Theorem X20_auth_admits_exactly_the_valid_keys (header : string)
  (keys : list string) (ctx : Context) :
  let am := NewAuthMiddleware header keys in
  let authHeader := Get (RequestHeader (Request ctx)) header in
  (authHeader = EmptyString
   -> Handle am ctx
      = (reject ctx "Missing authentication header" StatusUnauthorized, false))
  /\ (forall token, authHeader = "Bearer " +:+ token
      -> (Handle am ctx = (ctx, true) <-> In token keys)
         /\ (~ In token keys
             -> Handle am ctx
                = (reject ctx "Invalid authentication token" StatusForbidden, false)))
  /\ (authHeader <> EmptyString -> HasPrefix authHeader "Bearer " = false
      -> (Handle am ctx = (ctx, true) <-> In authHeader keys)
         /\ (~ In authHeader keys
             -> Handle am ctx
                = (reject ctx "Invalid authentication token" StatusForbidden, false))).
Proof.
  intros am authHeader. split; [|split].
  - intros He. unfold Handle. change (headerName am) with header.
    fold authHeader. rewrite He. reflexivity.
  - intros token Hb.
    destruct (Handle_by_token header keys ctx token) as [Hyes Hno].
    + fold authHeader. rewrite Hb. discriminate.
    + fold authHeader. rewrite Hb.
      rewrite HasPrefix_app. unfold TrimPrefix. rewrite HasPrefix_app.
      exact (sliceFrom_app "Bearer " token).
    + split; [|exact Hno]. split; [|exact Hyes].
      intros Hok. destruct (in_dec string_dec token keys) as [Hin|Hn]; [exact Hin|].
      fold am in Hno. rewrite (Hno Hn) in Hok. discriminate.
  - intros Hne Hp.
    destruct (Handle_by_token header keys ctx authHeader) as [Hyes Hno].
    + exact Hne.
    + fold authHeader. rewrite Hp. reflexivity.
    + split; [|exact Hno]. split; [|exact Hyes].
      intros Hok. destruct (in_dec string_dec authHeader keys) as [Hin|Hn];
        [exact Hin|].
      fold am in Hno. rewrite (Hno Hn) in Hok. discriminate.
Qed.

(** A key that begins with ["Bearer "] is not accepted when presented as
    it is: one prefix is taken off first. *)
Example bearer_key_needs_double_prefix :
  snd (Handle (NewAuthMiddleware "X-API-Key" ["Bearer s3cret"])
         (presenting "Bearer s3cret")) = false
  /\ snd (Handle (NewAuthMiddleware "X-API-Key" ["Bearer s3cret"])
            (presenting "Bearer Bearer s3cret")) = true.
Proof. split; vm_compute; reflexivity. Qed.

End auth_middleware.

(** ** The [dynamic_route] plugin *)

Section dynamic_route_plugin.
Import GoStrings http config middleware dynamic_route.

Lemma getCachedTarget_after_update (drm : DynamicRouteMiddleware)
  (t now : Z) (host target other : string) :
  now - t <= cacheExpiry drm
  -> getCachedTarget (updateCache drm t host target) now other
     = match <[host := target]> (cachedHostMappings drm) !! other with
       | Some cached => (cached, true)
       | None => (EmptyString, false)
       end.
Proof.
  intros Hfresh. unfold getCachedTarget, sinceLastUpdate, updateCache, gotime.Sub.
  cbn [lastCacheUpdate cacheExpiry cachedHostMappings].
  replace (now - t >? cacheExpiry drm) with false; [reflexivity|].
  symmetry. rewrite Z.gtb_ltb. apply Z.ltb_ge. exact Hfresh.
Qed.

(** X21: the cache of [dynamic_route] has one time stamp for all hosts:
    an answer stored at the instant [t] is served, without the API being
    asked, until [cacheExpiry] has passed since [t]; storing it also
    brings every older entry back into use for that time, however long
    ago it was stored; once the time has passed no entry is served.  A
    failed API call changes neither the plugin nor the context, and
    [Handle] never refuses a request. *)
Theorem X21_dynamic_route_cache_shares_one_timestamp
  (drm : DynamicRouteMiddleware) (t now : Z) (host target : string) :
  (now - t <= cacheExpiry drm
   -> getCachedTarget (updateCache drm t host target) now host = (target, true)
      /\ (forall other cached,
            other <> host -> cachedHostMappings drm !! other = Some cached
            -> getCachedTarget (updateCache drm t host target) now other
               = (cached, true))
      /\ (forall api urlHost context,
            splitHead (if String.eqb (Host (Request context)) EmptyString
                       then urlHost else Host (Request context)) = host
            -> Handle (updateCache drm t host target) now api urlHost context
               = (updateCache drm t host target, setTarget context target, true)))
  /\ (cacheExpiry drm < now - t
      -> forall other,
           getCachedTarget (updateCache drm t host target) now other
           = (EmptyString, false))
  /\ (forall api urlHost context,
        snd (Handle drm now api urlHost context) = true)
  /\ (forall api urlHost context msg,
        snd (getCachedTarget drm now
               (splitHead (if String.eqb (Host (Request context)) EmptyString
                           then urlHost else Host (Request context)))) = false
        -> api (splitHead (if String.eqb (Host (Request context)) EmptyString
                           then urlHost else Host (Request context))) = Err msg
        -> Handle drm now api urlHost context = (drm, context, true)).
Proof.
  split; [|split; [|split]].
  - intros Hfresh. split; [|split].
    + rewrite getCachedTarget_after_update by exact Hfresh.
      rewrite lookup_insert_eq. reflexivity.
    + intros other cached Hne Hc.
      rewrite getCachedTarget_after_update by exact Hfresh.
      rewrite lookup_insert_ne by congruence. rewrite Hc. reflexivity.
    + intros api urlHost context Hhost. unfold Handle. rewrite Hhost.
      rewrite getCachedTarget_after_update by exact Hfresh.
      rewrite lookup_insert_eq. reflexivity.
  - intros Hold other. unfold getCachedTarget, sinceLastUpdate, updateCache, gotime.Sub.
    cbn [lastCacheUpdate cacheExpiry].
    replace (now - t >? cacheExpiry drm) with true; [reflexivity|].
    symmetry. rewrite Z.gtb_ltb. apply Z.ltb_lt. exact Hold.
  - intros api urlHost context. unfold Handle.
    destruct (getCachedTarget drm now _) as [cached found].
    destruct found; cbn [negb]; [reflexivity|].
    destruct (api _); reflexivity.
  - intros api urlHost context msg Hmiss Hapi. unfold Handle.
    destruct (getCachedTarget drm now _) as [cached found].
    cbn [snd] in Hmiss. subst found. cbn [negb]. rewrite Hapi. reflexivity.
Qed.

Lemma X21_witness_revived_entry :
  getCachedTarget
    (updateCache
       {| apiURL := apiURL fresh; timeout := timeout fresh;
          cacheExpiry := cacheExpiry fresh;
          lastCacheUpdate := Some 0;
          cachedHostMappings := {[ "old.example.com" := "legacy" ]} |}
       (3600 * gotime.Second) "app.example.com" "alt")
    (3601 * gotime.Second) "old.example.com"
  = ("legacy", true).
Proof.
  destruct (X21_dynamic_route_cache_shares_one_timestamp
              {| apiURL := apiURL fresh; timeout := timeout fresh;
                 cacheExpiry := cacheExpiry fresh;
                 lastCacheUpdate := Some 0;
                 cachedHostMappings := {[ "old.example.com" := "legacy" ]} |}
              (3600 * gotime.Second) (3601 * gotime.Second)
              "app.example.com" "alt") as [Hfresh _].
  destruct Hfresh as (_ & Hother & _).
  - vm_compute. discriminate.
  - apply Hother.
    + vm_compute. discriminate.
    + vm_compute. reflexivity.
Defined.

Lemma splitHead_stripPort (host : string) : splitHead host = proxy.stripPort host.
Proof.
  induction host as [|c rest IH]; [reflexivity|].
  rewrite stripPort_cons. cbn [splitHead]. rewrite IH. reflexivity.
Qed.

Context `{URLParser}.

(** X22: the plugin and the dispatcher work together as follows.  The
    plugin asks the API about the host name the dispatcher matched on
    (both cut the [Host] header at its first colon).  After a cache miss,
    when the API names a configured service, the dispatcher proxies to
    that service; when the API fails, or names a service that is not
    configured, the target chosen from the rules stays. *)
Theorem X22_dynamic_route_feeds_the_dispatcher (ph : proxy.ProxyHandler)
  (drm : DynamicRouteMiddleware) (now : Z) (api : API)
  (targetService : Service.t) (context : Context) :
  Host (Request context) <> EmptyString
  -> snd (getCachedTarget drm now (proxy.stripPort (Host (Request context))))
     = false
  -> match api (proxy.stripPort (Host (Request context))) with
     | Err _ =>
         proxy.resolveDynamicTarget ph targetService
           (fst (middleware.Handle (asMiddleware drm now api) context))
         = proxy.resolveDynamicTarget ph targetService context
     | Ok name =>
         name <> EmptyString
         -> match proxy.services ph !! name with
            | Some service =>
                fst (proxy.resolveDynamicTarget ph targetService
                       (fst (middleware.Handle (asMiddleware drm now api) context)))
                = service
            | None =>
                fst (proxy.resolveDynamicTarget ph targetService
                       (fst (middleware.Handle (asMiddleware drm now api) context)))
                = targetService
            end
     end.
Proof.
  intros Hhost Hmiss. unfold asMiddleware. cbn [middleware.Handle].
  unfold Handle. apply String.eqb_neq in Hhost. rewrite Hhost.
  rewrite splitHead_stripPort.
  destruct (getCachedTarget drm now _) as [cached found].
  cbn [snd] in Hmiss. subst found. cbn [negb].
  destruct (api _) as [name|msg]; cbn [fst]; [|reflexivity].
  intros Hname. unfold setTarget. apply String.eqb_neq in Hname. rewrite Hname.
  cbn [negb]. unfold proxy.resolveDynamicTarget. cbn [Values].
  rewrite lookup_insert_eq.
  destruct (proxy.services ph !! name); reflexivity.
Qed.

End dynamic_route_plugin.

Lemma X22_witness_alt_service :
  fst (proxy.resolveDynamicTarget (H := literal.urls)
         (chain_spec.dynHandler chain_spec.bothServices) chain_spec.primaryService
         (fst (middleware.Handle
                 (dynamic_route.asMiddleware dynamic_route.fresh 0 dynamic_route.altAPI)
                 (proxy.newContext (H := literal.urls) http.newResponseWriter
                    chain_spec.dynRequest chain_spec.primaryService))))
  = chain_spec.altService.
Proof.
  pose proof (X22_dynamic_route_feeds_the_dispatcher (H := literal.urls)
                (chain_spec.dynHandler chain_spec.bothServices)
                dynamic_route.fresh 0 dynamic_route.altAPI chain_spec.primaryService
                (proxy.newContext (H := literal.urls) http.newResponseWriter
                   chain_spec.dynRequest chain_spec.primaryService)) as W.
  assert (http.Host
            (middleware.Request
               (proxy.newContext (H := literal.urls) http.newResponseWriter
                  chain_spec.dynRequest chain_spec.primaryService))
          <> EmptyString) as Hhost.
  { vm_compute. discriminate. }
  specialize (W Hhost eq_refl). vm_compute in W. vm_compute.
  apply W. discriminate.
Defined.

(** ** The upgrade request of the WebSocket proxy *)

Section websocket_upgrade_request.
Import http ws_request.

Lemma copyHeaders_lookup (headers : list string) (r : Request) (h : Header)
  (key : string) :
  copyHeaders headers r h !! key
  = if existsb (fun header => String.eqb (CanonicalHeaderKey header) key) headers
       && negb (String.eqb
                  (match RequestHeader r !! key with
                   | Some (v :: _) => v
                   | _ => EmptyString
                   end) EmptyString)
    then Some [match RequestHeader r !! key with
               | Some (v :: _) => v
               | _ => EmptyString
               end]
    else h !! key.
Proof.
  unfold copyHeaders. revert h.
  induction headers as [|header rest IH]; intros h; [reflexivity|].
  cbn [fold_left existsb]. rewrite IH. unfold Get, Set_.
  destruct (String.eqb_spec (CanonicalHeaderKey header) key) as [He|He].
  - rewrite He. cbn [orb].
    destruct (existsb _ rest); cbn [andb].
    + destruct (negb (String.eqb _ EmptyString)); reflexivity.
    + destruct (negb (String.eqb _ EmptyString)) eqn:Hv; [|reflexivity].
      apply (lookup_insert_eq (M := gmap string)).
  - cbn [orb].
    destruct (existsb _ rest && negb (String.eqb _ EmptyString)); [reflexivity|].
    destruct (negb (String.eqb _ EmptyString)); [|reflexivity].
    apply (lookup_insert_ne (M := gmap string)). exact He.
Qed.

Lemma Set_lookup_eq (h : Header) (key value : string) :
  Set_ h key value !! CanonicalHeaderKey key = Some [value].
Proof. apply (lookup_insert_eq (M := gmap string)). Qed.

Lemma Set_lookup_ne (h : Header) (key value k : string) :
  CanonicalHeaderKey key <> k -> Set_ h key value !! k = h !! k.
Proof. apply (lookup_insert_ne (M := gmap string)). Qed.

Lemma copyHeaders_empty (headers : list string) (r : Request) (key : string) :
  copyHeaders headers r ∅ !! key
  = if existsb (fun header => String.eqb (CanonicalHeaderKey header) key) headers
       && negb (String.eqb
                  (match RequestHeader r !! key with
                   | Some (v :: _) => v
                   | _ => EmptyString
                   end) EmptyString)
    then Some [match RequestHeader r !! key with
               | Some (v :: _) => v
               | _ => EmptyString
               end]
    else None.
Proof. rewrite copyHeaders_lookup. destruct (_ && _); reflexivity. Qed.

(** X23: the upgrade request sent to the target carries, of the client's
    headers, only the ten listed ones, each with the first value the
    client sent (further values of the same header are dropped), and the
    three forwarding headers, which are set from the connection: what the
    client sent as [X-Forwarded-For], [X-Forwarded-Host] or
    [X-Forwarded-Proto] is not passed on.  Every header of the request
    has exactly one value. *)
Theorem X23_upgrade_request_headers (r : Request) :
  (forall header, In header headersToCopy
     -> Get (upgradeRequestHeader r) header = Get (RequestHeader r) header)
  /\ Get (upgradeRequestHeader r) "X-Forwarded-For" = RemoteAddr r
  /\ Get (upgradeRequestHeader r) "X-Forwarded-Host" = Host r
  /\ Get (upgradeRequestHeader r) "X-Forwarded-Proto" = "http"
  /\ (forall key values, upgradeRequestHeader r !! key = Some values
      -> (exists value, values = [value])
         /\ In key (map CanonicalHeaderKey
                      (headersToCopy
                       ++ ["X-Forwarded-Proto"; "X-Forwarded-Host";
                           "X-Forwarded-For"])%list)).
Proof.
  split; [|split; [|split; [|split]]].
  - intros header Hin. unfold Get at 1. unfold upgradeRequestHeader.
    assert (existsb (fun h => String.eqb (CanonicalHeaderKey h)
                                (CanonicalHeaderKey header)) headersToCopy = true)
      as Hex.
    { apply existsb_exists. exists header. split; [exact Hin|apply String.eqb_refl]. }
    assert (CanonicalHeaderKey "X-Forwarded-For" <> CanonicalHeaderKey header
            /\ CanonicalHeaderKey "X-Forwarded-Host" <> CanonicalHeaderKey header
            /\ CanonicalHeaderKey "X-Forwarded-Proto" <> CanonicalHeaderKey header)
      as (H1 & H2 & H3).
    { cbn [headersToCopy In] in Hin.
      repeat (destruct Hin as [<-|Hin];
              [repeat split; vm_compute; discriminate|]).
      contradiction. }
    rewrite !Set_lookup_ne by assumption.
    rewrite copyHeaders_empty, Hex. cbn [andb]. unfold Get.
    destruct (RequestHeader r !! CanonicalHeaderKey header) as [[|v vs]|];
      [reflexivity| |reflexivity].
    cbn [negb]. destruct (String.eqb_spec v EmptyString) as [->|Hv]; reflexivity.
  - unfold Get, upgradeRequestHeader. rewrite Set_lookup_eq. reflexivity.
  - unfold Get, upgradeRequestHeader.
    rewrite Set_lookup_ne by (vm_compute; discriminate).
    rewrite Set_lookup_eq. reflexivity.
  - unfold Get, upgradeRequestHeader.
    rewrite !Set_lookup_ne by (vm_compute; discriminate).
    rewrite Set_lookup_eq. reflexivity.
  - intros key values. unfold upgradeRequestHeader.
    rewrite map_app, in_app_iff.
    destruct (String.eqb_spec (CanonicalHeaderKey "X-Forwarded-For") key) as [<-|Hf].
    { rewrite Set_lookup_eq. intros [= <-]. split; [eauto|].
      right. right. right. left. reflexivity. }
    rewrite Set_lookup_ne by exact Hf.
    destruct (String.eqb_spec (CanonicalHeaderKey "X-Forwarded-Host") key) as [<-|Hh].
    { rewrite Set_lookup_eq. intros [= <-]. split; [eauto|].
      right. right. left. reflexivity. }
    rewrite Set_lookup_ne by exact Hh.
    destruct (String.eqb_spec (CanonicalHeaderKey "X-Forwarded-Proto") key) as [<-|Hp].
    { rewrite Set_lookup_eq. intros [= <-]. split; [eauto|].
      right. left. reflexivity. }
    rewrite Set_lookup_ne by exact Hp.
    rewrite copyHeaders_empty.
    destruct (existsb _ headersToCopy) eqn:Hex; cbn [andb]; [|discriminate].
    destruct (negb _); [|discriminate].
    intros [= <-]. split; [eauto|]. left.
    apply existsb_exists in Hex as (header & Hin & He).
    apply String.eqb_eq in He. rewrite <- He. apply in_map. exact Hin.
Qed.

(** Of two [Sec-WebSocket-Protocol] lines the first is passed on, the
    client's [X-Forwarded-For] is replaced and [Accept-Language] is
    dropped. *)
Example chat_upgrade_headers :
  upgradeRequestHeader chatUpgrade !! "Sec-Websocket-Protocol" = Some ["chat"]
  /\ upgradeRequestHeader chatUpgrade !! "X-Forwarded-For"
     = Some ["203.0.113.7:40000"]
  /\ upgradeRequestHeader chatUpgrade !! "Accept-Language" = None.
Proof. repeat split; vm_compute; reflexivity. Qed.

End websocket_upgrade_request.

(** ** The route matcher of package [matcher] *)

Section route_matcher.
Import GoStrings matcher route_matcher_spec.
Context `{RegexpEngine}.

Lemma prefixTest_iff (pattern path : string) :
  prefixTest pattern path = true <-> prefixCovers pattern path.
Proof.
  unfold prefixTest, prefixCovers.
  rewrite !andb_true_iff, orb_true_iff, String.eqb_eq. split.
  - intros [[Hs Hp] Hm]. apply HasSuffix_iff in Hs as [prefix ->].
    exists prefix. split; [reflexivity|].
    assert (sliceTo (String.length (prefix +:+ "/*") - 2) (prefix +:+ "/*") = prefix)
      as Hcut.
    { rewrite length_app. cbn [String.length].
      replace (String.length prefix + 2 - 2)%nat with (String.length prefix) by lia.
      apply sliceTo_app. }
    rewrite Hcut in Hm. destruct Hm as [->|Hm]; [left; reflexivity|].
    right. apply HasPrefix_iff in Hm as [rest ->]. exists rest.
    symmetry. apply string_app_assoc.
  - intros (prefix & -> & Hm).
    assert (sliceTo (String.length (prefix +:+ "/*") - 2) (prefix +:+ "/*") = prefix)
      as Hcut.
    { rewrite length_app. cbn [String.length].
      replace (String.length prefix + 2 - 2)%nat with (String.length prefix) by lia.
      apply sliceTo_app. }
    rewrite Hcut. split; [split|].
    + apply HasSuffix_iff. exists prefix. reflexivity.
    + apply HasPrefix_iff. destruct Hm as [->|[rest ->]].
      * exists EmptyString. symmetry. apply string_app_nil.
      * eauto.
    + destruct Hm as [->|[rest ->]]; [left; reflexivity|].
      right. apply HasPrefix_iff. exists rest. apply string_app_assoc.
Qed.

Lemma matchPrefix_cons (pattern target : string)
  (rest : list (string * string)) (path : string) :
  matchPrefix ((pattern, target) :: rest) path
  = if prefixTest pattern path then Some target else matchPrefix rest path.
Proof.
  cbn [matchPrefix]. unfold prefixTest.
  destruct (HasSuffix pattern "/*"); [|reflexivity]. cbn [andb].
  destruct (HasPrefix path _); [|reflexivity]. cbn [andb].
  destruct (_ || _); reflexivity.
Qed.

Lemma matchRegexp_cons (pattern target : string)
  (rest : list (string * string)) (path : string) :
  matchRegexp ((pattern, target) :: rest) path
  = if regexpTest pattern path then Some target else matchRegexp rest path.
Proof.
  cbn [matchRegexp]. unfold regexpTest.
  destruct (HasPrefix pattern "^" && HasSuffix pattern "$"); [|reflexivity].
  cbn [andb]. destruct (Compile pattern) as [re|]; [|reflexivity].
  destruct (MatchString re path); reflexivity.
Qed.

Lemma matchPrefix_Some (order : list (string * string)) (path target : string) :
  matchPrefix order path = Some target
  -> exists pattern, In (pattern, target) order /\ prefixTest pattern path = true.
Proof.
  induction order as [|[p t] rest IH]; [discriminate|].
  rewrite matchPrefix_cons. destruct (prefixTest p path) eqn:Hp.
  - intros [= <-]. exists p. split; [left; reflexivity|exact Hp].
  - intros Hm. destruct (IH Hm) as (pattern & Hin & Ht).
    exists pattern. split; [right; exact Hin|exact Ht].
Qed.

Lemma matchPrefix_None (order : list (string * string)) (path : string) :
  matchPrefix order path = None
  <-> forall pattern target, In (pattern, target) order
        -> prefixTest pattern path = false.
Proof.
  induction order as [|[p t] rest IH].
  - split; [intros _ ? ? []|reflexivity].
  - rewrite matchPrefix_cons. destruct (prefixTest p path) eqn:Hp.
    + split; [discriminate|]. intros Hall.
      rewrite (Hall p t) in Hp; [discriminate|left; reflexivity].
    + rewrite IH. split.
      * intros Hall pattern target [[= <- <-]|Hin]; [exact Hp|eauto].
      * intros Hall pattern target Hin. apply (Hall pattern target).
        right. exact Hin.
Qed.

Lemma matchRegexp_Some (order : list (string * string)) (path target : string) :
  matchRegexp order path = Some target
  -> exists pattern, In (pattern, target) order /\ regexpTest pattern path = true.
Proof.
  induction order as [|[p t] rest IH]; [discriminate|].
  rewrite matchRegexp_cons. destruct (regexpTest p path) eqn:Hp.
  - intros [= <-]. exists p. split; [left; reflexivity|exact Hp].
  - intros Hm. destruct (IH Hm) as (pattern & Hin & Ht).
    exists pattern. split; [right; exact Hin|exact Ht].
Qed.

Lemma matchRegexp_None (order : list (string * string)) (path : string) :
  matchRegexp order path = None
  <-> forall pattern target, In (pattern, target) order
        -> regexpTest pattern path = false.
Proof.
  induction order as [|[p t] rest IH].
  - split; [intros _ ? ? []|reflexivity].
  - rewrite matchRegexp_cons. destruct (regexpTest p path) eqn:Hp.
    + split; [discriminate|]. intros Hall.
      rewrite (Hall p t) in Hp; [discriminate|left; reflexivity].
    + rewrite IH. split.
      * intros Hall pattern target [[= <- <-]|Hin]; [exact Hp|eauto].
      * intros Hall pattern target Hin. apply (Hall pattern target).
        right. exact Hin.
Qed.

Lemma visitOrder_In (rm : RouteMatcher) (order : list (string * string))
  (p t : string) :
  visitOrder rm order -> (In (p, t) order <-> routeRules rm !! p = Some t).
Proof.
  unfold visitOrder. intros Hperm.
  rewrite <- list_elem_of_In, Hperm. apply elem_of_map_to_list.
Qed.

(** X24: [RouteMatcher.Match] prefers the rule for the exact path, then
    the rules [prefix/*], then the rules shaped [^...$], in whatever
    order the rules are visited: the target returned belongs to a rule
    of the first of these kinds that has a rule covering the path, and
    no target is returned exactly when no rule of any kind covers it.  A
    rule [prefix/*] covers [prefix] and the paths below [prefix/], and no
    other path that merely begins with [prefix]. *)
Theorem X24_RouteMatch_prefers_exact_then_prefix_then_regexp
  (rm : RouteMatcher) (order1 order2 : list (string * string)) (path : string) :
  visitOrder rm order1 -> visitOrder rm order2
  -> match RouteMatch rm order1 order2 path with
     | (target, true) =>
         routeRules rm !! path = Some target
         \/ (routeRules rm !! path = None
             /\ exists pattern, routeRules rm !! pattern = Some target
                  /\ prefixCovers pattern path)
         \/ (routeRules rm !! path = None
             /\ (forall pattern target', routeRules rm !! pattern = Some target'
                 -> ~ prefixCovers pattern path)
             /\ exists pattern, routeRules rm !! pattern = Some target
                  /\ regexpTest pattern path = true)
     | (target, false) =>
         target = EmptyString
         /\ routeRules rm !! path = None
         /\ forall pattern target', routeRules rm !! pattern = Some target'
            -> ~ prefixCovers pattern path /\ regexpTest pattern path = false
     end.
Proof.
  intros H1 H2. unfold RouteMatch.
  destruct (routeRules rm !! path) as [t|] eqn:Hexact; [left; reflexivity|].
  destruct (matchPrefix order1 path) as [t|] eqn:Hp.
  - right. left. split; [reflexivity|].
    apply matchPrefix_Some in Hp as (pattern & Hin & Ht).
    exists pattern. split; [apply (visitOrder_In rm order1); assumption|].
    apply prefixTest_iff. exact Ht.
  - assert (forall pattern target', routeRules rm !! pattern = Some target'
            -> ~ prefixCovers pattern path) as Hnone.
    { intros pattern target' Hr Hc. apply prefixTest_iff in Hc.
      rewrite (proj1 (matchPrefix_None order1 path) Hp pattern target') in Hc;
        [discriminate|].
      apply (visitOrder_In rm order1); assumption. }
    destruct (matchRegexp order2 path) as [t|] eqn:Hr.
    + right. right. split; [reflexivity|]. split; [exact Hnone|].
      apply matchRegexp_Some in Hr as (pattern & Hin & Ht).
      exists pattern. split; [apply (visitOrder_In rm order2); assumption|exact Ht].
    + split; [reflexivity|]. split; [reflexivity|].
      intros pattern target' Hrule. split; [exact (Hnone pattern target' Hrule)|].
      apply (proj1 (matchRegexp_None order2 path) Hr pattern target').
      apply (visitOrder_In rm order2); assumption.
Qed.

End route_matcher.

Lemma X24_witness_api_routes :
  match matcher.RouteMatch (H := literal.engine) route_matcher_spec.apiRoutes
          (map_to_list (matcher.routeRules route_matcher_spec.apiRoutes))
          (reverse (map_to_list (matcher.routeRules route_matcher_spec.apiRoutes)))
          "/apix" with
  | (target, true) =>
      matcher.routeRules route_matcher_spec.apiRoutes !! "/apix" = Some target
      \/ (matcher.routeRules route_matcher_spec.apiRoutes !! "/apix" = None
          /\ exists pattern,
               matcher.routeRules route_matcher_spec.apiRoutes !! pattern = Some target
               /\ route_matcher_spec.prefixCovers pattern "/apix")
      \/ (matcher.routeRules route_matcher_spec.apiRoutes !! "/apix" = None
          /\ (forall pattern target',
                matcher.routeRules route_matcher_spec.apiRoutes !! pattern = Some target'
                -> ~ route_matcher_spec.prefixCovers pattern "/apix")
          /\ exists pattern,
               matcher.routeRules route_matcher_spec.apiRoutes !! pattern = Some target
               /\ route_matcher_spec.regexpTest (H := literal.engine) pattern "/apix"
                  = true)
  | (target, false) =>
      target = EmptyString
      /\ matcher.routeRules route_matcher_spec.apiRoutes !! "/apix" = None
      /\ forall pattern target',
           matcher.routeRules route_matcher_spec.apiRoutes !! pattern = Some target'
           -> ~ route_matcher_spec.prefixCovers pattern "/apix"
              /\ route_matcher_spec.regexpTest (H := literal.engine) pattern "/apix"
                 = false
  end.
Proof.
  apply (X24_RouteMatch_prefers_exact_then_prefix_then_regexp (H := literal.engine)
           route_matcher_spec.apiRoutes).
  - unfold route_matcher_spec.visitOrder. reflexivity.
  - unfold route_matcher_spec.visitOrder. apply reverse_Permutation.
Defined.

(** ** The factory of the balancers and the defaults *)

Section balancer_factory.
Import loadbalancer loadbalancer.Backend lb_factory.

Lemma checkBackends_ok (weighted : bool) (i : Z) (bs : list Backend.t) :
  snd (checkBackends weighted i bs) = None
  <-> Forall (fun b => URL b <> EmptyString) bs.
Proof.
  revert i. induction bs as [|b rest IH]; intros i; cbn [checkBackends].
  - split; [constructor|reflexivity].
  - destruct (String.eqb_spec (URL b) EmptyString) as [He|He]; cbn [snd].
    + split; [discriminate|]. intros Hall. apply Forall_cons in Hall as [Hb _].
      contradiction.
    + specialize (IH (i + 1)).
      destruct (checkBackends weighted (i + 1) rest) as [rest' err].
      cbn [snd] in *. rewrite IH. split.
      * intros Hall. constructor; assumption.
      * intros Hall. apply Forall_cons in Hall as [_ Hall]. exact Hall.
Qed.

Lemma checkBackends_result (weighted : bool) (i : Z) (bs : list Backend.t) :
  snd (checkBackends weighted i bs) = None
  -> fst (checkBackends weighted i bs)
     = map (fun b => if weighted && (Weight b <=? 0) then setWeight b 1 else b) bs.
Proof.
  revert i. induction bs as [|b rest IH]; intros i; cbn [checkBackends map].
  - reflexivity.
  - destruct (String.eqb (URL b) EmptyString); cbn [snd]; [discriminate|].
    specialize (IH (i + 1)).
    destruct (checkBackends weighted (i + 1) rest) as [rest' err].
    cbn [fst snd] in *. intros Herr. rewrite (IH Herr). reflexivity.
Qed.

Lemma supported_In (strategy : string) :
  existsb (String.eqb strategy) GetSupportedStrategies = true
  <-> In strategy GetSupportedStrategies.
Proof.
  rewrite existsb_exists. split.
  - intros (s & Hin & He). apply String.eqb_eq in He. subst s. exact Hin.
  - intros Hin. exists strategy. split; [exact Hin|apply String.eqb_refl].
Qed.

(** X25: [validateConfig] accepts a configuration exactly when its
    strategy is one of the seven supported ones, it has a backend, every
    backend has a URL, an enabled health check has a positive interval
    and timeout, and an enabled session affinity has a positive timeout
    and a cookie name.  An accepted configuration of a weighted strategy
    leaves the call with every weight at least 1 (weights of 0 or less
    are overwritten with 1 in the caller's backends); under the other
    strategies the backends are not written. *)
Theorem X25_validateConfig_accepts_well_formed (c : FullConfig) :
  (snd (validateConfig c) = None <-> wellFormed c)
  /\ (snd (validateConfig c) = None
      -> fst (validateConfig c)
         = map (fun b => if isWeighted c && (Weight b <=? 0) then setWeight b 1
                         else b)
             (Backends (lbConfig c))
         /\ (isWeighted c = true
             -> Forall (fun b => 1 <= Weight b) (fst (validateConfig c)))
         /\ (isWeighted c = false
             -> fst (validateConfig c) = Backends (lbConfig c))).
Proof.
  unfold validateConfig, wellFormed, isWeighted.
  set (config := lbConfig c).
  set (weighted := String.eqb (Strategy config) WeightedRoundRobin
                   || String.eqb (Strategy config) WeightedRandom).
  pose proof (supported_In (Strategy config)) as Hsup.
  destruct (existsb (String.eqb (Strategy config)) GetSupportedStrategies);
    cbn [negb].
  2: { split; [|discriminate]. split; [discriminate|].
       intros (Hin & _). apply Hsup in Hin. discriminate. }
  assert (In (Strategy config) GetSupportedStrategies) as Hin by (apply Hsup; reflexivity).
  destruct (Backends config) as [|b0 rest] eqn:Hbs.
  { cbn [length Z.of_nat Z.eqb]. split; [|discriminate].
    split; [discriminate|]. intros (_ & Hne & _). contradiction. }
  rewrite <- Hbs.
  replace (Z.of_nat (length (Backends config)) =? 0) with false
    by (rewrite Hbs; reflexivity).
  pose proof (checkBackends_ok weighted 0 (Backends config)) as Hok.
  pose proof (checkBackends_result weighted 0 (Backends config)) as Hres.
  destruct (checkBackends weighted 0 (Backends config)) as [bs err].
  cbn [fst snd] in Hok, Hres.
  destruct err as [e|].
  { split; [|discriminate]. split; [discriminate|].
    intros (_ & _ & Hurls & _). apply Hok in Hurls. discriminate. }
  assert (Forall (fun b => URL b <> EmptyString) (Backends config)) as Hurls
    by (apply Hok; reflexivity).
  specialize (Hres eq_refl). subst bs.
  assert (Backends config <> []) as Hne by (rewrite Hbs; discriminate).
  assert (Hweights :
            weighted = true
            -> Forall (fun b => 1 <= Weight b)
                 (map (fun b => if weighted && (Weight b <=? 0) then setWeight b 1
                                else b) (Backends config))).
  { intros ->. cbn [andb]. apply Forall_forall. intros b Hb.
    apply list_elem_of_In, in_map_iff in Hb as (b' & <- & _).
    destruct (Weight b' <=? 0) eqn:Hw; [cbn; lia|]. apply Z.leb_gt in Hw. lia. }
  assert (Hplain :
            weighted = false
            -> map (fun b => if weighted && (Weight b <=? 0) then setWeight b 1
                             else b) (Backends config)
               = Backends config).
  { intros ->. cbn [andb]. apply map_id. }
  destruct (Enabled (GlobalHealthCheck config)) eqn:Hen; cbn [andb].
  - destruct (Interval (GlobalHealthCheck config) <=? 0) eqn:Hi.
    { apply Z.leb_le in Hi. split; [|discriminate]. split; [discriminate|].
      intros (_ & _ & _ & Hhc & _). destruct (Hhc eq_refl). lia. }
    destruct (Timeout (GlobalHealthCheck config) <=? 0) eqn:Ht.
    { apply Z.leb_le in Ht. split; [|discriminate]. split; [discriminate|].
      intros (_ & _ & _ & Hhc & _). destruct (Hhc eq_refl). lia. }
    apply Z.leb_gt in Hi, Ht.
    destruct (SessionAffinity c) as [sa|].
    + destruct (SessionAffinityConfig.Enabled sa) eqn:Hsa; cbn [andb].
      * destruct (SessionAffinityConfig.Timeout sa <=? 0) eqn:Hst.
        { apply Z.leb_le in Hst. split; [|discriminate]. split; [discriminate|].
          intros (_ & _ & _ & _ & Hs). destruct (Hs sa eq_refl Hsa). lia. }
        destruct (String.eqb_spec (SessionAffinityConfig.CookieName sa) EmptyString)
          as [Hc|Hc].
        { split; [|discriminate]. split; [discriminate|].
          intros (_ & _ & _ & _ & Hs). destruct (Hs sa eq_refl Hsa). contradiction. }
        apply Z.leb_gt in Hst. cbn [fst snd]. split; [|auto].
        split; [|reflexivity]. intros _.
        refine (conj Hin (conj Hne (conj Hurls (conj _ _)))).
        -- intros _. lia.
        -- intros sa' [= <-] _. split; [lia|exact Hc].
      * cbn [fst snd]. split; [|auto]. split; [|reflexivity]. intros _.
        refine (conj Hin (conj Hne (conj Hurls (conj _ _)))).
        -- intros _. lia.
        -- intros sa' [= <-] Hx. congruence.
    + cbn [fst snd]. split; [|auto]. split; [|reflexivity]. intros _.
      refine (conj Hin (conj Hne (conj Hurls (conj _ _)))).
      * intros _. lia.
      * intros sa' Hx. discriminate.
  - destruct (SessionAffinity c) as [sa|].
    + destruct (SessionAffinityConfig.Enabled sa) eqn:Hsa; cbn [andb].
      * destruct (SessionAffinityConfig.Timeout sa <=? 0) eqn:Hst.
        { apply Z.leb_le in Hst. split; [|discriminate]. split; [discriminate|].
          intros (_ & _ & _ & _ & Hs). destruct (Hs sa eq_refl Hsa). lia. }
        destruct (String.eqb_spec (SessionAffinityConfig.CookieName sa) EmptyString)
          as [Hc|Hc].
        { split; [|discriminate]. split; [discriminate|].
          intros (_ & _ & _ & _ & Hs). destruct (Hs sa eq_refl Hsa). contradiction. }
        apply Z.leb_gt in Hst. cbn [fst snd]. split; [|auto].
        split; [|reflexivity]. intros _.
        refine (conj Hin (conj Hne (conj Hurls (conj _ _)))).
        -- intros Hx. discriminate.
        -- intros sa' [= <-] _. split; [lia|exact Hc].
      * cbn [fst snd]. split; [|auto]. split; [|reflexivity]. intros _.
        refine (conj Hin (conj Hne (conj Hurls (conj _ _)))).
        -- intros Hx. discriminate.
        -- intros sa' [= <-] Hx. congruence.
    + cbn [fst snd]. split; [|auto]. split; [|reflexivity]. intros _.
      refine (conj Hin (conj Hne (conj Hurls (conj _ _)))).
      * intros Hx. discriminate.
      * intros sa' Hx. discriminate.
Qed.

(** A configuration that is refused for its second backend has had the
    weight of its first backend overwritten all the same. *)
Example refused_configuration_is_written :
  validateConfig brokenConfig
  = ([lb_spec.mkBackend "http://10.0.0.1:8080" 1; lb_spec.mkBackend EmptyString 2],
     Some (URLRequired 1)).
Proof. reflexivity. Qed.

Lemma defaultBackend_idempotent (b : Backend.t) :
  defaultBackend (defaultBackend b) = defaultBackend b.
Proof.
  unfold defaultBackend.
  destruct (Weight b <=? 0) eqn:Hw, (Enabled (HealthCheck b)) eqn:He;
    simpl; rewrite ?Hw, ?He; simpl; rewrite ?Hw, ?He; reflexivity.
Qed.

(** X26: [SetDefaultValues] is idempotent, and after it the strategy is
    not empty, the session affinity is set, every backend has a weight
    of at least 1 and every health check that is not enabled carries the
    default interval, timeout and path, whatever was configured for
    it. *)
Theorem X26_SetDefaultValues_idempotent (cfg : FullConfig) :
  SetDefaultValues (SetDefaultValues cfg) = SetDefaultValues cfg
  /\ (Strategy (lbConfig (SetDefaultValues cfg)) <> EmptyString)
  /\ SessionAffinity (SetDefaultValues cfg) <> None
  /\ Forall (fun b => 1 <= Weight b
                      /\ (Enabled (HealthCheck b) = false
                          -> HealthCheck b = defaultHealthCheck))
       (Backends (lbConfig (SetDefaultValues cfg)))
  /\ (Enabled (GlobalHealthCheck (lbConfig (SetDefaultValues cfg))) = false
      -> GlobalHealthCheck (lbConfig (SetDefaultValues cfg)) = defaultHealthCheck).
Proof.
  unfold SetDefaultValues. cbn [lbConfig SessionAffinity Strategy Backends
                                 GlobalHealthCheck].
  split; [|split; [|split; [|split]]].
  - f_equal.
    + f_equal.
      * destruct (String.eqb_spec (Strategy (lbConfig cfg)) EmptyString) as [He|He];
          [reflexivity|].
        apply String.eqb_neq in He. rewrite He. reflexivity.
      * rewrite map_map. apply map_ext. intros b. apply defaultBackend_idempotent.
      * destruct (Enabled (GlobalHealthCheck (lbConfig cfg))) eqn:He; cbn [negb].
        -- rewrite He. reflexivity.
        -- reflexivity.
    + destruct (SessionAffinity cfg); reflexivity.
  - destruct (String.eqb_spec (Strategy (lbConfig cfg)) EmptyString) as [He|He];
      [discriminate|exact He].
  - destruct (SessionAffinity cfg); discriminate.
  - apply Forall_forall. intros b Hb.
    apply list_elem_of_In, in_map_iff in Hb as (b' & <- & _).
    unfold defaultBackend.
    destruct (Weight b' <=? 0) eqn:Hw, (Enabled (HealthCheck b')) eqn:He;
      simpl; rewrite ?He; simpl; try apply Z.leb_gt in Hw;
      (split; [lia|]); try reflexivity; intros Hx; congruence.
  - destruct (Enabled (GlobalHealthCheck (lbConfig cfg))) eqn:He; cbn [negb];
      [intros Hx; congruence|reflexivity].
Qed.

End balancer_factory.

(** ** Clients of the rate limiters do not affect each other *)

Section limiter_isolation.
Import middleware.

Lemma builtin_Handle_local (rlm rlm' : ratelimit.RateLimitMiddleware) (now : Z)
  (ctx : Context) :
  ratelimit.requestsPerMinute rlm' = ratelimit.requestsPerMinute rlm
  -> ratelimit.burstSize rlm' = ratelimit.burstSize rlm
  -> ratelimit.clients rlm' !! getClientIP (Request ctx)
     = ratelimit.clients rlm !! getClientIP (Request ctx)
  -> exists l ctx' ok,
       ratelimit.Handle rlm now ctx
       = (ratelimit.withClient rlm (getClientIP (Request ctx)) l, ctx', ok)
       /\ ratelimit.Handle rlm' now ctx
          = (ratelimit.withClient rlm' (getClientIP (Request ctx)) l, ctx', ok).
Proof.
  intros Hr Hb Hc. unfold ratelimit.Handle. rewrite Hr, Hb, Hc.
  set (limiter := if gotime.Sub now _ >? gotime.Minute then _ else _).
  destruct (ratelimit.requests limiter >=? ratelimit.requestsPerMinute rlm);
    [destruct (ratelimit.burst limiter <=? 0)|]; eauto.
Qed.

Lemma plugin_Handle_local (rlm rlm' : ratelimit_plugin.RateLimitMiddleware)
  (now : Z) (ctx : Context) :
  ratelimit_plugin.requestsPerMinute rlm' = ratelimit_plugin.requestsPerMinute rlm
  -> ratelimit_plugin.burstSize rlm' = ratelimit_plugin.burstSize rlm
  -> ratelimit_plugin.clients rlm' !! getClientIP (Request ctx)
     = ratelimit_plugin.clients rlm !! getClientIP (Request ctx)
  -> exists l ctx' ok,
       ratelimit_plugin.Handle rlm now ctx
       = (ratelimit_plugin.withClient rlm (getClientIP (Request ctx)) l, ctx', ok)
       /\ ratelimit_plugin.Handle rlm' now ctx
          = (ratelimit_plugin.withClient rlm' (getClientIP (Request ctx)) l, ctx', ok).
Proof.
  intros Hr Hb Hc. unfold ratelimit_plugin.Handle. rewrite Hr, Hb, Hc.
  set (limiter := if gotime.Sub now _ >? gotime.Minute then _ else _).
  destruct (ratelimit_plugin.count limiter >=? _); eauto.
Qed.

(** X27: the rate limiters keep their clients apart: a request changes
    the record of its own client only, and two requests of different
    clients can be handled in either order with the same two decisions,
    the same contexts and the same state afterwards.  This holds for the
    built-in middleware and for the plugin. *)
Theorem X27_rate_limiters_isolate_clients (nowA nowB : Z) (ctxA ctxB : Context) :
  getClientIP (Request ctxA) <> getClientIP (Request ctxB)
  -> (forall rlm,
        let '(s1, cA, okA) := ratelimit.Handle rlm nowA ctxA in
        let '(s2, cB, okB) := ratelimit.Handle s1 nowB ctxB in
        let '(t1, cB', okB') := ratelimit.Handle rlm nowB ctxB in
        let '(t2, cA', okA') := ratelimit.Handle t1 nowA ctxA in
        ratelimit.clients s1 !! getClientIP (Request ctxB)
        = ratelimit.clients rlm !! getClientIP (Request ctxB)
        /\ (okA, cA) = (okA', cA') /\ (okB, cB) = (okB', cB') /\ s2 = t2)
     /\ (forall rlm,
           let '(s1, cA, okA) := ratelimit_plugin.Handle rlm nowA ctxA in
           let '(s2, cB, okB) := ratelimit_plugin.Handle s1 nowB ctxB in
           let '(t1, cB', okB') := ratelimit_plugin.Handle rlm nowB ctxB in
           let '(t2, cA', okA') := ratelimit_plugin.Handle t1 nowA ctxA in
           ratelimit_plugin.clients s1 !! getClientIP (Request ctxB)
           = ratelimit_plugin.clients rlm !! getClientIP (Request ctxB)
           /\ (okA, cA) = (okA', cA') /\ (okB, cB) = (okB', cB') /\ s2 = t2).
Proof.
  intros Hne. split; intros rlm.
  - destruct (builtin_Handle_local rlm rlm nowA ctxA eq_refl eq_refl eq_refl)
      as (lA & cA & okA & HA & _).
    rewrite HA.
    destruct (builtin_Handle_local rlm
                (ratelimit.withClient rlm (getClientIP (Request ctxA)) lA)
                nowB ctxB eq_refl eq_refl)
      as (lB & cB & okB & HB & HB').
    { cbn [ratelimit.withClient ratelimit.clients].
      apply lookup_insert_ne. exact Hne. }
    rewrite HB', HB.
    destruct (builtin_Handle_local rlm
                (ratelimit.withClient rlm (getClientIP (Request ctxB)) lB)
                nowA ctxA eq_refl eq_refl)
      as (lA' & cA' & okA' & HA1 & HA').
    { cbn [ratelimit.withClient ratelimit.clients].
      apply lookup_insert_ne. congruence. }
    rewrite HA in HA1. injection HA1 as Hl <- <-.
    assert (lA' = lA) as ->.
    { apply (f_equal (fun m => m !! getClientIP (Request ctxA))) in Hl.
      cbn beta in Hl. rewrite !lookup_insert_eq in Hl. congruence. }
    rewrite HA'. split; [|split; [reflexivity|split; [reflexivity|]]].
    + cbn [ratelimit.withClient ratelimit.clients].
      apply lookup_insert_ne. exact Hne.
    + unfold ratelimit.withClient. cbn [ratelimit.requestsPerMinute
                                         ratelimit.burstSize ratelimit.clients].
      f_equal. apply insert_insert_ne. congruence.
  - destruct (plugin_Handle_local rlm rlm nowA ctxA eq_refl eq_refl eq_refl)
      as (lA & cA & okA & HA & _).
    rewrite HA.
    destruct (plugin_Handle_local rlm
                (ratelimit_plugin.withClient rlm (getClientIP (Request ctxA)) lA)
                nowB ctxB eq_refl eq_refl)
      as (lB & cB & okB & HB & HB').
    { cbn [ratelimit_plugin.withClient ratelimit_plugin.clients].
      apply lookup_insert_ne. exact Hne. }
    rewrite HB', HB.
    destruct (plugin_Handle_local rlm
                (ratelimit_plugin.withClient rlm (getClientIP (Request ctxB)) lB)
                nowA ctxA eq_refl eq_refl)
      as (lA' & cA' & okA' & HA1 & HA').
    { cbn [ratelimit_plugin.withClient ratelimit_plugin.clients].
      apply lookup_insert_ne. congruence. }
    rewrite HA in HA1. injection HA1 as Hl <- <-.
    assert (lA' = lA) as ->.
    { apply (f_equal (fun m => m !! getClientIP (Request ctxA))) in Hl.
      cbn beta in Hl. rewrite !lookup_insert_eq in Hl. congruence. }
    rewrite HA'. split; [|split; [reflexivity|split; [reflexivity|]]].
    + cbn [ratelimit_plugin.withClient ratelimit_plugin.clients].
      apply lookup_insert_ne. exact Hne.
    + unfold ratelimit_plugin.withClient.
      cbn [ratelimit_plugin.requestsPerMinute ratelimit_plugin.burstSize
           ratelimit_plugin.clients].
      f_equal. apply insert_insert_ne. congruence.
Qed.

End limiter_isolation.

Lemma X27_witness_two_clients :
  let '(s1, cA, okA) :=
    ratelimit_plugin.Handle ratelimit_spec.twoPerMinutePlugin 0
      (ratelimit_spec.contextOf ratelimit_spec.forwardedRequest) in
  let '(s2, cB, okB) :=
    ratelimit_plugin.Handle s1 gotime.Second
      (ratelimit_spec.contextOf ratelimit_spec.directRequest) in
  let '(t1, cB', okB') :=
    ratelimit_plugin.Handle ratelimit_spec.twoPerMinutePlugin gotime.Second
      (ratelimit_spec.contextOf ratelimit_spec.directRequest) in
  let '(t2, cA', okA') :=
    ratelimit_plugin.Handle t1 0
      (ratelimit_spec.contextOf ratelimit_spec.forwardedRequest) in
  ratelimit_plugin.clients s1
    !! getClientIP (middleware.Request
                      (ratelimit_spec.contextOf ratelimit_spec.directRequest))
  = ratelimit_plugin.clients ratelimit_spec.twoPerMinutePlugin
      !! getClientIP (middleware.Request
                        (ratelimit_spec.contextOf ratelimit_spec.directRequest))
  /\ (okA, cA) = (okA', cA') /\ (okB, cB) = (okB', cB') /\ s2 = t2.
Proof.
  assert (getClientIP
            (middleware.Request
               (ratelimit_spec.contextOf ratelimit_spec.forwardedRequest))
          <> getClientIP
               (middleware.Request
                  (ratelimit_spec.contextOf ratelimit_spec.directRequest)))
    as Hne.
  { vm_compute. discriminate. }
  exact (proj2 (X27_rate_limiters_isolate_clients 0 gotime.Second
                  (ratelimit_spec.contextOf ratelimit_spec.forwardedRequest)
                  (ratelimit_spec.contextOf ratelimit_spec.directRequest) Hne)
           ratelimit_spec.twoPerMinutePlugin).
Defined.

(** ** Substitution rules in sequence *)

Section replace_rules.
Import replace.
Context `{RegexpEngine}.

(** X28: [ApplyReplaceRules] applies the rules in order, each to the
    output of the one before, so a rule list split in two can be applied
    in two calls; and the call runs to its end exactly when the pattern
    of every rule compiles, whatever the content is: one pattern that
    does not compile makes the call panic even if nothing would have
    matched. *)
Theorem X28_ApplyReplaceRules_composes (content : string)
  (rules1 rules2 : list ReplaceRule) :
  ApplyReplaceRules content (rules1 ++ rules2)%list
  = match ApplyReplaceRules content rules1 with
    | Some content' => ApplyReplaceRules content' rules2
    | None => None
    end
  /\ (ApplyReplaceRules content rules1 = None
      <-> Exists (fun rule => Compile (Pattern rule) = None) rules1).
Proof.
  split.
  - revert content. induction rules1 as [|rule rest IH]; intros content;
      [reflexivity|].
    cbn [app]. rewrite !ApplyReplaceRules_cons.
    destruct (Compile (Pattern rule)); [apply IH|reflexivity].
  - revert content. induction rules1 as [|rule rest IH]; intros content.
    + cbn [ApplyReplaceRules]. split; [discriminate|]. intros Hex.
      apply Exists_nil in Hex. contradiction.
    + rewrite ApplyReplaceRules_cons, Exists_cons.
      destruct (Compile (Pattern rule)) as [re|] eqn:Hc.
      * rewrite IH. split; [right; assumption|].
        intros [Hx|Hx]; [discriminate|exact Hx].
      * split; [left; reflexivity|reflexivity].
Qed.

End replace_rules.

(** ** Looking up and removing a middleware of the chain *)

Section chain_lookup.
Import middleware middleware_ops.

Lemma findByName_removeFirst (name : string) (mws : list Middleware) :
  match findByName name mws with
  | Some mw =>
      Name mw = name
      /\ exists pre post,
           mws = (pre ++ mw :: post)%list
           /\ Forall (fun m => Name m <> name) pre
           /\ removeFirst name mws = Some (pre ++ post)%list
  | None => removeFirst name mws = None
  end.
Proof.
  induction mws as [|m rest IH]; [reflexivity|].
  cbn [findByName removeFirst].
  destruct (String.eqb_spec (Name m) name) as [Hn|Hn].
  - split; [exact Hn|]. exists [], rest. repeat split. constructor.
  - destruct (findByName name rest) as [mw|].
    + destruct IH as (Hmw & pre & post & -> & Hpre & Hr).
      split; [exact Hmw|]. exists (m :: pre), post. rewrite Hr.
      repeat split. constructor; assumption.
    + rewrite IH. reflexivity.
Qed.

(** X29: [GetMiddleware] returns the first middleware of the chain with
    the given name, which is the one [Remove] takes out; it finds none
    exactly when [Remove] reports the name as missing.  After [Clear] the
    chain is empty and [Execute] passes every request on unchanged. *)
Theorem X29_GetMiddleware_agrees_with_Remove (dmc : DefaultMiddlewareChain)
  (name : string) :
  match GetMiddleware dmc name with
  | Some mw =>
      Name mw = name
      /\ exists pre post,
           middlewares dmc = (pre ++ mw :: post)%list
           /\ Forall (fun m => Name m <> name) pre
           /\ Remove dmc name = ({| middlewares := (pre ++ post)%list |}, None)
  | None => Remove dmc name = (dmc, Some (NotInChain name))
  end
  /\ Size (Clear dmc) = 0
  /\ GetMiddleware (Clear dmc) name = None
  /\ forall ctx, Execute (Clear dmc) ctx = (ctx, true).
Proof.
  split; [|repeat split].
  unfold GetMiddleware, Remove.
  pose proof (findByName_removeFirst name (middlewares dmc)) as Hf.
  destruct (findByName name (middlewares dmc)) as [mw|].
  - destruct Hf as (Hmw & pre & post & Hl & Hpre & Hr).
    split; [exact Hmw|]. exists pre, post. rewrite Hr. auto.
  - rewrite Hf. reflexivity.
Qed.

End chain_lookup.
